(** * codeplug: normalization-and-projection pipeline

    A shallow embedding of the scripts that turn repeater, park and summit
    lists into Icom ID-52PLUS import files, and the properties of its
    design document checked against them.

    Conventions of the embedding.
    - A Python [str] is a list of Unicode code points ([PyStr.str]); slicing
      and [len] count code points, as in Python.
    - A Python [float] is an IEEE 754 binary64 value: Rocq's primitive
      [float], whose operations the standard library specifies on
      [spec_float].  The grid geocoder is the exception: its sums of a few
      multiples of 1/240 degree end in [round(x, 6)], and are computed in
      exact rationals.
    - A [csv.DictReader] row is a finite map from column names to cells.
    - [float(...)], [str.lower] and [unicodedata.normalize] belong to the
      Python runtime; they enter as section variables, with small concrete
      instances used to run the model on examples. *)

From Stdlib Require Import ZArith NArith QArith Qround Lqa Lia List String Ascii Bool.
From Stdlib Require Import Floats.
From Stdlib Require Uint63.
From Stdlib Require Import Sorting.Permutation Sorting.Sorted DecimalString.
From stdpp Require Import base option list gmap strings.

Set Warnings "-inexact-float".

(** ** Python strings *)

Module PyStr.

Definition char := N.
Definition str := list N.

(** An ASCII literal as a Python string. *)
Fixpoint lit (s : string) : str :=
  match s with
  | EmptyString => []
  | String a s' => N_of_ascii a :: lit s'
  end.

Definition is_ascii (s : str) : Prop := Forall (fun c => (c < 128)%N) s.

(** [ord(c) - ord('A')] and friends are integer arithmetic on code points. *)
Definition ord (c : char) : Z := Z.of_N c.

(** [s[i]]: [None] stands for [IndexError]. *)
Definition index (s : str) (i : nat) : option char := s !! i.

(** [str.isspace] on one code point (Unicode White_Space plus the four
    information separators, as CPython has it). *)
Definition isspace (c : char) : bool :=
  ((9 <=? c) && (c <=? 13) || (28 <=? c) && (c <=? 32) || (c =? 133) || (c =? 160)
   || (c =? 5760) || (8192 <=? c) && (c <=? 8202) || (c =? 8232) || (c =? 8233)
   || (c =? 8239) || (c =? 8287) || (c =? 12288))%N.

Fixpoint lstrip (s : str) : str :=
  match s with
  | [] => []
  | c :: s' => if isspace c then lstrip s' else s
  end.

Definition rstrip (s : str) : str := rev (lstrip (rev s)).

(** [s.strip()] *)
Definition strip (s : str) : str := rstrip (lstrip s).

Fixpoint starts_with (key s : str) : bool :=
  match key, s with
  | [], _ => true
  | _ :: _, [] => false
  | k :: key', c :: s' => (k =? c)%N && starts_with key' s'
  end.

(** Left-to-right scan of [s.replace(key, rep)] for a non-empty [key];
    [skip] counts the code points of a match that are still to be
    consumed. *)
Fixpoint replace_from (key rep : str) (skip : nat) (s : str) : str :=
  match s with
  | [] => []
  | c :: s' =>
      match skip with
      | S k => replace_from key rep k s'
      | O => if starts_with key s
             then rep ++ replace_from key rep (length key - 1) s'
             else c :: replace_from key rep 0 s'
      end
  end.

(** [s.replace(key, rep)]; an empty [key] matches between all code points. *)
Definition replace (key rep s : str) : str :=
  match key with
  | [] => rep ++ flat_map (fun c => c :: rep) s
  | _ :: _ => replace_from key rep 0 s
  end.

(** [str.upper] and [str.lower] on ASCII text.  Python also maps code
    points outside ASCII, and not always one to one (the sharp s upper-cases
    to the two letters SS); the model leaves them alone, so it is
    [str.upper] only where [is_ascii] holds, and a statement that compares
    what two functions make of the upper-cased text carries [is_ascii] as a
    hypothesis. *)
Definition upper_char (c : char) : char :=
  if ((97 <=? c) && (c <=? 122))%N then (c - 32)%N else c.
Definition lower_char (c : char) : char :=
  if ((65 <=? c) && (c <=? 90))%N then (c + 32)%N else c.
Definition upper (s : str) : str := map upper_char s.
Definition ascii_lower (s : str) : str := map lower_char s.

(** [int(c)] for a one-character ASCII string: a decimal digit, otherwise
    [ValueError] ([None]).  Python's [int] also reads the decimal digits of
    other scripts, which [is_ascii] excludes. *)
Definition int_of_char (c : char) : option Z :=
  if ((48 <=? c) && (c <=? 57))%N then Some (Z.of_N c - 48)%Z else None.

Definition str_eqb (a b : str) : bool := bool_decide (a = b).

End PyStr.

(** ** Python floats *)

Module PyFloat.
Local Open Scope float_scope.

(** [a <= x <= b] *)
Definition between (a x b : float) : bool := (a <=? x) && (x <=? b).

(** [max(a, b)]: the second argument only if it is strictly larger. *)
Definition pymax (a b : float) : float := if a <? b then b else a.

(** [float(z)] for an integer of magnitude below 2^63; exact below 2^53. *)
Definition of_Z (z : Z) : float :=
  if (z <? 0)%Z then - of_uint63 (Uint63.of_Z (- z)) else of_uint63 (Uint63.of_Z z).

(** [int(x)]: truncation towards zero; [None] for the [OverflowError] and
    [ValueError] of the infinities and NaN. *)
Definition int_of_float (x : float) : option Z :=
  match Prim2SF x with
  | S754_zero _ => Some 0%Z
  | S754_finite s m e =>
      let magnitude := Z.shiftl (Z.pos m) e in
      Some (if s then - magnitude else magnitude)%Z
  | S754_infinity _ | S754_nan => None
  end.

(** The rational a finite float stands for. *)
Definition to_Q (x : float) : option Q :=
  match Prim2SF x with
  | S754_zero _ => Some 0%Q
  | S754_finite s m e =>
      let magnitude :=
        match e with
        | Z.neg k => Qmake (Z.pos m) (2 ^ k)
        | _ => inject_Z (Z.shiftl (Z.pos m) e)
        end in
      Some (if s then Qopp magnitude else magnitude)
  | S754_infinity _ | S754_nan => None
  end.

(** *** The order of comparisons *)

Definition nan64 (x : float) : Prop := Prim2SF x = S754_nan.

(** Position of a binary64 value in the order of comparisons: exponent and
    mantissa packed into one integer, negated for negative values; the two
    zeros share 0 and the infinities lie beyond every finite value. *)
Definition rank (x : spec_float) : Z :=
  match x with
  | S754_zero _ | S754_nan => 0
  | S754_infinity s => if s then - (2047 * 2 ^ 53) else 2047 * 2 ^ 53
  | S754_finite s m e =>
      if s then - ((e + 1075) * 2 ^ 53 + Z.pos m) else (e + 1075) * 2 ^ 53 + Z.pos m
  end%Z.

Definition rank64 (x : float) : Z := rank (Prim2SF x).

End PyFloat.

(** ** Band plan repair: output/fix_frequency_bands.py *)

Module BandPlan.
Import PyFloat.
Local Open Scope float_scope.

(** Lines 28-37, "Fix common frequency issues". *)
Definition fix_common_issues (frequency : float) : float :=
  if (50 <=? frequency) && (frequency <=? 54) then frequency + 94
  else if (28 <=? frequency) && (frequency <=? 29.7) then frequency + 116
  else if frequency <? 144 then
    if 50 <? frequency then frequency + 94
    else 145.0
  else frequency.

(** Lines 39-57, "Ensure frequencies are within amateur bands". *)
Definition ensure_amateur_band (frequency : float) : float :=
  if (144 <=? frequency) && (frequency <=? 146) then frequency
  else if (430 <=? frequency) && (frequency <=? 440) then frequency
  else if (1240 <=? frequency) && (frequency <=? 1300) then frequency
  else if (2300 <=? frequency) && (frequency <=? 2450) then frequency
  else if 2000 <? frequency then frequency
  else if frequency <? 200 then 145.0
  else if (400 <=? frequency) && (frequency <=? 500) then frequency
  else 145.0.

(** The frequency written back for a row whose [Frequency] parsed. *)
Definition repair (frequency : float) : float :=
  ensure_amateur_band (fix_common_issues frequency).

(** Inside the 2 m band, 144-146 MHz. *)
Definition in_2m (f : float) : Prop := between 144 f 146 = true.

(** A frequency that both phases leave as it is. *)
Definition settled (v : float) : Prop :=
  fix_common_issues v = v /\ ensure_amateur_band v = v.

End BandPlan.

(** ** Text normalizer: the copies of [convert_umlauts] *)

Module TextNormalizer.
Import PyStr.

(** One pass of [for umlaut, replacement in umlaut_map.items():
    result = result.replace(umlaut, replacement)], in the insertion order
    of the dict literal. *)
Definition apply_map (umlaut_map : list (str * str)) (text : str) : str :=
  fold_left (fun result kv => replace kv.1 kv.2 result) umlaut_map text.

(** [''.join(char for char in result if ord(char) < 128)] *)
Definition drop_non_ascii (s : str) : str := filter (fun c => (c < 128)%N) s.

(** The entry that the source text [''': "'", ''': "'"] denotes: the
    first three quotes open a triple-quoted string that the next three
    close, so the key is the seven characters between them. *)
Definition triple_quote_entry : str * str :=
  ([58; 32; 34; 39; 34; 44; 32]%N, lit "'").

(** Entries shared by the tables whose keys are written in UTF-8:
    German umlauts, Romance accents, dashes, quotes and the ellipsis.
    ['"': '"'] occurs twice in each literal and is one entry. *)
Definition western_entries : list (str * str) :=
  [ ([228], lit "ae"); ([196], lit "Ae"); ([246], lit "oe"); ([214], lit "Oe");
    ([252], lit "ue"); ([220], lit "Ue"); ([223], lit "ss");
    ([233], lit "e"); ([201], lit "E"); ([232], lit "e"); ([200], lit "E");
    ([225], lit "a"); ([193], lit "A"); ([224], lit "a"); ([192], lit "A");
    ([237], lit "i"); ([205], lit "I"); ([236], lit "i"); ([204], lit "I");
    ([243], lit "o"); ([211], lit "O"); ([242], lit "o"); ([210], lit "O");
    ([250], lit "u"); ([218], lit "U"); ([249], lit "u"); ([217], lit "U");
    ([241], lit "n"); ([209], lit "N"); ([231], lit "c"); ([199], lit "C");
    ([8211], lit "-"); ([8212], lit "-"); ([34], [34]);
    triple_quote_entry; ([8230], lit "...") ]%N.

(** Slavic entries of the longer tables. *)
Definition slavic_entries : list (str * str) :=
  [ ([345], lit "r"); ([344], lit "R"); ([318], lit "l"); ([317], lit "L");
    ([353], lit "s"); ([352], lit "S"); ([357], lit "t"); ([356], lit "T");
    ([382], lit "z"); ([381], lit "Z"); ([253], lit "y"); ([221], lit "Y");
    ([269], lit "c"); ([268], lit "C"); ([271], lit "d"); ([270], lit "D");
    ([328], lit "n"); ([327], lit "N"); ([244], lit "o"); ([212], lit "O") ]%N.

(** The table of scripts/create_icom_sota_csv.py as the file has it: every
    key is the two or three code points that the UTF-8 bytes of the
    intended letter give when read as Mac Roman. *)
Definition sota_entries : list (str * str) :=
  [ ([8730; 167], lit "ae"); ([8730; 209], lit "Ae");
    ([8730; 8706], lit "oe"); ([8730; 241], lit "Oe");
    ([8730; 186], lit "ue"); ([8730; 250], lit "Ue");
    ([8730; 252], lit "ss");
    ([8730; 169], lit "e"); ([8730; 226], lit "E");
    ([8730; 174], lit "e"); ([8730; 224], lit "E");
    ([8730; 176], lit "a"); ([8730; 197], lit "A");
    ([8730; 8224], lit "a"); ([8730; 196], lit "A");
    ([8730; 8800], lit "i"); ([8730; 231], lit "I");
    ([8730; 168], lit "i"); ([8730; 229], lit "I");
    ([8730; 8805], lit "o"); ([8730; 236], lit "O");
    ([8730; 8804], lit "o"); ([8730; 237], lit "O");
    ([8730; 8747], lit "u"); ([8730; 246], lit "U");
    ([8730; 960], lit "u"); ([8730; 244], lit "U");
    ([8730; 177], lit "n"); ([8730; 235], lit "N");
    ([8730; 223], lit "c"); ([8730; 225], lit "C");
    ([8218; 196; 236], lit "-"); ([8218; 196; 238], lit "-");
    ([34], [34]); triple_quote_entry;
    ([402; 230], lit "l"); ([402; 937], lit "L");
    ([8776; 230], lit "z"); ([8776; 937], lit "Z");
    ([402; 231], lit "c"); ([402; 229], lit "C");
    ([8776; 176], lit "s"); ([8776; 8224], lit "S");
    ([8730; 937], lit "y"); ([8730; 249], lit "Y");
    ([8776; 8226], lit "t"); ([8776; 167], lit "T");
    ([8776; 224], lit "n"); ([8776; 225], lit "N");
    ([402; 232], lit "d"); ([402; 233], lit "D");
    ([8776; 244], lit "r"); ([8776; 242], lit "R");
    ([8218; 196; 182], lit "...") ]%N.

Section WithNFD.
(** [unicodedata.normalize('NFD', _)] *)
Variable nfd : str -> str.

(** output/fix_umlauts.py *)
Definition convert_umlauts_fix (text : str) : str :=
  match text with
  | [] => text
  | _ => drop_non_ascii (nfd (apply_map western_entries text))
  end.

(** scripts/create_icom_sota_csv.py *)
Definition convert_umlauts_sota (text : str) : str :=
  match text with
  | [] => text
  | _ => drop_non_ascii (nfd (apply_map sota_entries text))
  end.
End WithNFD.

(** output/create_pota_parks_api.py, output/create_all_pota_parks.py,
    scripts/generate_gps_data.py, scripts/create_sota_gps_format.py and
    scripts/create_pota_gps_format.py: the long table, no decomposition. *)
Definition convert_umlauts_api (text : str) : str :=
  match text with
  | [] => text
  | _ => apply_map (western_entries ++ slavic_entries) text
  end.

(** output/create_icom_pota_csv.py: the western table and the two entries
    for r with caron. *)
Definition convert_umlauts_pota (text : str) : str :=
  match text with
  | [] => text
  | _ => apply_map (western_entries ++ [([345], lit "r"); ([344], lit "R")]%N) text
  end.

(** Combining marks. *)
Definition grave : char := 768%N.
Definition acute : char := 769%N.
Definition circumflex : char := 770%N.
Definition tilde : char := 771%N.
Definition diaeresis : char := 776%N.
Definition caron : char := 780%N.
Definition cedilla : char := 807%N.

(** Modelled from the Unicode Character Database: the canonical
    decomposition of the precomposed Latin letters that the tables above
    name (base letter followed by one combining mark).  Sharp s, the
    dashes and the ellipsis have no canonical decomposition. *)
Definition decomposition (c : char) : option (char * char) :=
  match c with
  | 192 => Some (65, grave) | 193 => Some (65, acute) | 196 => Some (65, diaeresis)
  | 199 => Some (67, cedilla) | 200 => Some (69, grave) | 201 => Some (69, acute)
  | 204 => Some (73, grave) | 205 => Some (73, acute) | 209 => Some (78, tilde)
  | 210 => Some (79, grave) | 211 => Some (79, acute) | 212 => Some (79, circumflex)
  | 214 => Some (79, diaeresis) | 217 => Some (85, grave) | 218 => Some (85, acute)
  | 220 => Some (85, diaeresis) | 221 => Some (89, acute)
  | 224 => Some (97, grave) | 225 => Some (97, acute) | 228 => Some (97, diaeresis)
  | 231 => Some (99, cedilla) | 232 => Some (101, grave) | 233 => Some (101, acute)
  | 236 => Some (105, grave) | 237 => Some (105, acute) | 241 => Some (110, tilde)
  | 242 => Some (111, grave) | 243 => Some (111, acute) | 244 => Some (111, circumflex)
  | 246 => Some (111, diaeresis) | 249 => Some (117, grave) | 250 => Some (117, acute)
  | 252 => Some (117, diaeresis) | 253 => Some (121, acute)
  | 268 => Some (67, caron) | 269 => Some (99, caron)
  | 270 => Some (68, caron) | 271 => Some (100, caron)
  | 317 => Some (76, caron) | 318 => Some (108, caron)
  | 327 => Some (78, caron) | 328 => Some (110, caron)
  | 344 => Some (82, caron) | 345 => Some (114, caron)
  | 352 => Some (83, caron) | 353 => Some (115, caron)
  | 356 => Some (84, caron) | 357 => Some (116, caron)
  | 381 => Some (90, caron) | 382 => Some (122, caron)
  | _ => None
  end%N.

(** NFD on text made of ASCII, the letters above and characters without
    a decomposition. *)
Definition nfd_latin (s : str) : str :=
  flat_map (fun c => match decomposition c with
                     | Some (b, m) => [b; m]
                     | None => [c]
                     end) s.

(** The substitution table of the design document, section 4.1, lower
    case and capitalised. *)
Definition spec_table : list (char * str) :=
  [ (228, lit "ae"); (246, lit "oe"); (252, lit "ue"); (223, lit "ss");
    (353, lit "s"); (269, lit "c"); (382, lit "z"); (345, lit "r");
    (318, lit "l"); (357, lit "t"); (271, lit "d"); (328, lit "n");
    (244, lit "o"); (253, lit "y");
    (196, lit "Ae"); (214, lit "Oe"); (220, lit "Ue");
    (352, lit "S"); (268, lit "C"); (381, lit "Z"); (344, lit "R");
    (317, lit "L"); (356, lit "T"); (270, lit "D"); (327, lit "N");
    (212, lit "O"); (221, lit "Y") ]%N.

End TextNormalizer.

(** ** Grid geocoder *)

Module GridGeocoder.
Import PyStr.
Local Open Scope Q_scope.

Definition ord_A : Z := 65.
Definition ord_0 : Z := 48.

(** [round(x, 0)] to an integer: nearest, ties to even. *)
Definition round_half_even (q : Q) : Z :=
  let f := Qfloor q in
  match Qcompare (q - inject_Z f) (1 # 2) with
  | Lt => f
  | Gt => (f + 1)%Z
  | Eq => if Z.even f then f else (f + 1)%Z
  end.

(** [round(x, 6)] *)
Definition round6 (q : Q) : Q :=
  inject_Z (round_half_even (q * 1000000)) / 1000000.

(** output/create_pota_parks_api.py, [maidenhead_to_latlon]; [None] is the
    pair [(None, None)], also the result of the [except] clause. *)
Definition maidenhead_to_latlon (grid : str) : option (Q * Q) :=
  if (length grid <? 4)%nat then None else
  let grid := upper grid in
  '(lon_field, lat_field) ←
    (if (2 <=? length grid)%nat then
       c0 ← index grid 0; c1 ← index grid 1;
       Some ((ord c0 - ord_A) * 20 - 180, (ord c1 - ord_A) * 10 - 90)%Z
     else None);
  '(lon_square, lat_square) ←
    (if (4 <=? length grid)%nat then
       c2 ← index grid 2; d2 ← int_of_char c2;
       c3 ← index grid 3; d3 ← int_of_char c3;
       Some (d2 * 2, d3 * 1)%Z
     else Some (0, 0)%Z);
  '(lon_subsquare, lat_subsquare) ←
    (if (6 <=? length grid)%nat then
       c4 ← index grid 4; c5 ← index grid 5;
       Some (inject_Z (ord c4 - ord_A) * (5 / 60),
             inject_Z (ord c5 - ord_A) * (2.5 / 60))
     else Some (0, 0));
  '(lon_extended, lat_extended) ←
    (if (8 <=? length grid)%nat then
       c6 ← index grid 6; d6 ← int_of_char c6;
       c7 ← index grid 7; d7 ← int_of_char c7;
       Some (inject_Z d6 * (0.5 / 60), inject_Z d7 * (0.25 / 60))
     else Some (0, 0));
  let longitude :=
    inject_Z lon_field + inject_Z lon_square + lon_subsquare + lon_extended + 1 / 60 in
  let latitude :=
    inject_Z lat_field + inject_Z lat_square + lat_subsquare + lat_extended + 1.25 / 60 in
  Some (round6 latitude, round6 longitude).

(** scripts/generate_gps_data.py, [maidenhead_to_gps]. *)
Definition maidenhead_to_gps (grid : str) : option (Q * Q) :=
  if (length grid <? 4)%nat then None else
  let grid := upper grid in
  c0 ← index grid 0; c2 ← index grid 2;
  let lon := ((ord c0 - ord_A) * 20 - 180 + (ord c2 - ord_0) * 2)%Z in
  c1 ← index grid 1; c3 ← index grid 3;
  let lat := ((ord c1 - ord_A) * 10 - 90 + (ord c3 - ord_0) * 1)%Z in
  if (6 <=? length grid)%nat then
    c4 ← index grid 4; c5 ← index grid 5;
    Some (inject_Z lat + inject_Z (ord c5 - ord_A) * (1.0 / 24.0),
          inject_Z lon + inject_Z (ord c4 - ord_A) * (2.0 / 24.0))
  else
    Some (inject_Z lat + 0.5, inject_Z lon + 1.0).

(** *** Reference definitions, following the design document (section 4.2) *)

Definition is_digit (c : char) : bool := ((48 <=? c) && (c <=? 57))%N.

Definition in_range (lo hi : N) (c : char) : bool := ((lo <=? c) && (c <=? hi))%N.

(** [is_digit] at position [i]; [false] when the position does not exist. *)
Definition digit_at (grid : str) (i : nat) : bool :=
  match grid !! i with
  | Some c => is_digit c
  | None => false
  end.

(** The alphabet of each position: A-R for 0-1, digits for 2-3 and 6-7,
    letters for 4-5; the case of letters is folded first. *)
Definition valid_at (i : nat) (c : char) : bool :=
  match i with
  | 0 | 1 => in_range 65 82 (upper_char c)
  | 2 | 3 | 6 | 7 => is_digit c
  | 4 | 5 => in_range 65 90 (upper_char c)
  | _ => true
  end%nat.

Definition valid_locator (grid : str) : bool :=
  (4 <=? length grid)%nat && forallb (fun ic => valid_at ic.1 ic.2) (imap pair grid).

(** [ord(grid[i]) - origin] after case folding, 0 for a position the
    locator does not have. *)
Definition offset_at (grid : str) (i : nat) (origin : Z) : Q :=
  match grid !! i with
  | Some c => inject_Z (ord (upper_char c) - origin)
  | None => 0
  end.

(** South-west corner of the cell, steps 1 to 4, as (latitude, longitude). *)
Definition cell_corner (grid : str) : Q * Q :=
  (offset_at grid 1 ord_A * 10 - 90 + offset_at grid 3 ord_0 * 1
     + offset_at grid 5 ord_A * (2.5 / 60) + offset_at grid 7 ord_0 * (0.25 / 60),
   offset_at grid 0 ord_A * 20 - 180 + offset_at grid 2 ord_0 * 2
     + offset_at grid 4 ord_A * (5 / 60) + offset_at grid 6 ord_0 * (0.5 / 60)).

(** Height and width of the smallest cell a locator of that many characters
    resolves: 1 by 2 degrees, 2.5 by 5 minutes, 0.25 by 0.5 minutes. *)
Definition cell_size (len : nat) : option (Q * Q) :=
  match len with
  | 4%nat => Some (1, 2)
  | 6%nat => Some (2.5 / 60, 5 / 60)
  | 8%nat => Some (0.25 / 60, 0.5 / 60)
  | _ => None
  end.

(** Centre of the resolved cell, rounded to six places. *)
Definition cell_center (grid : str) : option (Q * Q) :=
  if valid_locator grid then
    size ← cell_size (length grid);
    let corner := cell_corner grid in
    Some (round6 (corner.1 + size.1 / 2), round6 (corner.2 + size.2 / 2))
  else None.

End GridGeocoder.

(** ** CSV rows and the Icom channel schema *)

Module Csv.
Import PyStr PyFloat.

(** A row of [csv.DictReader] for a line with as many cells as the header:
    column name to text.  [Py.line] is the row of a line of any length. *)
Abbreviation row := (gmap string str).

(** What a script stores under a column before [DictWriter] prints it. *)
Inductive cell : Type :=
| Text (s : str)
| Float (f : float)
| Int (z : Z).

(** [row.get(key, default)] *)
Definition get (r : row) (key : string) (default : str) : str :=
  match r !! key with
  | Some s => s
  | None => default
  end.

(** The seventeen columns of the device channel-export schema. *)
Record icom_row : Type := {
  group_no : Z;
  group_name : str;
  name : str;
  sub_name : str;
  repeater_call_sign : str;
  gateway_call_sign : str;
  frequency : cell;
  dup : str;
  offset : cell;
  mode : str;
  tone : str;
  repeater_tone : str;
  rpt1use : str;
  position : str;
  latitude : cell;
  longitude : cell;
  utc_offset : str
}.

(** The output side of a conversion loop: rows handed to
    [writer.writerow] so far, and [processed_count]. *)
Record output (R : Type) : Type := {
  written : list R;
  processed_count : nat
}.
Arguments written {R} _.
Arguments processed_count {R} _.

Definition no_output {R : Type} : output R :=
  {| written := []; processed_count := 0 |}.

(** [writer.writerow(r); processed_count += 1] *)
Definition writerow {R : Type} (out : output R) (r : R) : output R :=
  {| written := written out ++ [r]; processed_count := S (processed_count out) |}.

(** [for row in reader: try: ... except ...: continue], for a body that
    either writes one row or leaves the iteration ([None]: a [continue]
    or a caught exception). *)
Definition for_each_row {R : Type} (body : row -> option R) (rows : list row) : output R :=
  fold_left (fun out r => match body r with
                          | Some o => writerow out o
                          | None => out
                          end) rows no_output.

(** [str(z)] for an integer. *)
Definition str_of_Z (z : Z) : str :=
  lit (DecimalString.NilZero.string_of_int (Z.to_int z)).

(** [sep.join(parts)] *)
Fixpoint join (sep : str) (parts : list str) : str :=
  match parts with
  | [] => []
  | [p] => p
  | p :: ps => p ++ sep ++ join sep ps
  end.

(** Plain decimal notation, [[+-]digits[.digits]]: the part of what
    [float()] accepts that the examples below need.  The digits are read as
    an integer and divided by the power of ten, which is the correctly
    rounded value as long as the integer is below 2^53 and the power of ten
    at most 10^22. *)
Fixpoint scan_decimal (seen_dot : bool) (digits : nat) (num : Z) (scale : Z)
    (s : str) : option (Z * Z) :=
  match s with
  | [] => match digits with
          | O => None
          | S _ => Some (num, scale)
          end
  | c :: s' =>
      if (c =? 46)%N then
        if seen_dot then None else scan_decimal true digits num scale s'
      else
        d ← int_of_char c;
        scan_decimal seen_dot (S digits) (num * 10 + d)%Z
                     (if seen_dot then (scale * 10)%Z else scale) s'
  end.

Definition unsigned_decimal (s : str) : option float :=
  '(num, scale) ← scan_decimal false 0 0 1 s;
  Some (of_Z num / of_Z scale)%float.

Definition parse_decimal (s : str) : option float :=
  match strip s with
  | 45%N :: s' => x ← unsigned_decimal s'; Some (- x)%float
  | 43%N :: s' => unsigned_decimal s'
  | s' => unsigned_decimal s'
  end.

(** The digits of [n], padded with zeros on the left to [width]. *)
Definition padded (width : nat) (n : Z) : str :=
  let ds := str_of_Z n in
  replicate (width - length ds) 48%N ++ ds.

(** The magnitude [x] printed with [places] decimals, if that parses back
    to [x]. *)
Definition with_places (x : float) (q : Q) (places : nat) : option str :=
  let scale := (10 ^ Z.of_nat places)%Z in
  let n := Qfloor (q * inject_Z scale + (1 # 2))%Q in
  if (of_Z n / of_Z scale =? x)%float then
    Some (str_of_Z (n / scale) ++ lit "."
            ++ match places with
               | O => lit "0"
               | _ => padded places (n mod scale)
               end)
  else None.

Fixpoint shortest_from (fuel places : nat) (x : float) (q : Q) : str :=
  match fuel with
  | O => []
  | S fuel' =>
      match with_places x q places with
      | Some s => s
      | None => shortest_from fuel' (S places) x q
      end
  end.

(** [str(x)] for a float that Python prints in positional notation with at
    most 15 decimals: the fewest decimals that read back as the same float;
    the infinities and NaN as Python spells them. *)
Definition decimal_repr (x : float) : str :=
  match to_Q x with
  | Some q =>
      if (x <? 0)%float || (1 / x <? 0)%float
      then lit "-" ++ shortest_from 16 0 (- x)%float (Qopp q)
      else shortest_from 16 0 x q
  | None =>
      if (x =? infinity)%float then lit "inf"
      else if (x =? neg_infinity)%float then lit "-inf"
      else lit "nan"
  end.

End Csv.

(** ** Frequency repair over a file: output/fix_frequency_bands.py *)

Module FixFrequencyBands.
Import PyStr PyFloat Csv BandPlan.

Section WithRuntime.
(** [float(s)]: [None] is [ValueError]. *)
Variable float_of_str : str -> option float.

(** The rows handed to [writer.writerow] and [fixed_count]. *)
Record state : Type := {
  out_rows : list (gmap string cell);
  fixed_count : nat
}.

(** One iteration of the [for row in reader] loop, for a line that has as
    many cells as the header, so that every column of the row holds text.
    A missing [Frequency] column ([KeyError]) or an unparsable one
    ([ValueError]) reaches the handler, which writes the row as it was
    read.  Lines with fewer or more cells than the header, on which the
    run stops with an exception no handler catches, are the subject of
    [FixFrequencyBandsLines]. *)
Definition fix_row (st : state) (r : row) : state :=
  match r !! "Frequency" ≫= float_of_str with
  | Some frequency =>
      let original_freq := frequency in
      let frequency := repair frequency in
      {| out_rows := out_rows st ++ [<["Frequency" := Float frequency]> (Text <$> r)];
         fixed_count := if (original_freq =? frequency)%float
                        then fixed_count st else S (fixed_count st) |}
  | None =>
      {| out_rows := out_rows st ++ [Text <$> r]; fixed_count := fixed_count st |}
  end.

Definition fix_frequency_bands (rows : list row) : state :=
  fold_left fix_row rows {| out_rows := []; fixed_count := 0 |}.

(** What one row leaves in the output file. *)
Definition written_for (r : row) : gmap string cell :=
  match r !! "Frequency" ≫= float_of_str with
  | Some frequency => <["Frequency" := Float (repair frequency)]> (Text <$> r)
  | None => Text <$> r
  end.

(** Whether one row counts as fixed. *)
Definition counts_as_fixed (r : row) : bool :=
  match r !! "Frequency" ≫= float_of_str with
  | Some frequency => negb (frequency =? repair frequency)%float
  | None => false
  end.
End WithRuntime.

End FixFrequencyBands.

(** ** FM repeater projector: scripts/create_icom_fm_csv.py *)

Module FmExport.
Import PyStr PyFloat Csv.

Section WithRuntime.
(** [float(s)], [str(x)] for a float, and [str.lower]. *)
Variable float_of_str : str -> option float.
Variable str_of_float : float -> str.
Variable lower : str -> str.

(** [float(row.get(key, 0))] *)
Definition float_get (r : row) (key : string) : option float :=
  match r !! key with
  | Some s => float_of_str s
  | None => Some 0%float
  end.

(** Lines 43-57: the duplex symbol and the offset. *)
Definition duplex (r : row) : str * cell :=
  match float_get r "offset" with
  | Some offset_mhz =>
      let dup_direction := get r "dup" [] in
      if str_eqb dup_direction (lit "+") then (lit "DUP+", Float offset_mhz)
      else if str_eqb dup_direction (lit "-") then (lit "DUP-", Float offset_mhz)
      else ([], Int 0)
  | None => ([], Int 0)
  end.

(** Lines 59-71: tone setting and tone value. *)
Definition ctcss (r : row) : str * str :=
  match get r "ctcss_tx" [] with
  | [] => (lit "OFF", lit "88.5Hz")
  | ctcss_tx =>
      match float_of_str ctcss_tx with
      | Some tone_freq => (lit "TONE", str_of_float tone_freq ++ lit "Hz")
      | None => (lit "OFF", lit "88.5Hz")
      end
  end.

(** Lines 76-82: both coordinates, or 0 for both when either fails. *)
Definition coordinates (r : row) : cell * cell :=
  match float_get r "lat", float_get r "long" with
  | Some latitude, Some longitude => (Float latitude, Float longitude)
  | _, _ => (Int 0, Int 0)
  end.

Definition truthy (o : option str) : bool :=
  match o with
  | Some (_ :: _) => true
  | _ => false
  end.

(** Line 41: [float(row.get('freq_rx', row.get('freq_tx', 0)))]. *)
Definition read_frequency (r : row) : option float :=
  match r !! "freq_rx" with
  | Some s => float_of_str s
  | None => float_get r "freq_tx"
  end.

(** The body of the loop for one row whose line has as many cells as the
    header; [None] is a row that is not written.  [FmExportLines] has the
    loop over lines of any length, with the exceptions that end the run. *)
Definition convert_row (group_number : Z) (group_name : str)
    (country_filter : option str) (r : row) : option icom_row :=
  if truthy country_filter
     && negb (bool_decide (Some (get r "country" []) = country_filter))
  then None
  else if negb (str_eqb (lower (get r "fm" (lit "True"))) (lit "true")) then None
  else
    frequency ← read_frequency r;
    let '(dup, offset_mhz) := duplex r in
    let '(tone_setting, tone_value) := ctcss r in
    let position :=
      if str_eqb (lower (get r "loc_exact" (lit "False"))) (lit "true")
      then lit "Exact" else lit "Approximate" in
    let '(latitude, longitude) := coordinates r in
    let utc_offset :=
      if bool_decide (country_filter = Some (lit "Singapore")) then lit "+8:00"
      else if bool_decide (country_filter = Some (lit "Japan")) then lit "+9:00"
      else lit "+1:00" in
    Some {| group_no := group_number;
            group_name := group_name;
            name := strip (get r "name" []);
            sub_name := strip (get r "landmark" []);
            repeater_call_sign := strip (get r "callsign" []);
            gateway_call_sign := [];
            frequency := Float frequency;
            dup := dup;
            offset := offset_mhz;
            mode := lit "FM";
            tone := tone_setting;
            repeater_tone := tone_value;
            rpt1use := if str_eqb tone_setting (lit "OFF") then lit "NO" else lit "YES";
            position := position;
            latitude := latitude;
            longitude := longitude;
            utc_offset := utc_offset |}.

Definition convert_mcp_to_icom_fm_format (rows : list row) (group_number : Z)
    (group_name : str) (country_filter : option str) : output icom_row :=
  for_each_row (convert_row group_number group_name country_filter) rows.
End WithRuntime.

End FmExport.

(** ** SOTA summit projectors *)

Module SotaExport.
Import PyStr PyFloat Csv TextNormalizer.

(** [lat == 0 or lon == 0], the test both SOTA scripts use for "no valid
    coordinates". *)
Definition without_coordinates (lat lon : float) : bool :=
  (lat =? 0)%float || (lon =? 0)%float.

Section WithRuntime.
Variable float_of_str : str -> option float.
Variable nfd : str -> str.

Definition float_get (r : row) (key : string) : option float :=
  match r !! key with
  | Some s => float_of_str s
  | None => Some 0%float
  end.

Let convert_umlauts := convert_umlauts_sota nfd.

(** scripts/create_icom_sota_csv.py, lines 101-103. *)
Definition display_name (callsign summit_name : str) : str :=
  match summit_name with
  | [] => callsign
  | _ => callsign ++ lit " " ++ take 10 summit_name
  end.

(** Lines 109-114: [f"{int(float(elevation))}m"], nothing on any error. *)
Definition elevation_part (elevation : str) : list str :=
  match elevation with
  | [] => []
  | _ => match float_of_str elevation ≫= int_of_float with
         | Some elev_m => [str_of_Z elev_m ++ lit "m"]
         | None => []
         end
  end.

(** Lines 106-116. *)
Definition display_sub_name (state elevation country_code : str) : str :=
  let sub_parts :=
    match state with
    | [] => []
    | _ => [convert_umlauts (take 8 state)]
    end ++ elevation_part elevation in
  match sub_parts with
  | [] => country_code
  | _ => join (lit " ") sub_parts
  end.

(** The body of the loop of [convert_sota_to_icom_format]. *)
Definition convert_row (group_number : Z) (group_name : str) (r : row)
    : option icom_row :=
  lat ← float_get r "lat";
  lon ← float_get r "long";
  if without_coordinates lat lon then None else
  let callsign := strip (get r "callsign" []) in
  let summit_name := strip (get r "name" []) in
  let state := strip (get r "state" []) in
  let country_code := strip (get r "country_code" []) in
  let elevation := strip (get r "sea_level" []) in
  match callsign with
  | [] => None
  | _ =>
      let name := display_name callsign summit_name in
      let sub_name := display_sub_name state elevation country_code in
      let name := convert_umlauts name in
      let sub_name := convert_umlauts sub_name in
      let utc_offset :=
        if str_eqb country_code (lit "SGP") then lit "+8:00" else lit "+1:00" in
      Some {| group_no := group_number;
              group_name := group_name;
              name := take 16 name;
              sub_name := take 16 sub_name;
              repeater_call_sign := [];
              gateway_call_sign := [];
              frequency := Text [];
              dup := [];
              offset := Text [];
              mode := lit "GPS";
              tone := [];
              repeater_tone := [];
              rpt1use := [];
              position := lit "Exact";
              latitude := Float lat;
              longitude := Float lon;
              utc_offset := utc_offset |}
  end.

Definition convert_sota_to_icom_format (rows : list row) (group_number : Z)
    (group_name : str) : output icom_row :=
  for_each_row (convert_row group_number group_name) rows.

(** The device GPS-waypoint schema. *)
Record gps_entry : Type := {
  gps_group : str;
  gps_group_name : str;
  gps_name : str;
  gps_date : str;
  gps_time : str;
  gps_latitude : float;
  gps_longitude : float;
  gps_altitude : str;
  gps_alarm : str
}.

(** scripts/create_sota_gps_format.py, [group_map]. *)
Definition group_map (country_code : str) : option (str * str) :=
  if str_eqb country_code (lit "AUT") then Some (lit "X", lit "SOTA-AT")
  else if str_eqb country_code (lit "SVK") then Some (lit "Y", lit "SOTA-SK")
  else if str_eqb country_code (lit "SGP") then Some (lit "Z", lit "SOTA-SG")
  else None.

(** scripts/create_sota_gps_format.py, lines 115-146: the entry a row
    adds to its country's list, if any. *)
Definition gps_entry_of_row (current_date : str) (r : row) : option gps_entry :=
  let country_code := upper (get r "country_code" []) in
  group_info ← group_map country_code;
  let name := get r "name" [] in
  lat ← float_get r "lat";
  lon ← float_get r "long";
  match name with
  | [] => None
  | _ =>
      if without_coordinates lat lon then None else
      let clean_name := convert_umlauts_api name in
      let display_name :=
        if (50 <? length clean_name)%nat then take 47 clean_name ++ lit "..."
        else clean_name in
      Some {| gps_group := group_info.1;
              gps_group_name := group_info.2;
              gps_name := display_name;
              gps_date := current_date;
              gps_time := lit "00:00:00";
              gps_latitude := lat;
              gps_longitude := lon;
              gps_altitude := [];
              gps_alarm := lit "OFF" |}
  end.
End WithRuntime.

End SotaExport.

(** ** Vienna broadcast stations: scripts/create_icom_vienna_radio_csv.py *)

Module ViennaRadio.
Import PyStr PyFloat Csv.
Local Open Scope float_scope.

Definition vienna_lat : float := 48.2082%float.
Definition vienna_lon : float := 16.3738%float.
Definition max_distance : float := 150.

(** ["Ö"] is code point 214. *)
Definition priority_stations : gmap str Z :=
  list_to_map
    [ ([214; 49]%N, 100%Z); ([214; 51]%N, 95%Z); (lit "FM4", 90%Z);
      (lit "Kronehit", 85%Z); (lit "ENERGY", 80%Z); (lit "oe24", 75%Z);
      (lit "Hitradio " ++ [214; 51]%N, 70%Z); (lit "Radio Wien", 65%Z);
      (lit "ROCK ANTENNE", 60%Z); (lit "Life Radio", 55%Z);
      (lit "Stadtradio Krems", 95%Z) ].

(** [station_data] of the script. *)
Record station_data : Type := {
  score : float;
  name : str;
  sub_name : str;
  frequency : float;
  lat : float;
  lon : float;
  loc_exact : bool
}.

(** Lines 88-92. *)
Definition total_score (station_name : str) (distance : float) : float :=
  let priority_score := default 0%Z (priority_stations !! station_name) in
  let distance_bonus := pymax 0 (50 - distance) in
  of_Z priority_score + distance_bonus.

(** [stations.sort(key=lambda x: x['score'], reverse=True)]: [list.sort]
    is stable, also with [reverse=True]; the model is a stable insertion
    that moves a station behind those of strictly higher score only. *)
Fixpoint insert_by_score (x : station_data) (l : list station_data) : list station_data :=
  match l with
  | [] => [x]
  | y :: l' => if score x <? score y then y :: insert_by_score x l' else x :: l
  end.

Definition sort_by_score (l : list station_data) : list station_data :=
  foldr insert_by_score [] l.

(** [a] is listed before [b] only if its score is at least that of [b]. *)
Definition ranks_before (a b : station_data) : Prop := (score b <=? score a) = true.

(** A score that takes part in comparisons. *)
Definition scored (s : station_data) : Prop := ~ nan64 (score s).

Section WithRuntime.
Variable float_of_str : str -> option float.
Variable str_of_float : float -> str.
Variable lower : str -> str.
(** [calculate_distance], the haversine formula of lines 12-23; its
    trigonometry is left to the runtime. *)
Variable calculate_distance : float -> float -> float -> float -> float.

Definition float_get (r : row) (key : string) : option float :=
  match r !! key with
  | Some s => float_of_str s
  | None => Some 0%float
  end.

(** What lines 55-80 read from a row that reaches the duplicate test. *)
Record reading : Type := {
  r_lat : float;
  r_lon : float;
  r_distance : float;
  r_frequency : float;
  r_station_name : str;
  r_location : str;
  r_state : str;
  r_loc_exact : bool
}.

Definition read_row (r : row) : option reading :=
  lat ← float_get r "lat";
  lon ← float_get r "long";
  let distance := calculate_distance vienna_lat vienna_lon lat lon in
  if max_distance <? distance then None else
  frequency ← r !! "freq_rx" ≫= float_of_str;
  if negb (between 87.5 frequency 108.0) then None else
  let station_name := strip (get r "name" []) in
  let location := strip (get r "landmark" []) in
  let state := strip (get r "state" []) in
  let station_name :=
    match station_name with
    | [] => lit "FM " ++ str_of_float frequency
    | _ => station_name
    end in
  Some {| r_lat := lat; r_lon := lon; r_distance := distance;
          r_frequency := frequency; r_station_name := station_name;
          r_location := location; r_state := state;
          r_loc_exact := str_eqb (lower (get r "loc_exact" [])) (lit "true") |}.

(** Line 83. *)
Definition station_key (station_name : str) : str :=
  replace (lit " ") [] (lower station_name).

(** Lines 88-106. *)
Definition make_station (x : reading) : station_data :=
  let sub_name :=
    match r_location x, r_state x with
    | _ :: _, _ => r_location x
    | [], _ :: _ => r_state x
    | [], [] => lit "Austria"
    end in
  {| score := total_score (r_station_name x) (r_distance x);
     name := r_station_name x;
     sub_name := sub_name;
     frequency := r_frequency x;
     lat := r_lat x;
     lon := r_lon x;
     loc_exact := r_loc_exact x |}.

(** The two accumulators of the reading loop. *)
Record ingest_state : Type := {
  stations : list station_data;
  seen_stations : gset str
}.

(** Lines 82-108: the duplicate test on a row that was read, and the
    station it adds. *)
Definition add_reading (st : ingest_state) (x : reading) : ingest_state :=
  let key := station_key (r_station_name x) in
  if decide (key ∈ seen_stations st) then st
  else {| stations := stations st ++ [make_station x];
          seen_stations := seen_stations st ∪ {[ key ]} |}.

(** One iteration of the reading loop, lines 53-112: a row that raises or
    is filtered out leaves both accumulators as they are. *)
Definition ingest_row (st : ingest_state) (r : row) : ingest_state :=
  match read_row r with
  | None => st
  | Some x => add_reading st x
  end.

Definition no_stations : ingest_state := {| stations := []; seen_stations := ∅ |}.

(** The key [add_reading] tests. *)
Definition reading_key (x : reading) : str := station_key (r_station_name x).

(** The readings that become stations, given the keys seen before them. *)
Fixpoint first_seen (seen : gset str) (xs : list reading) : list reading :=
  match xs with
  | [] => []
  | x :: xs' =>
      if decide (reading_key x ∈ seen) then first_seen seen xs'
      else x :: first_seen (seen ∪ {[ reading_key x ]}) xs'
  end.

Definition ingest (rows : list row) : ingest_state :=
  fold_left ingest_row rows no_stations.

(** Lines 114-116 on the stations collected so far. *)
Definition rank (collected : list station_data) : list station_data :=
  take 50 (sort_by_score collected).

(** Lines 114-116. *)
Definition top_stations (rows : list row) : list station_data :=
  rank (stations (ingest rows)).

(** Lines 124-143. *)
Definition icom_of_station (group_number : Z) (group_name : str) (s : station_data)
    : icom_row :=
  {| Csv.group_no := group_number;
     Csv.group_name := group_name;
     Csv.name := name s;
     Csv.sub_name := sub_name s;
     Csv.repeater_call_sign := [];
     Csv.gateway_call_sign := [];
     Csv.frequency := Float (frequency s);
     Csv.dup := [];
     Csv.offset := Float (0.0%float);
     Csv.mode := lit "FM";
     Csv.tone := lit "OFF";
     Csv.repeater_tone := lit "88.5Hz";
     Csv.rpt1use := lit "NO";
     Csv.position := if loc_exact s then lit "Exact" else lit "Approximate";
     Csv.latitude := Float (lat s);
     Csv.longitude := Float (lon s);
     Csv.utc_offset := lit "+1:00" |}.

Definition convert_vienna_radio_to_icom_format (rows : list row) (group_number : Z)
    (group_name : str) : output icom_row :=
  fold_left (fun out s => writerow out (icom_of_station group_number group_name s))
            (top_stations rows) no_output.
End WithRuntime.

End ViennaRadio.

(** ** Sample rows *)

Module Samples.
Import PyStr PyFloat Csv.

(** A repeater row of the canonical CSV with a positive shift. *)
Definition repeater : row :=
  {[ "callsign" := lit "OE1XUU"; "name" := lit "Wien Kahlenberg";
     "landmark" := lit "Kahlenberg"; "country" := lit "Austria"; "fm" := lit "True";
     "freq_rx" := lit "438.950"; "freq_tx" := lit "431.350";
     "offset" := lit "7.6"; "dup" := lit "-"; "ctcss_tx" := lit "162.2";
     "loc_exact" := lit "True"; "lat" := lit "48.2747"; "long" := lit "16.3347" ]}.

(** What the FM projector writes for [repeater] in group 32. *)
Definition repeater_channel : icom_row :=
  {| group_no := 32; group_name := lit "AT-Repeaters";
     name := lit "Wien Kahlenberg"; sub_name := lit "Kahlenberg";
     repeater_call_sign := lit "OE1XUU"; gateway_call_sign := [];
     frequency := Float (438.950%float); dup := lit "DUP-"; offset := Float (7.6%float);
     mode := lit "FM"; tone := lit "TONE"; repeater_tone := lit "162.2Hz";
     rpt1use := lit "YES"; position := lit "Exact";
     latitude := Float (48.2747%float); longitude := Float (16.3347%float);
     utc_offset := lit "+1:00" |}.

(** The same row with a frequency that is not a number. *)
Definition repeater_bad_frequency : row := <["freq_rx" := lit "n/a"]> repeater.

(** The same row with a shift direction and an offset that is not a number. *)
Definition repeater_bad_offset : row := <["offset" := lit "n/a"]> repeater.

(** A simplex row: no shift direction, but an offset value in the source. *)
Definition simplex : row := <["dup" := []]> repeater.

(** Rows of an Icom channel file, as output/fix_frequency_bands.py reads them. *)
Definition channel : row :=
  {[ "Name" := lit "Wien"; "Repeater Call Sign" := lit "OE1XUU"; "Frequency" := lit "51.0" ]}.
Definition channel_bad_frequency : row := <["Frequency" := lit "n/a"]> channel.

(** A summit of the SOTA list; state and elevation fill the sub name. *)
Definition summit : row :=
  {[ "callsign" := lit "OE/ST-001"; "name" := lit "Hochschwab";
     "state" := lit "Steiermark"; "country_code" := lit "AUT";
     "sea_level" := lit "2277"; "lat" := lit "47.618"; "long" := lit "15.143" ]}.

(** What the SOTA projector writes for [summit] in group 70. *)
Definition summit_waypoint : icom_row :=
  {| group_no := 70; group_name := lit "SOTA-Summits";
     name := lit "OE/ST-001 Hochsc"; sub_name := lit "Steierma 2277m";
     repeater_call_sign := []; gateway_call_sign := [];
     frequency := Text []; dup := []; offset := Text []; mode := lit "GPS";
     tone := []; repeater_tone := []; rpt1use := []; position := lit "Exact";
     latitude := Float (47.618%float); longitude := Float (15.143%float);
     utc_offset := lit "+1:00" |}.

(** The same summit with a latitude of zero and a longitude that is not. *)
Definition summit_zero_latitude : row := <["lat" := lit "0"]> summit.

(** Three readings named A, A and B at 49, 41 and 45 km, that is with
    scores 1, 9 and 5. *)
Definition reading_of (station_name : string) (distance : float) : ViennaRadio.reading :=
  {| ViennaRadio.r_lat := 48.2%float; ViennaRadio.r_lon := 16.3%float;
     ViennaRadio.r_distance := distance;
     ViennaRadio.r_frequency := 99.9%float;
     ViennaRadio.r_station_name := lit station_name;
     ViennaRadio.r_location := []; ViennaRadio.r_state := [];
     ViennaRadio.r_loc_exact := false |}.

Definition three_readings : list ViennaRadio.reading :=
  [ reading_of "A" 49%float; reading_of "A" 41%float; reading_of "B" 45%float ].

End Samples.

(** ** Further string operations *)

Module PyStrMore.
Import PyStr.

(** [key in s] for a non-empty [key]. *)
Fixpoint contains (key s : str) : bool :=
  starts_with key s
  || match s with
     | [] => false
     | _ :: s' => contains key s'
     end.

(** [s.endswith(suffix)] *)
Definition ends_with (suffix s : str) : bool := starts_with (rev suffix) (rev s).

(** [s[:-1]] *)
Definition drop_last (s : str) : str := take (length s - 1) s.

(** [s.lstrip(chars)] for a one-character [chars]. *)
Fixpoint lstrip_char (c : char) (s : str) : str :=
  match s with
  | [] => []
  | x :: s' => if (x =? c)%N then lstrip_char c s' else s
  end.

(** The text before the first [sep], and the text after it if [sep] occurs. *)
Fixpoint partition_char (sep : char) (s : str) : str * option str :=
  match s with
  | [] => ([], None)
  | x :: s' =>
      if (x =? sep)%N then ([], Some s')
      else let '(head, rest) := partition_char sep s' in (x :: head, rest)
  end.

(** [s.split(sep)] for a one-character [sep]; [fuel] bounds the number of
    separators, and the length of [s] is enough. *)
Fixpoint split_from (fuel : nat) (sep : char) (s : str) : list str :=
  match fuel with
  | O => [s]
  | S fuel' =>
      match partition_char sep s with
      | (head, None) => [head]
      | (head, Some rest) => head :: split_from fuel' sep rest
      end
  end.

Definition split (sep : char) (s : str) : list str := split_from (length s) sep s.

End PyStrMore.

(** ** What [csv.DictWriter] prints for a cell *)

Module CsvWriter.
Import PyStr PyFloat Csv.

Section WithRuntime.
(** [str(x)] for a float. *)
Variable str_of_float : float -> str.

Definition str_of_cell (c : cell) : str :=
  match c with
  | Text s => s
  | Float x => str_of_float x
  | Int z => str_of_Z z
  end.

(** A written row as [csv.DictReader] reads it back. *)
Definition reread (r : gmap string cell) : row := str_of_cell <$> r.
End WithRuntime.

End CsvWriter.

(** ** Band filter: output/filter_bands.py *)

Module FilterBands.
Import PyStr PyFloat Csv.
Local Open Scope float_scope.

(** Lines 28-31: the four bands a row is kept for. *)
Definition in_standard_band (frequency : float) : bool :=
  (144 <=? frequency) && (frequency <=? 146)
  || (430 <=? frequency) && (frequency <=? 440)
  || (1240 <=? frequency) && (frequency <=? 1300)
  || (2300 <=? frequency) && (frequency <=? 2450).

End FilterBands.

(** ** SOTA waypoint files: scripts/create_sota_gps_format.py *)

Module SotaGpsFiles.
Import PyStr PyFloat Csv SotaExport.

Section WithRuntime.
Variable float_of_str : str -> option float.
Variable current_date : str.

(** [country_summits]: a dict with the three keys in insertion order. *)
Definition country_summits : Type := list (str * list gps_entry).

Definition no_summits : country_summits :=
  [ (lit "AUT", []); (lit "SVK", []); (lit "SGP", []) ].

(** [country_summits[country_code].append(gps_entry)] *)
Definition append_summit (country_code : str) (e : gps_entry) (cs : country_summits)
    : country_summits :=
  map (fun kv => if str_eqb kv.1 country_code then (kv.1, kv.2 ++ [e]) else kv) cs.

(** One iteration of the loop of lines 114-153. *)
Definition collect_row (cs : country_summits) (r : row) : country_summits :=
  match gps_entry_of_row float_of_str current_date r with
  | Some e => append_summit (upper (get r "country_code" [])) e cs
  | None => cs
  end.

Definition collect (rows : list row) : country_summits :=
  fold_left collect_row rows no_summits.

(** [country_summits[country_code]] *)
Fixpoint summits_of (country_code : str) (cs : country_summits) : list gps_entry :=
  match cs with
  | [] => []
  | kv :: cs' => if str_eqb kv.1 country_code then kv.2 else summits_of country_code cs'
  end.

(** Lines 189-193: the master file. *)
Definition all_summits (cs : country_summits) : list gps_entry :=
  fold_left (fun all kv => all ++ kv.2) cs [].

(** Lines 162-186: [total_summits]. *)
Definition total_summits (cs : country_summits) : nat :=
  fold_left (fun total kv => match kv.2 with
                             | [] => total
                             | _ => total + length kv.2
                             end) cs 0.

(** The country a row is filed under. *)
Definition country_of (r : row) : str := upper (get r "country_code" []).
End WithRuntime.

End SotaGpsFiles.

(** ** D-STAR repeater projector: scripts/create_icom_dstar_csv.py *)

Module DstarExport.
Import PyStr PyStrMore PyFloat Csv.

(** Lines 84-89: the gateway call sign of a repeater call sign. *)
Definition gateway_call_sign_of (callsign : str) : str :=
  let gateway_callsign :=
    replace (lit " C") (lit " G")
      (replace (lit " B") (lit " G") (replace (lit " A") (lit " G") callsign)) in
  match callsign with
  | [] => gateway_callsign
  | _ =>
      if ends_with (lit " G") gateway_callsign then gateway_callsign
      else if (length callsign <=? 7)%nat then callsign ++ lit " G"
      else drop_last callsign ++ lit "G"
  end.

Section WithRuntime.
Variable float_of_str : str -> option float.
Variable lower : str -> str.

(** Line 37: [row.get('dstar', row.get('d-star', 'False')).lower()]. *)
Definition dstar_field (r : row) : str :=
  lower (match r !! "dstar" with
         | Some s => s
         | None => get r "d-star" (lit "False")
         end).

(** The body of the loop of [convert_mcp_to_icom_dstar_format]. *)
Definition convert_row (group_number : Z) (group_name : str)
    (country_filter : option str) (r : row) : option icom_row :=
  if FmExport.truthy country_filter
     && negb (bool_decide (Some (get r "country" []) = country_filter))
  then None
  else if negb (str_eqb (dstar_field r) (lit "true")) then None
  else
    frequency ← FmExport.read_frequency float_of_str r;
    let '(dup, offset_mhz) := FmExport.duplex float_of_str r in
    let position :=
      if str_eqb (lower (get r "loc_exact" (lit "False"))) (lit "true")
      then lit "Exact" else lit "Approximate" in
    let '(latitude, longitude) := FmExport.coordinates float_of_str r in
    let utc_offset :=
      if bool_decide (country_filter = Some (lit "Singapore")) then lit "+8:00"
      else if bool_decide (country_filter = Some (lit "Japan")) then lit "+9:00"
      else lit "+1:00" in
    let callsign := strip (get r "callsign" []) in
    Some {| group_no := group_number;
            group_name := group_name;
            name := strip (get r "name" []);
            sub_name := strip (get r "landmark" []);
            repeater_call_sign := callsign;
            gateway_call_sign := gateway_call_sign_of callsign;
            frequency := Float frequency;
            dup := dup;
            offset := offset_mhz;
            mode := lit "DV";
            tone := lit "OFF";
            repeater_tone := lit "88.5Hz";
            rpt1use := lit "YES";
            position := position;
            latitude := latitude;
            longitude := longitude;
            utc_offset := utc_offset |}.

Definition convert_mcp_to_icom_dstar_format (rows : list row) (group_number : Z)
    (group_name : str) (country_filter : option str) : output icom_row :=
  for_each_row (convert_row group_number group_name country_filter) rows.
End WithRuntime.

End DstarExport.

(** ** GPS columns for a channel file: scripts/add_gps_to_fm.py *)

Module AddGps.
Import PyStr Csv.

(** The four values kept per call sign. *)
Record gps_info : Type := {
  lat : str;
  long : str;
  landmark : str;
  locator : str
}.

(** Lines 37-42: what is kept of a row. *)
Definition gps_info_of (r : row) : gps_info :=
  {| lat := get r "lat" [];
     long := get r "long" [];
     landmark := get r "landmark" [];
     locator := get r "locator" [] |}.

(** One iteration of the loop of [read_intermediate_csv]; [None] once
    [row['callsign']] has raised. *)
Definition add_gps_row (gps_data : option (gmap str gps_info)) (r : row)
    : option (gmap str gps_info) :=
  gps_data ← gps_data;
  callsign ← r !! "callsign";
  Some (<[callsign := gps_info_of r]> gps_data).

(** [read_intermediate_csv]: the handler returns the empty dict. *)
Definition read_intermediate_csv (rows : list row) : gmap str gps_info :=
  default ∅ (fold_left add_gps_row rows (Some ∅)).

End AddGps.

(** ** POTA parks: coordinates and waypoint names *)

Module PotaParks.
Import PyStr PyStrMore TextNormalizer GridGeocoder.
Local Open Scope Q_scope.

(** A JSON number or [null], as [park.get('latitude', 0)] returns it. *)
Definition json_number : Type := option Q.

(** [not x] for a JSON number: [None] and zero are false values. *)
Definition falsy (x : json_number) : bool :=
  match x with
  | None => true
  | Some q => Qeq_bool q 0
  end.

(** [x == 0] for a JSON number. *)
Definition is_zero (x : json_number) : bool :=
  match x with
  | None => false
  | Some q => Qeq_bool q 0
  end.

(** output/create_pota_parks_api.py, lines 204-216: the coordinates a park
    is stored with; [None] when the park is skipped. *)
Definition resolve_coordinates (lat lon : json_number) (grid : str)
    : option (json_number * json_number) :=
  let final :=
    match grid with
    | _ :: _ =>
        if falsy lat || falsy lon || is_zero lat || is_zero lon then
          match maidenhead_to_latlon grid with
          | Some (grid_lat, grid_lon) =>
              if negb (Qeq_bool grid_lat 0) && negb (Qeq_bool grid_lon 0)
              then (Some grid_lat, Some grid_lon)
              else (lat, lon)
          | None => (lat, lon)
          end
        else (lat, lon)
    | [] => (lat, lon)
    end in
  if falsy final.1 || falsy final.2 || is_zero final.1 || is_zero final.2 then None
  else Some final.

(** [s.split('-')[i]] and ['-' in s]. *)
Definition dash : char := 45%N.
Definition has_dash (s : str) : bool := contains [dash] s.

(** scripts/generate_gps_data.py, line 236; [None] is [IndexError]. *)
Definition park_number (park_ref : str) : option str :=
  if has_dash park_ref then lstrip_char 48%N <$> (split dash park_ref !! 1%nat)
  else Some park_ref.

(** scripts/create_pota_gps_format.py, lines 176-178. *)
Definition park_number_or_zero (ref : str) : str :=
  let park_number :=
    if has_dash ref then lstrip_char 48%N (default [] (last (split dash ref)))
    else ref in
  match park_number with
  | [] => lit "0"
  | _ => park_number
  end.

(** The waypoint a park becomes. *)
Record gps_entry : Type := {
  gps_group : str;
  gps_group_name : str;
  gps_name : str;
  gps_date : str;
  gps_time : str;
  gps_latitude : Q;
  gps_longitude : Q;
  gps_altitude : str;
  gps_alarm : str
}.

Definition group_map (country_prefix : str) : option (str * str) :=
  if str_eqb country_prefix (lit "AT") then Some (lit "U", lit "POTA-AT")
  else if str_eqb country_prefix (lit "SK") then Some (lit "V", lit "POTA-SK")
  else if str_eqb country_prefix (lit "SG") then Some (lit "W", lit "POTA-SG")
  else None.

(** scripts/generate_gps_data.py, lines 206-253: the waypoint of one park
    of a location; [reference], [name] and [grid] are the three texts the
    park record holds, empty when absent. *)
Definition gps_entry_of_park (current_date descriptor reference name grid : str)
    : option gps_entry :=
  let country_prefix := default [] (head (split dash descriptor)) in
  group_info ← group_map country_prefix;
  match reference, name, grid with
  | _ :: _, _ :: _, _ :: _ =>
      '(lat, lon) ← maidenhead_to_gps grid;
      let clean_name := convert_umlauts_api name in
      let clean_name :=
        if (50 <? length clean_name)%nat then take 47 clean_name ++ lit "..."
        else clean_name in
      number ← park_number reference;
      Some {| gps_group := group_info.1;
              gps_group_name := group_info.2;
              gps_name := number ++ lit " " ++ clean_name;
              gps_date := current_date;
              gps_time := lit "00:00:00";
              gps_latitude := lat;
              gps_longitude := lon;
              gps_altitude := [];
              gps_alarm := lit "OFF" |}
  | _, _, _ => None
  end.

(** scripts/create_pota_gps_format.py, lines 181-183. *)
Definition display_name (ref clean_name : str) : str :=
  let display_name := park_number_or_zero ref ++ lit " " ++ clean_name in
  if (50 <? length display_name)%nat then take 47 display_name ++ lit "..."
  else display_name.

End PotaParks.

(** ** More sample rows *)

Module MoreSamples.
Import PyStr PyFloat Csv.

(** A broadcast station of the canonical CSV. *)
Definition broadcast : row :=
  {[ "name" := lit "Radio Wien"; "landmark" := lit "Kahlenberg";
     "freq_rx" := lit "89.9"; "lat" := lit "48.2747"; "long" := lit "16.3347";
     "loc_exact" := lit "True" ]}.

(** A stand-in for the distance function: every place is 10 km away. *)
Definition ten_km (lat1 lon1 lat2 lon2 : float) : float := 10%float.

(** The station [broadcast] becomes at 10 km: priority 65 and bonus 40. *)
Definition broadcast_station : ViennaRadio.station_data :=
  {| ViennaRadio.score := 105%float;
     ViennaRadio.name := lit "Radio Wien";
     ViennaRadio.sub_name := lit "Kahlenberg";
     ViennaRadio.frequency := 89.9%float;
     ViennaRadio.lat := 48.2747%float;
     ViennaRadio.lon := 16.3347%float;
     ViennaRadio.loc_exact := true |}.

(** A D-STAR repeater of the canonical CSV. *)
Definition dstar_repeater : row :=
  <["dstar" := lit "True"]> (<["callsign" := lit "OE1XDS B"]> Samples.repeater).

End MoreSamples.

(** ** Rows as [csv.DictReader] yields them, and exceptions *)

Module Py.
Import PyStr PyFloat Csv.

(** The exceptions the row loops can raise. *)
Inductive exn : Type := ValueError | KeyError | TypeError | AttributeError.

Definition exn_eqb (a b : exn) : bool :=
  match a, b with
  | ValueError, ValueError | KeyError, KeyError
  | TypeError, TypeError | AttributeError, AttributeError => true
  | _, _ => false
  end.

(** Whether [except handled:] catches [e]. *)
Definition catches (handled : list exn) (e : exn) : bool := existsb (exn_eqb e) handled.

(** [except Exception] *)
Definition any_exception : list exn := [ValueError; KeyError; TypeError; AttributeError].

(** An expression: its value, or the exception it raises. *)
Inductive result (A : Type) : Type :=
| Ok (a : A)
| Raise (e : exn).
Arguments Ok {A} a.
Arguments Raise {A} e.

#[global] Instance result_ret : MRet result := fun A a => Ok a.

#[global] Instance result_bind : MBind result :=
  fun A B f x => match x with
                 | Ok a => f a
                 | Raise e => Raise e
                 end.

(** [try: body / except handled: handler], for a body and a handler that
    assign to local names only. *)
Definition attempt {A : Type} (body : result A) (handled : list exn) (handler : result A)
    : result A :=
  match body with
  | Ok a => Ok a
  | Raise e => if catches handled e then handler else Raise e
  end.

(** A statement run in a state: it ends normally with a value, or raises;
    either way the state is what the statements before left. *)
Inductive step (St A : Type) : Type :=
| Done (a : A) (s : St)
| Raised (e : exn) (s : St).
Arguments Done {St A} a s.
Arguments Raised {St A} e s.

Definition prog (St A : Type) : Type := St -> step St A.

#[global] Instance prog_ret {St : Type} : MRet (prog St) := fun A a s => Done a s.

#[global] Instance prog_bind {St : Type} : MBind (prog St) :=
  fun A B f m s => match m s with
                   | Done a s' => f a s'
                   | Raised e s' => Raised e s'
                   end.

(** An expression as a statement. *)
Definition lift {St A : Type} (x : result A) : prog St A :=
  fun s => match x with
           | Ok a => Done a s
           | Raise e => Raised e s
           end.

(** An assignment to the state. *)
Definition modify {St : Type} (f : St -> St) : prog St () := fun s => Done () (f s).

(** [try: body / except handled: handler] *)
Definition try_except {St A : Type} (body : prog St A) (handled : list exn)
    (handler : prog St A) : prog St A :=
  fun s => match body s with
           | Done a s' => Done a s'
           | Raised e s' => if catches handled e then handler s' else Raised e s'
           end.

(** [for x in xs: body]; an exception that [body] lets through ends the
    loop. *)
Fixpoint for_each {St A : Type} (body : A -> prog St ()) (xs : list A) : prog St () :=
  match xs with
  | [] => mret ()
  | x :: xs' => body x ;; for_each body xs'
  end.

(** How a run over a file ends: it returns [result], or it stops with an
    exception that no handler catches; [written] is what the output file
    holds then, its [with] block having closed it. *)
Inductive outcome (W R : Type) : Type :=
| Returned (written : list W) (result : R)
| Aborted (written : list W) (e : exn).
Arguments Returned {W R} written result.
Arguments Aborted {W R} written e.

(** A run on a file after a run that returned [written] and [count]:
    what was written stays, and a count that is returned is added. *)
Definition continued {W : Type} (written : list W) (count : nat) (o : outcome W nat)
    : outcome W nat :=
  match o with
  | Returned written' count' => Returned (written ++ written') (count + count')
  | Aborted written' e => Aborted (written ++ written') e
  end.

(** The values of the cells and defaults of a row. *)
Inductive value : Type :=
| VNone
| VStr (s : str)
| VFloat (x : float)
| VInt (z : Z).

(** [bool(v)] *)
Definition truth (v : value) : bool :=
  match v with
  | VNone => false
  | VStr [] => false
  | VStr (_ :: _) => true
  | VFloat x => negb (x =? 0)%float
  | VInt z => negb (z =? 0)%Z
  end.

(** [v == s] for a text [s]. *)
Definition eq_text (v : value) (s : str) : bool :=
  match v with
  | VStr t => str_eqb t s
  | _ => false
  end.

(** [v.strip()], [v.lower()]: a method of [str]; other values have none. *)
Definition call (method : str -> str) (v : value) : result str :=
  match v with
  | VStr s => Ok (method s)
  | _ => Raise AttributeError
  end.

(** [float(v)], given [float] on texts ([None]: [ValueError]). *)
Definition float_of (float_of_str : str -> option float) (v : value) : result float :=
  match v with
  | VNone => Raise TypeError
  | VStr s => match float_of_str s with
              | Some x => Ok x
              | None => Raise ValueError
              end
  | VFloat x => Ok x
  | VInt z => Ok (of_Z z)
  end.

(** A row of [csv.DictReader] on a file that begins with a header line:
    under each field name of the header the cell of the line, or [None]
    when the line ends before it; [rest] is what the row holds under the
    key [None], the cells beyond the header, and is empty when the row has
    no such key.  The functions on lists of lines below take the lines that
    follow the header. *)
Record line : Type := {
  cells : gmap string (option str);
  rest : list str
}.

Definition of_text (v : option str) : value :=
  match v with
  | Some s => VStr s
  | None => VNone
  end.

(** [csv.DictReader.__next__] on a line that is not blank. *)
Definition read_line (fieldnames : list string) (values : list str) : line :=
  {| cells :=
       fold_left (fun d kv => <[kv.1 := kv.2]> d)
         (zip fieldnames
            ((Some <$> values) ++ replicate (length fieldnames - length values) None))
         ∅;
     rest := drop (length fieldnames) values |}.

(** The row of a line that has exactly the cells of the header. *)
Definition of_row (r : row) : line := {| cells := Some <$> r; rest := [] |}.

(** [row[key]] *)
Definition getitem (l : line) (key : string) : result value :=
  match cells l !! key with
  | Some v => Ok (of_text v)
  | None => Raise KeyError
  end.

(** [row.get(key, default)] *)
Definition get (l : line) (key : string) (default : value) : value :=
  match cells l !! key with
  | Some v => of_text v
  | None => default
  end.

(** The row as a dict with text keys only. *)
Definition dict_of (l : line) : gmap string value := of_text <$> cells l.

(** [writer.writerow(row)] on a writer made with the field names of the
    reader, possibly with more: [DictWriter] raises [ValueError] for a row
    with a key that is not a field name, and the key [None] is the only
    such key a row can have. *)
Definition refused (l : line) : bool :=
  match rest l with
  | [] => false
  | _ :: _ => true
  end.

(** A cell as the scripts store it, as a value. *)
Definition of_cell (c : cell) : value :=
  match c with
  | Text s => VStr s
  | Float x => VFloat x
  | Int z => VInt z
  end.

End Py.

(** ** Frequency repair over any file: output/fix_frequency_bands.py *)

Module FixFrequencyBandsLines.
Import PyStr PyFloat Csv BandPlan Py.

Section WithRuntime.
Variable float_of_str : str -> option float.

(** [row] as the loop body has it, the rows written and [fixed_count]. *)
Record state : Type := {
  row : gmap string value;
  out_rows : list (gmap string value);
  fixed_count : nat
}.

(** [writer.writerow(row)] *)
Definition writerow (l : line) : prog state () :=
  fun st => if refused l then Raised ValueError st
            else Done () {| row := row st;
                            out_rows := out_rows st ++ [row st];
                            fixed_count := fixed_count st |}.

(** Lines 23-69: one iteration of [for row in reader]. *)
Definition iteration (l : line) : prog state () :=
  modify (fun st => {| row := dict_of l;
                       out_rows := out_rows st;
                       fixed_count := fixed_count st |}) ;;
  try_except
    (frequency ← lift (getitem l "Frequency" ≫= float_of float_of_str);
     let original_freq := frequency in
     let frequency := repair frequency in
     (if (original_freq =? frequency)%float then mret ()
      else modify (fun st => {| row := row st;
                                out_rows := out_rows st;
                                fixed_count := S (fixed_count st) |})) ;;
     modify (fun st => {| row := <["Frequency" := VFloat frequency]> (row st);
                          out_rows := out_rows st;
                          fixed_count := fixed_count st |}) ;;
     writerow l)
    [ValueError; KeyError]
    (writerow l).

(** [fix_frequency_bands]: the rows of the output file, and [fixed_count]
    if the function returns. *)
Definition fix_frequency_bands (lines : list line) : outcome (gmap string value) nat :=
  match for_each iteration lines {| row := ∅; out_rows := []; fixed_count := 0 |} with
  | Done _ st => Returned (out_rows st) (fixed_count st)
  | Raised e st => Aborted (out_rows st) e
  end.

(** The frequency of a line, if it has a text there that parses. *)
Definition frequency_of (l : line) : option float :=
  v ← cells l !! "Frequency"; t ← v; float_of_str t.

(** A line the loop gets past: its [Frequency] cell is not [None], and it
    has no more cells than the header. *)
Definition passes (l : line) : Prop := cells l !! "Frequency" <> Some None /\ rest l = [].

(** What such a line leaves in the output file, and whether it counts as
    fixed. *)
Definition written_for (l : line) : gmap string value :=
  match frequency_of l with
  | Some frequency => <["Frequency" := VFloat (repair frequency)]> (dict_of l)
  | None => dict_of l
  end.

Definition counts_as_fixed (l : line) : bool :=
  match frequency_of l with
  | Some frequency => negb (frequency =? repair frequency)%float
  | None => false
  end.
End WithRuntime.

End FixFrequencyBandsLines.

(** ** FM repeater projector over any file: scripts/create_icom_fm_csv.py *)

Module FmExportLines.
Import PyStr PyFloat Csv Py.

Section WithRuntime.
Variable float_of_str : str -> option float.
Variable str_of_float : float -> str.
Variable lower : str -> str.
Variable group_number : Z.
Variable group_name : str.
Variable country_filter : option str.

(** Lines 43-57. *)
Definition duplex (l : line) : result (str * cell) :=
  attempt
    (offset_mhz ← float_of float_of_str (get l "offset" (VInt 0));
     let dup_direction := get l "dup" (VStr []) in
     if eq_text dup_direction (lit "+") then Ok (lit "DUP+", Float offset_mhz)
     else if eq_text dup_direction (lit "-") then Ok (lit "DUP-", Float offset_mhz)
     else Ok ([], Int 0))
    [ValueError; KeyError]
    (Ok ([], Int 0)).

(** Lines 59-71. *)
Definition ctcss (l : line) : result (str * str) :=
  let ctcss_tx := get l "ctcss_tx" (VStr []) in
  if truth ctcss_tx then
    attempt
      (tone_freq ← float_of float_of_str ctcss_tx;
       Ok (lit "TONE", str_of_float tone_freq ++ lit "Hz"))
      [ValueError]
      (Ok (lit "OFF", lit "88.5Hz"))
  else Ok (lit "OFF", lit "88.5Hz").

(** Lines 76-82. *)
Definition coordinates (l : line) : result (cell * cell) :=
  attempt
    (latitude ← float_of float_of_str (get l "lat" (VInt 0));
     longitude ← float_of float_of_str (get l "long" (VInt 0));
     Ok (Float latitude, Float longitude))
    [ValueError; TypeError]
    (Ok (Int 0, Int 0)).

(** Lines 32-110: the row the loop body builds; [Ok None] is a
    [continue]. *)
Definition convert_line (l : line) : result (option icom_row) :=
  if FmExport.truthy country_filter
     && negb (eq_text (get l "country" (VStr [])) (default [] country_filter))
  then Ok None
  else
    fm ← call lower (get l "fm" (VStr (lit "True")));
    if negb (str_eqb fm (lit "true")) then Ok None
    else
      frequency ← float_of float_of_str (get l "freq_rx" (get l "freq_tx" (VInt 0)));
      '(dup, offset_mhz) ← duplex l;
      '(tone_setting, tone_value) ← ctcss l;
      loc_exact ← call lower (get l "loc_exact" (VStr (lit "False")));
      let position :=
        if str_eqb loc_exact (lit "true") then lit "Exact" else lit "Approximate" in
      '(latitude, longitude) ← coordinates l;
      let utc_offset :=
        if bool_decide (country_filter = Some (lit "Singapore")) then lit "+8:00"
        else if bool_decide (country_filter = Some (lit "Japan")) then lit "+9:00"
        else lit "+1:00" in
      name ← call strip (get l "name" (VStr []));
      sub_name ← call strip (get l "landmark" (VStr []));
      repeater_call_sign ← call strip (get l "callsign" (VStr []));
      Ok (Some {| Csv.group_no := group_number;
                  Csv.group_name := group_name;
                  Csv.name := name;
                  Csv.sub_name := sub_name;
                  Csv.repeater_call_sign := repeater_call_sign;
                  Csv.gateway_call_sign := [];
                  Csv.frequency := Float frequency;
                  Csv.dup := dup;
                  Csv.offset := offset_mhz;
                  Csv.mode := lit "FM";
                  Csv.tone := tone_setting;
                  Csv.repeater_tone := tone_value;
                  Csv.rpt1use := if str_eqb tone_setting (lit "OFF") then lit "NO"
                                 else lit "YES";
                  Csv.position := position;
                  Csv.latitude := latitude;
                  Csv.longitude := longitude;
                  Csv.utc_offset := utc_offset |}).

(** Lines 30-117: one iteration of [for row in reader]. *)
Definition iteration (l : line) : prog (output icom_row) () :=
  try_except
    (icom_row ← lift (convert_line l);
     match icom_row with
     | Some icom_row => modify (fun out => writerow out icom_row)
     | None => mret ()
     end)
    [ValueError; KeyError]
    (mret ()).

(** [convert_mcp_to_icom_fm_format]: the rows of the output file, and
    [processed_count] if the function returns. *)
Definition convert_mcp_to_icom_fm_format (lines : list line) : outcome icom_row nat :=
  match for_each iteration lines no_output with
  | Done _ out => Returned (written out) (processed_count out)
  | Raised e out => Aborted (written out) e
  end.
End WithRuntime.

End FmExportLines.

(** ** Band filter: output/filter_bands.py *)

Module FilterBandsLines.
Import PyStr PyFloat Csv Py FilterBands.

Section WithRuntime.
Variable float_of_str : str -> option float.

(** The rows written, [kept_count] and [filtered_count]. *)
Record state : Type := {
  out_rows : list (gmap string (option str));
  kept_count : nat;
  filtered_count : nat
}.

(** [writer.writerow(row)] *)
Definition writerow (l : line) : prog state () :=
  fun st => if refused l then Raised ValueError st
            else Done () {| out_rows := out_rows st ++ [cells l];
                            kept_count := kept_count st;
                            filtered_count := filtered_count st |}.

(** Lines 23-40: one iteration of [for row in reader]. *)
Definition iteration (l : line) : prog state () :=
  try_except
    (frequency ← lift (getitem l "Frequency" ≫= float_of float_of_str);
     if in_standard_band frequency then
       writerow l ;;
       modify (fun st => {| out_rows := out_rows st;
                            kept_count := S (kept_count st);
                            filtered_count := filtered_count st |})
     else
       modify (fun st => {| out_rows := out_rows st;
                            kept_count := kept_count st;
                            filtered_count := S (filtered_count st) |}))
    [ValueError; KeyError]
    (mret ()).

(** [filter_amateur_bands]: the rows of the output file, and the pair
    [kept_count, filtered_count] if the function returns. *)
Definition filter_amateur_bands (lines : list line)
    : outcome (gmap string (option str)) (nat * nat) :=
  match for_each iteration lines
          {| out_rows := []; kept_count := 0; filtered_count := 0 |} with
  | Done _ st => Returned (out_rows st) (kept_count st, filtered_count st)
  | Raised e st => Aborted (out_rows st) e
  end.

(** The frequency of a line, if it has a text there that parses. *)
Definition frequency_of (l : line) : option float :=
  v ← cells l !! "Frequency"; t ← v; float_of_str t.

(** The lines that are written and counted as kept, and those counted as
    filtered. *)
Definition kept (l : line) : bool :=
  match frequency_of l with
  | Some frequency => in_standard_band frequency && negb (refused l)
  | None => false
  end.

Definition filtered_out (l : line) : bool :=
  match frequency_of l with
  | Some frequency => negb (in_standard_band frequency)
  | None => false
  end.
End WithRuntime.

End FilterBandsLines.

(** ** Umlaut repair over a file: output/fix_umlauts.py *)

Module FixUmlautsLines.
Import PyStr Csv TextNormalizer Py.

Section WithRuntime.
Variable nfd : str -> str.

(** [row] as the loop body has it, the rows written and [fixed_count]. *)
Record state : Type := {
  row : gmap string (option str);
  out_rows : list (gmap string (option str));
  fixed_count : nat
}.

(** Lines 69-75 for one field. *)
Definition fix_field_step (field : string) (st : state) : state :=
  match row st !! field with
  | Some (Some ((_ :: _) as original_text)) =>
      let fixed_text := convert_umlauts_fix nfd original_text in
      {| row := <[field := Some fixed_text]> (row st);
         out_rows := out_rows st;
         fixed_count := if str_eqb original_text fixed_text then fixed_count st
                        else S (fixed_count st) |}
  | _ => st
  end.

Definition fix_field (field : string) : prog state () := modify (fix_field_step field).

Definition text_fields : list string := ["Name"; "Sub Name"; "Group Name"]%string.

(** [writer.writerow(row)] *)
Definition writerow (l : line) : prog state () :=
  fun st => if refused l then Raised ValueError st
            else Done () {| row := row st;
                            out_rows := out_rows st ++ [row st];
                            fixed_count := fixed_count st |}.

(** Lines 64-77: one iteration of [for row in reader]; no handler. *)
Definition iteration (l : line) : prog state () :=
  modify (fun st => {| row := cells l;
                       out_rows := out_rows st;
                       fixed_count := fixed_count st |}) ;;
  for_each fix_field text_fields ;;
  writerow l.

(** [fix_csv_umlauts]: the rows of the output file, and [fixed_count] if
    the function returns. *)
Definition fix_csv_umlauts (lines : list line) : outcome (gmap string (option str)) nat :=
  match for_each iteration lines {| row := ∅; out_rows := []; fixed_count := 0 |} with
  | Done _ st => Returned (out_rows st) (fixed_count st)
  | Raised e st => Aborted (out_rows st) e
  end.

(** What lines 68-75 make of a row, and how much they add to
    [fixed_count]. *)
Definition fixed (r : gmap string (option str)) : state :=
  fold_left (fun st field => fix_field_step field st) text_fields
    {| row := r; out_rows := []; fixed_count := 0 |}.
Definition fixed_row (r : gmap string (option str)) : gmap string (option str) :=
  row (fixed r).
Definition fixes_in (r : gmap string (option str)) : nat := fixed_count (fixed r).
End WithRuntime.

End FixUmlautsLines.

(** ** GPS columns for a channel file: scripts/add_gps_to_fm.py *)

Module AddGpsLines.
Import PyStr Csv Py.

(** The four values kept per call sign; a value is [None] when the line
    of the intermediate file ends before its cell. *)
Record gps_cells : Type := {
  lat : option str;
  long : option str;
  landmark : option str;
  locator : option str
}.

(** [row.get(key, '')] *)
Definition get_text (l : line) (key : string) : option str :=
  default (Some []) (cells l !! key).

(** Lines 37-42: what is kept of a row. *)
Definition gps_cells_of (l : line) : gps_cells :=
  {| lat := get_text l "lat";
     long := get_text l "long";
     landmark := get_text l "landmark";
     locator := get_text l "locator" |}.

(** Lines 35-42: one iteration of the loop of [read_intermediate_csv]; the
    key is [None] for a line that ends before its [callsign] cell. *)
Definition add_gps_line (l : line) : prog (gmap (option str) gps_cells) () :=
  match cells l !! "callsign" with
  | Some callsign => modify (fun gps_data => <[callsign := gps_cells_of l]> gps_data)
  | None => lift (Raise KeyError)
  end.

(** [read_intermediate_csv]: the handler of line 43 returns the empty
    dict. *)
Definition read_intermediate_csv (lines : list line) : gmap (option str) gps_cells :=
  match try_except (for_each add_gps_line lines) any_exception
          (modify (fun _ => ∅)) ∅ with
  | Done _ gps_data => gps_data
  | Raised _ _ => ∅
  end.

(** [row] as the loop body has it, the rows written and the two counts. *)
Record state : Type := {
  row : gmap string (option str);
  out_rows : list (gmap string (option str));
  rows_processed : nat;
  rows_with_gps : nat
}.

(** [writer.writerow(row)]: the field names are those of the reader and
    the four GPS columns. *)
Definition writerow (l : line) : prog state () :=
  fun st => if refused l then Raised ValueError st
            else Done () {| row := row st;
                            out_rows := out_rows st ++ [row st];
                            rows_processed := rows_processed st;
                            rows_with_gps := rows_with_gps st |}.

(** Lines 81-83: the call sign a row is looked up with. *)
Definition lookup_key (l : line) : result str :=
  callsign ← call strip (get l "RPT1 Call Sign" (VStr []));
  match callsign with
  | [] => call strip (get l "Name" (VStr []))
  | _ => Ok callsign
  end.

(** Lines 77-99: one iteration of [for row in reader]. *)
Definition iteration (gps_data : gmap (option str) gps_cells) (l : line) : prog state () :=
  modify (fun st => {| row := cells l;
                       out_rows := out_rows st;
                       rows_processed := S (rows_processed st);
                       rows_with_gps := rows_with_gps st |}) ;;
  callsign ← lift (lookup_key l);
  match gps_data !! Some callsign with
  | Some gps_info =>
      modify (fun st =>
        {| row := <["Landmark" := landmark gps_info]>
                    (<["Locator" := locator gps_info]>
                       (<["Longitude" := long gps_info]>
                          (<["Latitude" := lat gps_info]> (row st))));
           out_rows := out_rows st;
           rows_processed := rows_processed st;
           rows_with_gps := S (rows_with_gps st) |})
  | None =>
      modify (fun st =>
        {| row := <["Landmark" := Some []]>
                    (<["Locator" := Some []]>
                       (<["Longitude" := Some []]>
                          (<["Latitude" := Some []]> (row st))));
           out_rows := out_rows st;
           rows_processed := rows_processed st;
           rows_with_gps := rows_with_gps st |})
  end ;;
  writerow l.

(** How [enhance_fm_csv_with_gps] ends: [False] before any file is opened,
    [False] from the handler of line 106, which catches every exception,
    with the output as far as it was written, or [True]. *)
Inductive enhanced : Type :=
| NoGpsData
| Failed (written : list (gmap string (option str))) (e : exn)
| Enhanced (written : list (gmap string (option str))) (rows_processed rows_with_gps : nat).

Definition enhance_fm_csv_with_gps (fm_lines intermediate_lines : list line) : enhanced :=
  let gps_data := read_intermediate_csv intermediate_lines in
  if decide (gps_data = ∅) then NoGpsData
  else
    match for_each (iteration gps_data) fm_lines
            {| row := ∅; out_rows := []; rows_processed := 0; rows_with_gps := 0 |} with
    | Done _ st => Enhanced (out_rows st) (rows_processed st) (rows_with_gps st)
    | Raised e st => Failed (out_rows st) e
    end.

(** The four columns the script adds. *)
Definition gps_columns : list string := ["Latitude"; "Longitude"; "Locator"; "Landmark"]%string.

(** What lines 86-97 make of a row that is looked up with [callsign]. *)
Definition enhance_row (gps_data : gmap (option str) gps_cells)
    (r : gmap string (option str)) (callsign : str) : gmap string (option str) :=
  match gps_data !! Some callsign with
  | Some gps_info =>
      <["Landmark" := landmark gps_info]>
        (<["Locator" := locator gps_info]>
           (<["Longitude" := long gps_info]>
              (<["Latitude" := lat gps_info]> r)))
  | None =>
      <["Landmark" := Some []]>
        (<["Locator" := Some []]> (<["Longitude" := Some []]> (<["Latitude" := Some []]> r)))
  end.

End AddGpsLines.

(** ** Sample lines *)

Module LineSamples.
Import PyStr PyFloat Csv Py.

(** The header of a canonical CSV and of an Icom channel file. *)
Definition canonical_header : list string :=
  [ "callsign"; "name"; "landmark"; "country"; "fm"; "freq_rx"; "freq_tx";
    "offset"; "dup"; "ctcss_tx"; "loc_exact"; "lat"; "long" ]%string.
Definition channel_header : list string :=
  [ "Name"; "Repeater Call Sign"; "Frequency" ]%string.

(** The cells of [Samples.repeater] in the order of the header. *)
Definition repeater_cells : list str :=
  [ lit "OE1XUU"; lit "Wien Kahlenberg"; lit "Kahlenberg"; lit "Austria"; lit "True";
    lit "438.950"; lit "431.350"; lit "7.6"; lit "-"; lit "162.2"; lit "True";
    lit "48.2747"; lit "16.3347" ].

(** The line of [Samples.repeater], and the same line cut after its [fm]
    cell, so that it ends before the frequency. *)
Definition repeater_line : line := read_line canonical_header repeater_cells.
Definition repeater_cut_line : line := read_line canonical_header (take 5 repeater_cells).

(** A row of a canonical CSV that has neither frequency column. *)
Definition repeater_no_frequency : row :=
  delete "freq_rx" (delete "freq_tx" Samples.repeater).

(** What the FM projector writes for it in group 32. *)
Definition no_frequency_channel : icom_row :=
  {| group_no := 32; group_name := lit "AT-Repeaters";
     name := lit "Wien Kahlenberg"; sub_name := lit "Kahlenberg";
     repeater_call_sign := lit "OE1XUU"; gateway_call_sign := [];
     frequency := Float 0; dup := lit "DUP-"; offset := Float (7.6%float);
     mode := lit "FM"; tone := lit "TONE"; repeater_tone := lit "162.2Hz";
     rpt1use := lit "YES"; position := lit "Exact";
     latitude := Float (48.2747%float); longitude := Float (16.3347%float);
     utc_offset := lit "+1:00" |}.

(** [Samples.repeater] with a direction that is neither [+] nor [-], and
    what the FM projector writes for it and for the row with an offset
    that is not a number. *)
Definition repeater_split : row := <["dup" := lit "split"]> Samples.repeater.
Definition simplex_channel : icom_row :=
  {| group_no := 32; group_name := lit "AT-Repeaters";
     name := lit "Wien Kahlenberg"; sub_name := lit "Kahlenberg";
     repeater_call_sign := lit "OE1XUU"; gateway_call_sign := [];
     frequency := Float (438.950%float); dup := []; offset := Int 0;
     mode := lit "FM"; tone := lit "TONE"; repeater_tone := lit "162.2Hz";
     rpt1use := lit "YES"; position := lit "Exact";
     latitude := Float (48.2747%float); longitude := Float (16.3347%float);
     utc_offset := lit "+1:00" |}.

(** Lines of a channel file: complete, cut before the frequency, and with
    one cell more than the header. *)
Definition channel_line : line := read_line channel_header [lit "Wien"; lit "OE1XUU"; lit "51.0"].
Definition channel_cut_line : line := read_line channel_header [lit "Wien"; lit "OE1XUU"].
Definition channel_long_line : line :=
  read_line channel_header [lit "Wien"; lit "OE1XUU"; lit "51.0"; lit "FM"].
Definition channel_bad_line : line :=
  read_line channel_header [lit "Wien"; lit "OE1XUU"; lit "n/a"].

(** A broadcast station whose name has 22 characters, one of them o
    with diaeresis (code point 246), and the row the Vienna projector writes
    for it at 10 km. *)
Definition long_name : str := lit "Radio Nieder" ++ [246%N] ++ lit "sterreich".
Definition long_name_broadcast : row := <["name" := long_name]> MoreSamples.broadcast.
Definition long_name_channel : icom_row :=
  {| group_no := 81; group_name := lit "Vienna-FM-Radio";
     name := long_name; sub_name := lit "Kahlenberg";
     repeater_call_sign := []; gateway_call_sign := [];
     frequency := Float (89.9%float); dup := []; offset := Float (0.0%float);
     mode := lit "FM"; tone := lit "OFF"; repeater_tone := lit "88.5Hz";
     rpt1use := lit "NO"; position := lit "Exact";
     latitude := Float (48.2747%float); longitude := Float (16.3347%float);
     utc_offset := lit "+1:00" |}.

(** A summit with a reference of two characters and a name of sixteen. *)
Definition short_reference_summit : row :=
  <["callsign" := lit "W1"]> (<["name" := lit "Mount Washington"]> Samples.summit).

End LineSamples.

(** * Properties *)

(** ** The order of binary64 comparisons *)

Section Order64.
Import PyFloat.
Local Open Scope Z_scope.

Lemma digits2_pos_bound (m : positive) : Z.pos m < 2 ^ Z.pos (digits2_pos m).
Proof.
  induction m as [m IH|m IH|]; cbn [digits2_pos]; rewrite ?Pos2Z.inj_succ, ?Z.pow_succ_r;
    lia.
Qed.

Lemma digits2_pos_lower (m : positive) : 2 ^ (Z.pos (digits2_pos m) - 1) <= Z.pos m.
Proof.
  induction m as [m IH|m IH|]; cbn [digits2_pos]; rewrite ?Pos2Z.inj_succ;
    try (replace (Z.succ (Z.pos (digits2_pos m)) - 1) with (Z.succ (Z.pos (digits2_pos m) - 1))
           by lia;
         rewrite Z.pow_succ_r by lia);
    try lia.
Qed.

Lemma digits2_pos_eq (m : positive) (n : positive) :
  2 ^ (Z.pos n - 1) <= Z.pos m < 2 ^ Z.pos n -> digits2_pos m = n.
Proof.
  intros [Hlo Hhi].
  pose proof (digits2_pos_bound m) as Hb. pose proof (digits2_pos_lower m) as Hl.
  assert (Z.pos (digits2_pos m) - 1 < Z.pos n) as H1.
  { apply (Z.pow_lt_mono_r_iff 2); lia. }
  assert (Z.pos n - 1 < Z.pos (digits2_pos m)) as H2.
  { apply (Z.pow_lt_mono_r_iff 2); lia. }
  lia.
Qed.

(** A valid binary64 mantissa has at most 53 bits and its exponent lies
    between -1074 and 971. *)
Lemma bounded_range (m : positive) (e : Z) :
  bounded prec emax m e = true -> -1074 <= e <= 971 /\ 0 < Z.pos m < 2 ^ 53.
Proof.
  unfold bounded, canonical_mantissa, fexp, SpecFloat.emin, emax, prec.
  intros H. apply andb_true_iff in H as [Hc He].
  apply Z.eqb_eq in Hc. apply Z.leb_le in He.
  pose proof (digits2_pos_bound m) as Hm.
  assert (Z.pos (digits2_pos m) <= 53) as Hd by lia.
  assert (2 ^ Z.pos (digits2_pos m) <= 2 ^ 53) by (apply Z.pow_le_mono_r; lia).
  lia.
Qed.

(** On valid values other than NaN, [SFcompare] compares ranks. *)
Lemma SFcompare_rank (x y : spec_float) :
  valid_binary x = true -> valid_binary y = true ->
  x <> S754_nan -> y <> S754_nan ->
  SFcompare x y = Some (rank x ?= rank y).
Proof.
  destruct x as [sx|sx| |sx mx ex], y as [sy|sy| |sy my ey];
    cbn [valid_binary SpecFloat.valid_binary]; intros Vx Vy Nx Ny; try congruence;
    try (apply bounded_range in Vx); try (apply bounded_range in Vy);
    try destruct sx; try destruct sy; cbn [SFcompare rank]; f_equal; symmetry;
    try reflexivity;
    try (apply Z.compare_lt_iff; lia); try (apply Z.compare_gt_iff; lia).
  - destruct (Z.compare_spec ex ey) as [-> | H | H].
    + change (Pos.compare_cont Eq mx my) with (Pos.compare mx my).
      destruct (Pos.compare_spec mx my) as [-> | H | H]; cbn [CompOpp].
      * apply Z.compare_refl.
      * apply Z.compare_gt_iff; lia.
      * apply Z.compare_lt_iff; lia.
    + apply Z.compare_gt_iff; lia.
    + apply Z.compare_lt_iff; lia.
  - destruct (Z.compare_spec ex ey) as [-> | H | H].
    + change (Pos.compare_cont Eq mx my) with (Pos.compare mx my).
      destruct (Pos.compare_spec mx my) as [-> | H | H].
      * apply Z.compare_refl.
      * apply Z.compare_lt_iff; lia.
      * apply Z.compare_gt_iff; lia.
    + apply Z.compare_lt_iff; lia.
    + apply Z.compare_gt_iff; lia.
Qed.

Lemma leb_rank (x y : float) :
  ~ nan64 x -> ~ nan64 y -> (x <=? y)%float = (rank64 x <=? rank64 y).
Proof.
  intros Hx Hy. rewrite leb_spec. unfold SFleb.
  rewrite SFcompare_rank by auto using Prim2SF_valid.
  unfold rank64, Z.leb. destruct (rank (Prim2SF x) ?= rank (Prim2SF y)); reflexivity.
Qed.

Lemma ltb_rank (x y : float) :
  ~ nan64 x -> ~ nan64 y -> (x <? y)%float = (rank64 x <? rank64 y).
Proof.
  intros Hx Hy. rewrite ltb_spec. unfold SFltb.
  rewrite SFcompare_rank by auto using Prim2SF_valid.
  unfold rank64, Z.ltb. destruct (rank (Prim2SF x) ?= rank (Prim2SF y)); reflexivity.
Qed.

Lemma eqb_rank (x y : float) :
  ~ nan64 x -> ~ nan64 y -> (x =? y)%float = (rank64 x =? rank64 y).
Proof.
  intros Hx Hy. rewrite FloatAxioms.eqb_spec. unfold SFeqb.
  rewrite SFcompare_rank by auto using Prim2SF_valid.
  unfold rank64, Z.eqb.
  destruct (Z.compare_spec (rank (Prim2SF x)) (rank (Prim2SF y))) as [-> | H | H].
  - destruct (rank (Prim2SF y)); try reflexivity; symmetry; apply Pos.eqb_refl.
  - destruct (rank (Prim2SF x)), (rank (Prim2SF y)); try reflexivity; try lia;
      symmetry; apply Pos.eqb_neq; lia.
  - destruct (rank (Prim2SF x)), (rank (Prim2SF y)); try reflexivity; try lia;
      symmetry; apply Pos.eqb_neq; lia.
Qed.

(** Every comparison with NaN is false. *)
Lemma nan_leb (x y : float) : nan64 x \/ nan64 y -> (x <=? y)%float = false.
Proof.
  intros H. rewrite leb_spec. unfold SFleb, nan64 in *.
  destruct H as [-> | ->]; [| destruct (Prim2SF x) ]; reflexivity.
Qed.

Lemma nan_ltb (x y : float) : nan64 x \/ nan64 y -> (x <? y)%float = false.
Proof.
  intros H. rewrite ltb_spec. unfold SFltb, nan64 in *.
  destruct H as [-> | ->]; [| destruct (Prim2SF x) ]; reflexivity.
Qed.

Lemma nan_eqb (x y : float) : nan64 x \/ nan64 y -> (x =? y)%float = false.
Proof.
  intros H. rewrite FloatAxioms.eqb_spec. unfold SFeqb, nan64 in *.
  destruct H as [-> | ->]; [| destruct (Prim2SF x) ]; reflexivity.
Qed.

Lemma nan64_dec (x : float) : nan64 x \/ ~ nan64 x.
Proof.
  unfold nan64. destruct (Prim2SF x); auto; right; discriminate.
Qed.

Lemma leb_true_not_nan (x y : float) : (x <=? y)%float = true -> ~ nan64 x /\ ~ nan64 y.
Proof.
  intros H. split; intros N; rewrite nan_leb in H by auto; discriminate H.
Qed.

Lemma ltb_true_not_nan (x y : float) : (x <? y)%float = true -> ~ nan64 x /\ ~ nan64 y.
Proof.
  intros H. split; intros N; rewrite nan_ltb in H by auto; discriminate H.
Qed.

Lemma eqb_true_not_nan (x y : float) : (x =? y)%float = true -> ~ nan64 x /\ ~ nan64 y.
Proof.
  intros H. split; intros N; rewrite nan_eqb in H by auto; discriminate H.
Qed.

Lemma rank64_finite (x : float) (m : positive) (e : Z) :
  Prim2SF x = S754_finite false m e ->
  ~ nan64 x /\ rank64 x = (e + 1075) * 2 ^ 53 + Z.pos m.
Proof.
  intros H. unfold nan64, rank64. rewrite H. split; [ discriminate | reflexivity ].
Qed.

(** A valid float whose rank lies strictly inside the ranks of exponent [e]
    is a positive finite value of that exponent. *)
Lemma finite_of_rank (x : spec_float) (e : Z) :
  valid_binary x = true -> -1074 <= e <= 971 ->
  (e + 1075) * 2 ^ 53 < rank x < (e + 1076) * 2 ^ 53 ->
  exists m, x = S754_finite false m e /\ rank x = (e + 1075) * 2 ^ 53 + Z.pos m.
Proof.
  change (2 ^ 53) with 9007199254740992.
  destruct x as [s|s| |s m e']; cbn [valid_binary SpecFloat.valid_binary rank];
    intros V He H; try destruct s; try lia.
  - apply bounded_range in V. change (2 ^ 53) with 9007199254740992 in V. lia.
  - apply bounded_range in V. change (2 ^ 53) with 9007199254740992 in V.
    assert (e' = e) as -> by nia. eauto.
Qed.

End Order64.

(** A float literal is not NaN. *)
Ltac literal_not_nan :=
  let H := fresh in
  intros H; unfold PyFloat.nan64 in H; vm_compute in H; discriminate H.

(** Evaluate the rank of every closed float of the goal. *)
Ltac rank_literals :=
  repeat match goal with
  | |- context [PyFloat.rank64 ?c] =>
      let b := eval vm_compute in (PrimFloat.is_nan c) in
      lazymatch b with
      | false => idtac
      | true => idtac
      end;
      let v := eval vm_compute in (PyFloat.rank64 c) in
      change (PyFloat.rank64 c) with v
  end.

(** Case analysis on every integer comparison of the goal, closing the
    cases linear arithmetic refutes. *)
Ltac split_rank :=
  repeat match goal with
  | |- context [Z.leb ?a ?b] =>
      destruct (Z.leb_spec a b); cbn [negb andb orb]; try (exfalso; lia)
  | |- context [Z.ltb ?a ?b] =>
      destruct (Z.ltb_spec a b); cbn [negb andb orb]; try (exfalso; lia)
  end.

(** ** Rounding of sums *)

Section Rounding64.
Local Open Scope Z_scope.

(** A 53-bit mantissa at exponent -45 needs no further shift. *)
Lemma round_done (q : positive) :
  2 ^ 52 <= Z.pos q < 2 ^ 53 ->
  (let '(mrs'', e'') :=
     shr {| shr_m := Z.pos q; shr_r := false; shr_s := false |} (-45)
       (fexp prec emax (Zdigits2 (Z.pos q) + -45) - -45) in
   match shr_m mrs'' with
   | 0 => S754_zero false
   | Z.pos m => if e'' <=? emax - prec then S754_finite false m e'' else S754_infinity false
   | Z.neg _ => S754_nan
   end) = S754_finite false q (-45).
Proof.
  intros Hq. cbn [Zdigits2].
  rewrite (digits2_pos_eq q 53) by (change (Z.pos 53 - 1) with 52; lia).
  reflexivity.
Qed.

(** Rounding a 55-bit integer at exponent -47 to binary64: the mantissa is
    the integer divided by 4, to nearest. *)
Lemma binary_normalize_55 (M : positive) :
  2 ^ 54 <= Z.pos M < 2 ^ 55 - 4 ->
  exists m', binary_normalize prec emax (Z.pos M) (-47) false = S754_finite false m' (-45)
             /\ Z.pos M - 2 <= 4 * Z.pos m' <= Z.pos M + 2.
Proof.
  intros HM.
  unfold binary_normalize, binary_round.
  rewrite (digits2_pos_eq M 55) by (change (Z.pos 55 - 1) with 54; lia).
  change (shl_align M (-47) (fexp prec emax (55 + -47))) with (M, -47).
  unfold binary_round_aux, shr_fexp. cbn [Zdigits2].
  rewrite (digits2_pos_eq M 55) by (change (Z.pos 55 - 1) with 54; lia).
  change (fexp prec emax (55 + -47) - -47) with 2.
  cbn [shr SpecFloat.iter_pos shr_record_of_loc].
  change (-47 + 2) with (-45).
  change (2 ^ 54) with 18014398509481984 in HM.
  change (2 ^ 55 - 4) with 36028797018963964 in HM.
  destruct M as [[p|p|]|[p|p|]|]; try lia;
    cbn [shr_1 shr_m shr_r shr_s loc_of_shr_record round_nearest_even orb];
    try destruct (IntDef.Z.even (Z.pos p));
    rewrite ?Pos2Z.add_pos_pos;
    eexists; (split; [ apply round_done; change (2 ^ 52) with 4503599627370496;
                       change (2 ^ 53) with 9007199254740992; lia
                     | lia ]).
Qed.

(** Rounding a 56-bit integer at exponent -48: the mantissa is the integer
    divided by 8, to nearest. *)
Lemma binary_normalize_56 (M : positive) :
  2 ^ 55 <= Z.pos M < 2 ^ 56 - 8 ->
  exists m', binary_normalize prec emax (Z.pos M) (-48) false = S754_finite false m' (-45)
             /\ Z.pos M - 4 <= 8 * Z.pos m' <= Z.pos M + 4.
Proof.
  intros HM.
  unfold binary_normalize, binary_round.
  rewrite (digits2_pos_eq M 56) by (change (Z.pos 56 - 1) with 55; lia).
  change (shl_align M (-48) (fexp prec emax (56 + -48))) with (M, -48).
  unfold binary_round_aux, shr_fexp. cbn [Zdigits2].
  rewrite (digits2_pos_eq M 56) by (change (Z.pos 56 - 1) with 55; lia).
  change (fexp prec emax (56 + -48) - -48) with 3.
  cbn [shr SpecFloat.iter_pos shr_record_of_loc].
  change (-48 + 3) with (-45).
  change (2 ^ 55) with 36028797018963968 in HM.
  change (2 ^ 56 - 8) with 72057594037927928 in HM.
  destruct M as [[[p|p|]|[p|p|]|]|[[p|p|]|[p|p|]|]|]; try lia;
    cbn [shr_1 shr_m shr_r shr_s loc_of_shr_record round_nearest_even orb];
    try destruct (IntDef.Z.even (Z.pos p));
    rewrite ?Pos2Z.add_pos_pos;
    eexists; (split; [ apply round_done; change (2 ^ 52) with 4503599627370496;
                       change (2 ^ 53) with 9007199254740992; lia
                     | lia ]).
Qed.

End Rounding64.

(** ** Band plan repair *)

Section BandPlanFacts.
Import PyFloat BandPlan.
Local Open Scope float_scope.

(** From 50 to 54 the sum with 94 is a float from 144 to 148, and at most 146
    when the frequency is at most 52. *)
Lemma add_94_range (f : float) :
  (50 <=? f) = true -> (f <=? 54) = true ->
  ~ nan64 (f + 94) /\
  (rank64 144 <= rank64 (f + 94) <= rank64 148)%Z /\
  ((f <=? 52) = true -> (rank64 (f + 94) <= rank64 146)%Z).
Proof.
  intros Hlo Hhi.
  destruct (leb_true_not_nan _ _ Hlo) as [_ Hf].
  rewrite leb_rank in Hlo, Hhi by first [ exact Hf | literal_not_nan ].
  apply Z.leb_le in Hlo, Hhi.
  assert (forall b, (f <=? 52) = b -> (rank64 f <=? rank64 52)%Z = b) as H52.
  { intros b <-. symmetry. apply leb_rank; first [ exact Hf | literal_not_nan ]. }
  revert Hlo Hhi H52. rank_literals. intros Hlo Hhi H52.
  destruct (finite_of_rank (Prim2SF f) (-47) (Prim2SF_valid f) ltac:(lia))
    as (m & Hshape & Hrank).
  { change (2 ^ 53)%Z with 9007199254740992%Z. fold (rank64 f). lia. }
  fold (rank64 f) in Hrank. change (2 ^ 53)%Z with 9007199254740992%Z in Hrank.
  assert (exists m', Prim2SF (f + 94) = S754_finite false m' (-45)
                     /\ (Z.pos m + 13229323905400832 - 2 <= 4 * Z.pos m'
                         <= Z.pos m + 13229323905400832 + 2)%Z) as (m' & Hsum & Hm').
  { rewrite add_spec, Hshape.
    let v := eval vm_compute in (Prim2SF 94) in change (Prim2SF 94) with v.
    unfold SF64add, SFadd.
    change (Z.min (-47) (-46)) with (-47)%Z.
    change (shl_align m (-47) (-47)) with (m, (-47)%Z).
    change (shl_align 6614661952700416 (-46) (-47))
      with (13229323905400832%positive, (-47)%Z).
    cbn [fst cond_Zopp]. rewrite Pos2Z.add_pos_pos.
    destruct (binary_normalize_55 (m + 13229323905400832)) as (m' & E & B).
    { rewrite Pos2Z.inj_add. change (2 ^ 54)%Z with 18014398509481984%Z.
      change (2 ^ 55 - 4)%Z with 36028797018963964%Z. lia. }
    exists m'. split; [ exact E |]. rewrite Pos2Z.inj_add in B. exact B. }
  apply rank64_finite in Hsum as [Hnan Hr].
  change (2 ^ 53)%Z with 9007199254740992%Z in Hr.
  split; [ exact Hnan |]. split; [ lia |].
  intros H. apply H52 in H. apply Z.leb_le in H. lia.
Qed.

(** From 28 to 29.7 the sum with 116 is a float from 144 to 146. *)
Lemma add_116_range (f : float) :
  (28 <=? f) = true -> (f <=? 29.7) = true ->
  ~ nan64 (f + 116) /\ (rank64 144 <= rank64 (f + 116) <= rank64 146)%Z.
Proof.
  intros Hlo Hhi.
  destruct (leb_true_not_nan _ _ Hlo) as [_ Hf].
  rewrite leb_rank in Hlo, Hhi by first [ exact Hf | literal_not_nan ].
  apply Z.leb_le in Hlo, Hhi.
  revert Hlo Hhi. rank_literals. intros Hlo Hhi.
  destruct (finite_of_rank (Prim2SF f) (-48) (Prim2SF_valid f) ltac:(lia))
    as (m & Hshape & Hrank).
  { change (2 ^ 53)%Z with 9007199254740992%Z. fold (rank64 f). lia. }
  fold (rank64 f) in Hrank. change (2 ^ 53)%Z with 9007199254740992%Z in Hrank.
  assert (exists m', Prim2SF (f + 116) = S754_finite false m' (-45)
                     /\ (Z.pos m + 32651097298436096 - 4 <= 8 * Z.pos m'
                         <= Z.pos m + 32651097298436096 + 4)%Z) as (m' & Hsum & Hm').
  { rewrite add_spec, Hshape.
    let v := eval vm_compute in (Prim2SF 116) in change (Prim2SF 116) with v.
    unfold SF64add, SFadd.
    change (Z.min (-48) (-46)) with (-48)%Z.
    change (shl_align m (-48) (-48)) with (m, (-48)%Z).
    change (shl_align 8162774324609024 (-46) (-48))
      with (32651097298436096%positive, (-48)%Z).
    cbn [fst cond_Zopp]. rewrite Pos2Z.add_pos_pos.
    destruct (binary_normalize_56 (m + 32651097298436096)) as (m' & E & B).
    { rewrite Pos2Z.inj_add. change (2 ^ 55)%Z with 36028797018963968%Z.
      change (2 ^ 56 - 8)%Z with 72057594037927928%Z. lia. }
    exists m'. split; [ exact E |]. rewrite Pos2Z.inj_add in B. exact B. }
  apply rank64_finite in Hsum as [Hnan Hr].
  change (2 ^ 53)%Z with 9007199254740992%Z in Hr.
  split; [ exact Hnan |]. lia.
Qed.

(** What the second phase does to a float that is not NaN, by rank. *)
Lemma ensure_amateur_band_rank (x : float) :
  ~ nan64 x ->
  ensure_amateur_band x =
    if ((rank64 144 <=? rank64 x) && (rank64 x <=? rank64 146))%Z then x
    else if ((rank64 430 <=? rank64 x) && (rank64 x <=? rank64 440))%Z then x
    else if ((rank64 1240 <=? rank64 x) && (rank64 x <=? rank64 1300))%Z then x
    else if ((rank64 2300 <=? rank64 x) && (rank64 x <=? rank64 2450))%Z then x
    else if (rank64 2000 <? rank64 x)%Z then x
    else if (rank64 x <? rank64 200)%Z then 145.0
    else if ((rank64 400 <=? rank64 x) && (rank64 x <=? rank64 500))%Z then x
    else 145.0.
Proof.
  intros Hx. unfold ensure_amateur_band.
  rewrite !(leb_rank _ x), !(leb_rank x), !(ltb_rank _ x), !(ltb_rank x)
    by first [ exact Hx | literal_not_nan ].
  reflexivity.
Qed.

Lemma fix_common_issues_rank (x : float) :
  ~ nan64 x ->
  fix_common_issues x =
    if ((rank64 50 <=? rank64 x) && (rank64 x <=? rank64 54))%Z then x + 94
    else if ((rank64 28 <=? rank64 x) && (rank64 x <=? rank64 29.7))%Z then x + 116
    else if (rank64 x <? rank64 144)%Z then
      if (rank64 50 <? rank64 x)%Z then x + 94 else 145.0
    else x.
Proof.
  intros Hx. unfold fix_common_issues.
  rewrite !(leb_rank _ x), !(leb_rank x), !(ltb_rank _ x), !(ltb_rank x)
    by first [ exact Hx | literal_not_nan ].
  reflexivity.
Qed.

Lemma ensure_amateur_band_nan (x : float) : nan64 x -> ensure_amateur_band x = 145.0.
Proof.
  intros Hx. unfold ensure_amateur_band.
  rewrite !(nan_leb _ x), !(nan_leb x), !(nan_ltb _ x), !(nan_ltb x) by auto.
  reflexivity.
Qed.

Lemma ensure_amateur_band_not_nan (x : float) : ~ nan64 (ensure_amateur_band x).
Proof.
  destruct (nan64_dec x) as [Hx | Hx].
  - rewrite ensure_amateur_band_nan by exact Hx. literal_not_nan.
  - rewrite ensure_amateur_band_rank by exact Hx.
    repeat match goal with
           | |- context [if ?b then _ else _] => destruct b
           end; first [ exact Hx | literal_not_nan ].
Qed.

Lemma ensure_amateur_band_settled (x : float) : settled (ensure_amateur_band x).
Proof.
  destruct (nan64_dec x) as [Hx | Hx].
  - rewrite ensure_amateur_band_nan by exact Hx. split; vm_compute; reflexivity.
  - unfold settled. rewrite (ensure_amateur_band_rank x Hx). rank_literals.
    split; split_rank; try (vm_compute; reflexivity);
      rewrite ?(fix_common_issues_rank x Hx), ?(ensure_amateur_band_rank x Hx);
      rank_literals; split_rank; reflexivity.
Qed.

Lemma repair_settled (f : float) : settled (repair f).
Proof. apply ensure_amateur_band_settled. Qed.

Lemma eqb_refl_not_nan (x : float) : ~ nan64 x -> (x =? x) = true.
Proof. intros Hx. rewrite eqb_rank by exact Hx. apply Z.eqb_refl. Qed.

(** C6: [repair] is idempotent on every binary64 float, the infinities and
    NaN included, both as identity of values and under Python's [==], and the
    three values the design document lists come out as stated: 145.5 is
    kept, 51.0 and 29.0 both go to 145.0. *)
Theorem repair_idempotent :
  (forall f : float, repair (repair f) = repair f) /\
  (forall f : float, (repair (repair f) =? repair f) = true) /\
  (repair 145.5 =? 145.5) = true /\
  (repair 51.0 =? 145.0) = true /\
  (repair 29.0 =? 145.0) = true.
Proof.
  assert (forall f : float, repair (repair f) = repair f) as H.
  { intros f. destruct (repair_settled f) as [Hfix Hens].
    unfold repair at 1. rewrite Hfix. exact Hens. }
  split; [ exact H |]. split; [| repeat split; vm_compute; reflexivity ].
  intros f. rewrite H. apply eqb_refl_not_nan, ensure_amateur_band_not_nan.
Qed.

(** C2, as stated, fails at the upper end of the 6 m range: 54 MHz is shifted
    to 148 MHz, which is outside 144-146, and the second phase then returns
    145.0 instead of the shifted value. *)
Lemma repair_6m_upper_counterexample :
  between 50 54 54 = true /\
  54 + 94 = 148 /\
  (repair 54 =? 54 + 94) = false /\
  between 144 (54 + 94) 146 = false /\
  repair 54 = 145.0.
Proof. repeat split; vm_compute; reflexivity. Qed.

(** C2, amended: from 50 to 54 MHz the result is the frequency plus 94, inside
    144-146, whenever that sum is at most 146, which is so for every
    frequency from 50 to 52; whenever the sum is above 146 (as it is at 54)
    the result is 145.0; from 28 to 29.7 MHz the result is the frequency plus
    116 and lies in 144-146.  Sums and comparisons are those of binary64. *)
Theorem repair_shifts_into_2m (f : float) :
  (between 50 f 54 = true -> (f + 94 <=? 146) = true ->
     repair f = f + 94 /\ in_2m (repair f)) /\
  (between 50 f 52 = true ->
     (f + 94 <=? 146) = true /\ repair f = f + 94 /\ in_2m (repair f)) /\
  (between 50 f 54 = true -> (146 <? f + 94) = true ->
     repair f = 145.0 /\ in_2m (repair f)) /\
  (between 28 f 29.7 = true -> repair f = f + 116 /\ in_2m (repair f)).
Proof.
  unfold between, in_2m, between.
  assert (forall g, ~ nan64 g -> (rank64 144 <= rank64 g <= rank64 146)%Z ->
            ensure_amateur_band g = g /\ (144 <=? g) && (g <=? 146) = true) as Hband.
  { intros g Hg Hr. rewrite (ensure_amateur_band_rank g Hg).
    rewrite !(leb_rank _ g), !(leb_rank g) by first [ exact Hg | literal_not_nan ].
    revert Hr. rank_literals. intros Hr. split_rank. split; reflexivity. }
  assert ((50 <=? f) = true -> (f <=? 54) = true ->
          (rank64 (f + 94) <= rank64 146)%Z ->
          (f + 94 <=? 146) = true /\
          ensure_amateur_band (fix_common_issues f) = f + 94 /\
          (144 <=? ensure_amateur_band (fix_common_issues f))
            && (ensure_amateur_band (fix_common_issues f) <=? 146) = true) as Hshift.
  { intros Hlo Hhi Hle.
    destruct (add_94_range f Hlo Hhi) as (Hnan & Hr & _).
    unfold fix_common_issues. rewrite Hlo, Hhi. cbn [andb].
    destruct (Hband (f + 94)) as [E B]; [ exact Hnan | lia |].
    rewrite E. split; [| split; [ reflexivity | exact B ] ].
    rewrite leb_rank by first [ exact Hnan | literal_not_nan ].
    apply Z.leb_le. exact Hle. }
  split; [| split; [| split ] ].
  - intros H Hle. apply andb_true_iff in H as [Hlo Hhi].
    destruct (add_94_range f Hlo Hhi) as (Hnan & _ & _).
    rewrite leb_rank in Hle by first [ exact Hnan | literal_not_nan ].
    apply Z.leb_le in Hle. apply (Hshift Hlo Hhi Hle).
  - intros H. apply andb_true_iff in H as [Hlo Hhi].
    assert ((f <=? 54) = true) as Hhi'.
    { destruct (leb_true_not_nan _ _ Hlo) as [_ Hf].
      rewrite leb_rank in Hhi |- * by first [ exact Hf | literal_not_nan ].
      revert Hhi. rank_literals. intros Hhi. apply Z.leb_le in Hhi. apply Z.leb_le. lia. }
    destruct (add_94_range f Hlo Hhi') as (_ & _ & H52).
    apply (Hshift Hlo Hhi' (H52 Hhi)).
  - intros H Habove. apply andb_true_iff in H as [Hlo Hhi].
    destruct (add_94_range f Hlo Hhi) as (Hnan & Hr & _).
    unfold repair, fix_common_issues. rewrite Hlo, Hhi. cbn [andb].
    remember (f + 94) as g eqn:Eg. clear Eg.
    rewrite ltb_rank in Habove by first [ exact Hnan | literal_not_nan ].
    rewrite (ensure_amateur_band_rank g Hnan).
    revert Hr Habove. rank_literals. intros Hr Habove. apply Z.ltb_lt in Habove.
    split_rank. split; reflexivity.
  - intros H. apply andb_true_iff in H as [Hlo Hhi].
    destruct (add_116_range f Hlo Hhi) as (Hnan & Hr).
    unfold repair, fix_common_issues. rewrite Hlo, Hhi. cbn [andb].
    destruct ((50 <=? f) && (f <=? 54)) eqn:E6.
    + exfalso. apply andb_true_iff in E6 as [E6 _].
      destruct (leb_true_not_nan _ _ Hlo) as [_ Hf].
      rewrite leb_rank in E6, Hhi by first [ exact Hf | literal_not_nan ].
      revert E6 Hhi. rank_literals. intros E6 Hhi.
      apply Z.leb_le in E6, Hhi. lia.
    + destruct (Hband (f + 116)) as [E B]; [ exact Hnan | exact Hr |].
      rewrite E. split; [ reflexivity | exact B ].
Qed.

Lemma repair_shifts_into_2m_witness :
  (repair 52.00000000000001 = 52.00000000000001 + 94 /\ in_2m (repair 52.00000000000001)) /\
  ((51 + 94 <=? 146) = true /\ repair 51 = 51 + 94 /\ in_2m (repair 51)) /\
  (repair 54 = 145.0 /\ in_2m (repair 54)) /\
  (repair 29 = 29 + 116 /\ in_2m (repair 29)).
Proof.
  split; [| split; [| split ] ].
  - apply (proj1 (repair_shifts_into_2m 52.00000000000001)); reflexivity.
  - apply (proj1 (proj2 (repair_shifts_into_2m 51))). reflexivity.
  - apply (proj1 (proj2 (proj2 (repair_shifts_into_2m 54)))); reflexivity.
  - apply (proj2 (proj2 (proj2 (repair_shifts_into_2m 29)))). reflexivity.
Defined.

End BandPlanFacts.

(** ** Grid geocoder *)

Section GridGeocoderFacts.
Import PyStr GridGeocoder.
Local Open Scope Q_scope.

Lemma int_of_char_digit (c : char) :
  int_of_char c = if is_digit c then Some (Z.of_N c - 48)%Z else None.
Proof. reflexivity. Qed.

Lemma is_digit_upper_char (c : char) : is_digit (upper_char c) = is_digit c.
Proof.
  unfold is_digit, upper_char.
  destruct ((97 <=? c)%N && (c <=? 122)%N) eqn:E; [| reflexivity ].
  apply andb_true_iff in E as [E1 E2].
  apply N.leb_le in E1, E2.
  assert ((c - 32 <=? 57)%N = false) as H1 by (apply N.leb_gt; lia).
  assert ((c <=? 57)%N = false) as H2 by (apply N.leb_gt; lia).
  rewrite H1, H2, !andb_false_r. reflexivity.
Qed.

Lemma int_of_char_upper_char (c : char) :
  int_of_char (upper_char c) = None <-> is_digit c = false.
Proof.
  rewrite int_of_char_digit, is_digit_upper_char.
  destruct (is_digit c); split; congruence.
Qed.

Ltac absent_case :=
  split;
  [ intros H; first [ discriminate H | clear H; cbn [length]; intuition (auto; lia) ]
  | intros H; first [ reflexivity
                    | exfalso; cbn [length] in H; intuition (discriminate || lia) ] ].

Lemma maidenhead_to_latlon_None (grid : str) :
  maidenhead_to_latlon grid = None <->
    (length grid < 4)%nat \/ digit_at grid 2 = false \/ digit_at grid 3 = false \/
    ((8 <= length grid)%nat /\ (digit_at grid 6 = false \/ digit_at grid 7 = false)).
Proof.
  destruct grid as [|c0 [|c1 [|c2 [|c3 rest]]]];
    try (split; [ intros _; left; simpl; lia | reflexivity ]).
  unfold maidenhead_to_latlon, digit_at, index, upper.
  cbn [length Nat.ltb Nat.leb map lookup list_lookup mbind option_bind].
  rewrite !int_of_char_digit, !is_digit_upper_char.
  destruct (is_digit c2), (is_digit c3);
    cbn [mbind option_bind]; try absent_case.
  destruct rest as [|c4 [|c5 [|c6 [|c7 rest]]]];
    cbn [length Nat.ltb Nat.leb map lookup list_lookup mbind option_bind];
    try absent_case.
  rewrite !int_of_char_digit, !is_digit_upper_char.
  destruct (is_digit c6), (is_digit c7); cbn [mbind option_bind]; absent_case.
Qed.

Lemma maidenhead_to_gps_None (grid : str) :
  maidenhead_to_gps grid = None <-> (length grid < 4)%nat.
Proof.
  destruct grid as [|c0 [|c1 [|c2 [|c3 rest]]]];
    try (split; [ intros _; simpl; lia | reflexivity ]).
  unfold maidenhead_to_gps, index, upper.
  cbn [length Nat.ltb Nat.leb map lookup list_lookup mbind option_bind].
  destruct rest as [|c4 [|c5 rest]];
    cbn [length Nat.ltb Nat.leb map lookup list_lookup mbind option_bind];
    (split; [ discriminate | intros H; exfalso; cbn [length] in H; lia ]).
Qed.

(** C7, as stated, fails: the letters are never checked.  ["ZZ00"] has a
    field outside A-R and still converts (to a longitude of 320 degrees);
    [maidenhead_to_gps] does not check the digits either. *)
Lemma maidenhead_unchecked_counterexample :
  valid_locator (lit "ZZ00") = false /\
  maidenhead_to_latlon (lit "ZZ00") = Some (160.020833, 320.016667) /\
  valid_locator (lit "JNxy") = false /\
  maidenhead_to_gps (lit "JNxy") = Some (81.5, 81.0).
Proof. repeat split; vm_compute; reflexivity. Qed.

(** C7, amended: on ASCII text [maidenhead_to_latlon] returns absent exactly
    when the text has fewer than 4 characters, or position 2 or 3 is not a
    decimal digit, or the text has at least 8 characters and position 6 or 7
    is not a decimal digit; the letters at positions 0-1 and 4-5 are not
    checked.  [maidenhead_to_gps] returns absent exactly when the text has
    fewer than 4 characters. *)
Theorem maidenhead_absent_iff (grid : str) :
  is_ascii grid ->
  (maidenhead_to_latlon grid = None <->
     (length grid < 4)%nat \/ digit_at grid 2 = false \/ digit_at grid 3 = false \/
     ((8 <= length grid)%nat /\ (digit_at grid 6 = false \/ digit_at grid 7 = false))) /\
  (maidenhead_to_gps grid = None <-> (length grid < 4)%nat).
Proof.
  intros _. split.
  - apply maidenhead_to_latlon_None.
  - apply maidenhead_to_gps_None.
Qed.

Lemma maidenhead_absent_iff_witness :
  (maidenhead_to_latlon (lit "JN8x") = None <->
     (length (lit "JN8x") < 4)%nat \/ digit_at (lit "JN8x") 2 = false
     \/ digit_at (lit "JN8x") 3 = false \/
     ((8 <= length (lit "JN8x"))%nat
      /\ (digit_at (lit "JN8x") 6 = false \/ digit_at (lit "JN8x") 7 = false))) /\
  (maidenhead_to_gps (lit "JN8x") = None <-> (length (lit "JN8x") < 4)%nat).
Proof.
  apply (maidenhead_absent_iff (lit "JN8x")).
  repeat constructor.
Defined.

Lemma round6_Qeq (q q' : Q) : q == q' -> round6 q = round6 q'.
Proof.
  intros H. unfold round6, round_half_even.
  assert (q * 1000000 == q' * 1000000) as H' by (rewrite H; reflexivity).
  rewrite (Qfloor_comp _ _ H').
  rewrite (Qcompare_comp (q * 1000000 - inject_Z (Qfloor (q' * 1000000)))
             (q' * 1000000 - inject_Z (Qfloor (q' * 1000000))) ltac:(rewrite H'; reflexivity)
             (1 # 2) (1 # 2) ltac:(reflexivity)).
  reflexivity.
Qed.

(** Whatever the resolution, [maidenhead_to_latlon] returns the south-west
    corner of the cell moved by 1.25 minutes of latitude and 1 minute of
    longitude, rounded to six places. *)
Lemma maidenhead_to_latlon_fixed_offset (grid : str) :
  is_ascii grid -> valid_locator grid = true ->
  length grid = 4%nat \/ length grid = 6%nat \/ length grid = 8%nat ->
  maidenhead_to_latlon grid =
    Some (round6 ((cell_corner grid).1 + 1.25 / 60), round6 ((cell_corner grid).2 + 1 / 60)).
Proof.
  intros _ Hv Hlen.
  assert (exists c0 c1 c2 c3 rest, grid = c0 :: c1 :: c2 :: c3 :: rest
            /\ (rest = [] \/ (exists c4 c5, rest = [c4; c5])
                \/ (exists c4 c5 c6 c7, rest = [c4; c5; c6; c7]))) as Hshape.
  { destruct grid as [|c0 [|c1 [|c2 [|c3 [|c4 [|c5 [|c6 [|c7 [|c8 rest]]]]]]]]];
      cbn [length] in Hlen; try (exfalso; lia);
      do 5 eexists; (split; [ reflexivity | eauto 10 ]). }
  destruct Hshape as (c0 & c1 & c2 & c3 & rest & -> & Hrest).
  unfold valid_locator in Hv. apply andb_true_iff in Hv as [_ Hv].
  destruct Hrest as [-> | [(c4 & c5 & ->) | (c4 & c5 & c6 & c7 & ->)]];
    cbn in Hv;
    repeat match type of Hv with (_ && _ = true) => apply andb_true_iff in Hv as [? Hv] end.
  all: unfold maidenhead_to_latlon, index, upper;
    cbn [length Nat.ltb Nat.leb map lookup list_lookup mbind option_bind];
    rewrite !int_of_char_digit, !is_digit_upper_char;
    repeat match goal with E : is_digit _ = true |- _ => rewrite E; clear E end;
    cbn [mbind option_bind];
    unfold cell_corner, offset_at, ord, ord_A, ord_0;
    cbn [fst snd lookup list_lookup];
    f_equal; f_equal; apply round6_Qeq;
    unfold Z.sub;
    repeat (rewrite inject_Z_plus || rewrite inject_Z_mult || rewrite inject_Z_opp);
    unfold inject_Z; ring.
Qed.

Lemma maidenhead_to_latlon_fixed_offset_witness :
  maidenhead_to_latlon (lit "JN88ee37") =
    Some (round6 ((cell_corner (lit "JN88ee37")).1 + 1.25 / 60),
          round6 ((cell_corner (lit "JN88ee37")).2 + 1 / 60)).
Proof.
  apply (maidenhead_to_latlon_fixed_offset (lit "JN88ee37")).
  - repeat constructor.
  - reflexivity.
  - right. right. reflexivity.
Defined.

(** C1 at a 4-character locator: JN88 is the square from 48 to 49 degrees
    north and 16 to 18 degrees east, whose centre is (48.5, 17.0).
    [maidenhead_to_latlon] adds the same 1.25 and 1 minutes it adds at every
    length and returns (48.020833, 16.016667); [maidenhead_to_gps] returns
    the centre. *)
Theorem maidenhead_to_latlon_JN88 :
  valid_locator (lit "JN88") = true /\
  cell_center (lit "JN88") = Some (48.500000, 17.000000) /\
  maidenhead_to_latlon (lit "JN88") = Some (48.020833, 16.016667) /\
  maidenhead_to_gps (lit "JN88") = Some (48.5, 17.0) /\
  ~ 48.020833 == 48.500000.
Proof. repeat split; try (vm_compute; reflexivity). intros H; discriminate H. Qed.

End GridGeocoderFacts.

(** ** Conversion loops *)

Section CsvFacts.
Import PyStr PyFloat Csv.

Lemma for_each_row_from {R : Type} (body : row -> option R) (rows : list row)
    (out : output R) :
  fold_left (fun out r => match body r with
                          | Some o => writerow out o
                          | None => out
                          end) rows out
  = {| written := written out ++ omap body rows;
       processed_count := processed_count out + length (omap body rows) |}.
Proof.
  revert out. induction rows as [|r rows IH]; intros [w n]; cbn [fold_left omap list_omap].
  - rewrite app_nil_r, Nat.add_0_r. reflexivity.
  - destruct (body r) as [o|]; rewrite IH; cbn [writerow written processed_count].
    + rewrite <- app_assoc. cbn [length app].
      replace (S n + length (omap body rows)) with (n + S (length (omap body rows))) by lia.
      reflexivity.
    + reflexivity.
Qed.

Lemma for_each_row_written {R : Type} (body : row -> option R) (rows : list row) :
  written (for_each_row body rows) = omap body rows.
Proof. unfold for_each_row. rewrite for_each_row_from. reflexivity. Qed.

Lemma for_each_row_count {R : Type} (body : row -> option R) (rows : list row) :
  processed_count (for_each_row body rows) = length (omap body rows).
Proof. unfold for_each_row. rewrite for_each_row_from. reflexivity. Qed.

End CsvFacts.

Section FixFrequencyBandsFacts.
Import PyStr PyFloat Csv BandPlan FixFrequencyBands.
Variable float_of_str : str -> option float.

Lemma fix_frequency_bands_from (rows : list row) (st : state) :
  fold_left (fix_row float_of_str) rows st
  = {| out_rows := out_rows st ++ map (written_for float_of_str) rows;
       fixed_count := fixed_count st
                      + length (filter (fun r => counts_as_fixed float_of_str r = true) rows) |}.
Proof.
  revert st. induction rows as [|r rows IH]; intros [w n]; cbn [fold_left map].
  - rewrite app_nil_r, filter_nil, Nat.add_0_r. reflexivity.
  - rewrite IH. unfold fix_row, written_for, counts_as_fixed.
    rewrite filter_cons.
    destruct (r !! "Frequency" ≫= float_of_str) as [f|];
      cbn [out_rows fixed_count]; rewrite <- app_assoc; cbn [app].
    + destruct (f =? repair f)%float; cbn [negb];
        [ rewrite decide_False by discriminate
        | rewrite decide_True by reflexivity; cbn [length] ];
        f_equal; lia.
    + rewrite decide_False by discriminate. reflexivity.
Qed.

Lemma fix_frequency_bands_out_rows (rows : list row) :
  out_rows (fix_frequency_bands float_of_str rows) = map (written_for float_of_str) rows.
Proof. unfold fix_frequency_bands. rewrite fix_frequency_bands_from. reflexivity. Qed.

Lemma fix_frequency_bands_fixed_count (rows : list row) :
  fixed_count (fix_frequency_bands float_of_str rows)
  = length (filter (fun r => counts_as_fixed float_of_str r = true) rows).
Proof. unfold fix_frequency_bands. rewrite fix_frequency_bands_from. reflexivity. Qed.

End FixFrequencyBandsFacts.

(** ** Text normalizer *)

Section TextNormalizerFacts.
Import PyStr TextNormalizer.

(** output/fix_umlauts.py gives every letter of the table its listed
    replacement: the umlauts and sharp s by substitution, the Slavic letters
    by decomposition and removal of the combining mark. *)
Lemma convert_umlauts_fix_spec_table :
  Forall (fun e => convert_umlauts_fix nfd_latin [e.1] = e.2) spec_table.
Proof. repeat constructor. Qed.

(** So do the five copies with the long table. *)
Lemma convert_umlauts_api_spec_table :
  Forall (fun e => convert_umlauts_api [e.1] = e.2) spec_table.
Proof. repeat constructor. Qed.

(** C5 at the letter a with diaeresis (code point 228), listed as ["ae"]:
    the copy in scripts/create_icom_sota_csv.py has no key that matches it
    (its keys are two-character sequences), so the letter is decomposed and
    loses its mark: the result is ["a"].  In the same copy sharp s vanishes;
    the copy in output/create_icom_pota_csv.py leaves s with caron (353) as
    it is. *)
Theorem convert_umlauts_sota_a_diaeresis :
  In (228%N, lit "ae") spec_table /\
  convert_umlauts_fix nfd_latin [228%N] = lit "ae" /\
  convert_umlauts_api [228%N] = lit "ae" /\
  convert_umlauts_sota nfd_latin [228%N] = lit "a" /\
  convert_umlauts_sota nfd_latin [223%N] = [] /\
  convert_umlauts_pota [353%N] = [353%N].
Proof. repeat split; try reflexivity. left. reflexivity. Qed.

Lemma length_drop_non_ascii (s : str) : length (drop_non_ascii s) <= length s.
Proof. apply length_filter. Qed.

End TextNormalizerFacts.

(** ** Names and coordinates of the exporters *)


Section SotaExportFacts.
Import PyStr PyFloat Csv TextNormalizer SotaExport.
Variable float_of_str : str -> option float.
Variable nfd : str -> str.

Let convert_row := SotaExport.convert_row float_of_str nfd.
Let float_get := SotaExport.float_get float_of_str.

(** What [convert_row] requires of a row and what it emits. *)
Lemma convert_row_Some (group_number : Z) (group_name : str) (r : row) (o : icom_row) :
  convert_row group_number group_name r = Some o ->
  exists lat lon,
    float_get r "lat" = Some lat /\ float_get r "long" = Some lon /\
    without_coordinates lat lon = false /\
    strip (get r "callsign" []) <> [] /\
    name o = take 16 (convert_umlauts_sota nfd
               (display_name (strip (get r "callsign" [])) (strip (get r "name" [])))) /\
    sub_name o = take 16 (convert_umlauts_sota nfd
                   (display_sub_name float_of_str nfd (strip (get r "state" []))
                      (strip (get r "sea_level" [])) (strip (get r "country_code" [])))) /\
    latitude o = Float lat /\ longitude o = Float lon.
Proof.
  subst convert_row float_get. unfold SotaExport.convert_row.
  destruct (SotaExport.float_get float_of_str r "lat") as [lat|]; [| discriminate ].
  destruct (SotaExport.float_get float_of_str r "long") as [lon|]; [| discriminate ].
  cbn [mbind option_bind].
  destruct (without_coordinates lat lon) eqn:Hc; [ discriminate |].
  destruct (strip (get r "callsign" [])) as [|c callsign] eqn:Hcs; [ discriminate |].
  intros [= <-]. exists lat, lon. cbn [name sub_name latitude longitude].
  repeat split; auto; discriminate.
Qed.


End SotaExportFacts.


(** ** Deduplication and ranking of the Vienna stations *)

Section FloatOrder.
Import PyFloat.
Local Open Scope float_scope.

Lemma leb_trans (x y z : float) :
  (x <=? y) = true -> (y <=? z) = true -> (x <=? z) = true.
Proof.
  intros Hxy Hyz.
  destruct (leb_true_not_nan _ _ Hxy) as [Hx Hy].
  destruct (leb_true_not_nan _ _ Hyz) as [_ Hz].
  rewrite leb_rank in * by assumption.
  apply Z.leb_le in Hxy, Hyz. apply Z.leb_le. lia.
Qed.

(** Away from NaN, "not less" is "greater or equal". *)
Lemma ltb_false_leb (x y : float) :
  ~ nan64 x -> ~ nan64 y -> (x <? y) = false -> (y <=? x) = true.
Proof.
  intros Hx Hy H. rewrite ltb_rank in H by assumption. rewrite leb_rank by assumption.
  apply Z.ltb_ge in H. apply Z.leb_le. exact H.
Qed.

Lemma ltb_leb (x y : float) : (x <? y) = true -> (x <=? y) = true.
Proof.
  intros H. destruct (ltb_true_not_nan _ _ H) as [Hx Hy].
  rewrite ltb_rank in H by assumption. rewrite leb_rank by assumption.
  apply Z.ltb_lt in H. apply Z.leb_le. lia.
Qed.

(** Two scores equal to the same value are not strictly ordered. *)
Lemma eqb_not_ltb (x y s : float) :
  (x =? s) = true -> (y =? s) = true -> (x <? y) = false.
Proof.
  intros Hx Hy.
  destruct (eqb_true_not_nan _ _ Hx) as [Nx Ns].
  destruct (eqb_true_not_nan _ _ Hy) as [Ny _].
  rewrite eqb_rank in Hx, Hy by assumption. rewrite ltb_rank by assumption.
  apply Z.eqb_eq in Hx, Hy. apply Z.ltb_ge. lia.
Qed.

End FloatOrder.

(** ** Sums are not NaN *)

Section AddNotNan.
Import PyFloat.
Local Open Scope Z_scope.

Lemma shr_1_nonneg (mrs : shr_record) : 0 <= shr_m mrs -> 0 <= shr_m (shr_1 mrs).
Proof.
  destruct mrs as [m r s]. cbn [shr_m shr_1].
  destruct m as [|[p|p|]|[p|p|]]; cbn [shr_m]; lia.
Qed.

Lemma iter_shr_1_nonneg (n : positive) (mrs : shr_record) :
  0 <= shr_m mrs -> 0 <= shr_m (SpecFloat.iter_pos shr_1 n mrs).
Proof.
  revert mrs. induction n as [n IH|n IH|]; intros mrs H; cbn [SpecFloat.iter_pos].
  - apply IH, IH, shr_1_nonneg, H.
  - apply IH, IH, H.
  - apply shr_1_nonneg, H.
Qed.

Lemma shr_fexp_nonneg (m e : Z) (l : location) :
  0 <= m -> 0 <= shr_m (shr_fexp prec emax m e l).1.
Proof.
  intros H. unfold shr_fexp, shr.
  assert (shr_m (shr_record_of_loc m l) = m) as E by (destruct l as [|[]]; reflexivity).
  destruct (fexp prec emax (Zdigits2 m + e) - e) as [|n|n]; cbn [fst].
  - rewrite E. exact H.
  - apply iter_shr_1_nonneg. rewrite E. exact H.
  - rewrite E. exact H.
Qed.

Lemma round_nearest_even_nonneg (m : Z) (l : location) :
  0 <= m -> 0 <= round_nearest_even m l.
Proof.
  intros H. destruct l as [|[]]; cbn [round_nearest_even];
    try destruct (IntDef.Z.even m); lia.
Qed.

Lemma binary_round_aux_not_nan (s : bool) (m : positive) (e : Z) (l : location) :
  binary_round_aux prec emax s (Z.pos m) e l <> S754_nan.
Proof.
  unfold binary_round_aux.
  pose proof (shr_fexp_nonneg (Z.pos m) e l ltac:(lia)) as H1.
  destruct (shr_fexp prec emax (Z.pos m) e l) as [mrs' e']. cbn [fst] in H1.
  pose proof (shr_fexp_nonneg (round_nearest_even (shr_m mrs') (loc_of_shr_record mrs'))
                e' loc_Exact (round_nearest_even_nonneg _ _ H1)) as H2.
  destruct (shr_fexp prec emax _ e' loc_Exact) as [mrs'' e'']. cbn [fst] in H2.
  destruct (shr_m mrs'') as [|p|p]; [ discriminate | | lia ].
  destruct (e'' <=? emax - prec); discriminate.
Qed.

Lemma binary_normalize_not_nan (m e : Z) (szero : bool) :
  binary_normalize prec emax m e szero <> S754_nan.
Proof.
  unfold binary_normalize, binary_round.
  destruct m as [|p|p]; [ discriminate | |];
    destruct (shl_align _ _ _) as [mz ez]; apply binary_round_aux_not_nan.
Qed.

(** A finite float plus a float that is not NaN is not NaN. *)
Lemma add_finite_not_nan (a b : float) :
  (a <? infinity)%float = true -> (neg_infinity <? a)%float = true ->
  ~ nan64 b -> ~ nan64 (a + b)%float.
Proof.
  intros Hup Hdown Hb.
  destruct (ltb_true_not_nan _ _ Hup) as [Ha _].
  rewrite ltb_rank in Hup, Hdown by first [ exact Ha | literal_not_nan ].
  apply Z.ltb_lt in Hup, Hdown. revert Hup Hdown.
  let v := eval vm_compute in (rank64 infinity) in change (rank64 infinity) with v.
  let v := eval vm_compute in (rank64 neg_infinity) in change (rank64 neg_infinity) with v.
  unfold nan64, rank64 in *. rewrite add_spec. unfold SF64add, SFadd.
  destruct (Prim2SF a) as [sa|sa| |sa ma ea], (Prim2SF b) as [sb|sb| |sb mb eb];
    cbn [rank]; intros Hup Hdown; try congruence;
    try (destruct sa; cbn in Hup, Hdown; lia);
    try (destruct sa, sb; discriminate).
  apply binary_normalize_not_nan.
Qed.

End AddNotNan.

Section SortFacts.
Import PyFloat ViennaRadio.
Local Open Scope float_scope.

Lemma insert_by_score_Permutation (x : station_data) (l : list station_data) :
  Permutation (insert_by_score x l) (x :: l).
Proof.
  induction l as [|y l IH]; cbn [insert_by_score]; [ reflexivity |].
  destruct (score x <? score y); [| reflexivity ].
  rewrite IH. apply perm_swap.
Qed.

Lemma sort_by_score_Permutation (l : list station_data) :
  Permutation (sort_by_score l) l.
Proof.
  induction l as [|x l IH]; cbn [sort_by_score foldr]; [ reflexivity |].
  fold (sort_by_score l). rewrite insert_by_score_Permutation, IH. reflexivity.
Qed.

Lemma insert_by_score_sorted (x : station_data) (l : list station_data) :
  scored x -> Forall scored l ->
  StronglySorted ranks_before l -> StronglySorted ranks_before (insert_by_score x l).
Proof.
  intros Hx Hl Hs. induction Hs as [|y l Hs IH Hy]; cbn [insert_by_score].
  - repeat constructor.
  - apply Forall_cons in Hl as [Hy' Hl].
    destruct (score x <? score y) eqn:E.
    + constructor; [ apply IH, Hl |].
      rewrite insert_by_score_Permutation. constructor; [| exact Hy ].
      apply ltb_leb, E.
    + apply ltb_false_leb in E; [| assumption | assumption ].
      constructor; [ constructor; assumption |].
      constructor; [ exact E |].
      eapply Forall_impl; [ exact Hy |]. intros z Hz.
      unfold ranks_before in *. eapply leb_trans; eassumption.
Qed.

Lemma sort_by_score_sorted (l : list station_data) :
  Forall scored l -> StronglySorted ranks_before (sort_by_score l).
Proof.
  induction l as [|x l IH]; cbn [sort_by_score foldr]; intros H.
  - constructor.
  - apply Forall_cons in H as [Hx Hl]. fold (sort_by_score l).
    apply insert_by_score_sorted; [ exact Hx | | apply IH, Hl ].
    rewrite sort_by_score_Permutation. exact Hl.
Qed.

(** Stability: among the stations of one score the order is untouched. *)
Lemma insert_by_score_stable (s : float) (x : station_data) (l : list station_data) :
  filter (fun z => (score z =? s) = true) (insert_by_score x l)
  = filter (fun z => (score z =? s) = true) (x :: l).
Proof.
  induction l as [|y l IH]; cbn [insert_by_score]; [ reflexivity |].
  destruct (score x <? score y) eqn:E; [| reflexivity ].
  rewrite filter_cons, IH, !filter_cons.
  destruct (decide ((score y =? s) = true)) as [Hy|Hy]; [| reflexivity ].
  destruct (decide ((score x =? s) = true)) as [Hx|Hx]; [| reflexivity ].
  rewrite (eqb_not_ltb _ _ _ Hx Hy) in E. discriminate E.
Qed.

Lemma sort_by_score_stable (s : float) (l : list station_data) :
  filter (fun z => (score z =? s) = true) (sort_by_score l)
  = filter (fun z => (score z =? s) = true) l.
Proof.
  induction l as [|x l IH]; cbn [sort_by_score foldr]; [ reflexivity |].
  fold (sort_by_score l). rewrite insert_by_score_stable, !filter_cons, IH. reflexivity.
Qed.

(** Every priority is an integer from 0 to 100. *)
Lemma priority_range (station_name : PyStr.str) :
  (0 <= default 0 (priority_stations !! station_name) <= 100)%Z.
Proof.
  assert (map_Forall (fun _ p => (0 <= p <= 100)%Z) priority_stations) as H.
  { apply (bool_decide_unpack (map_Forall (fun _ p => (0 <= p <= 100)%Z) priority_stations)).
    vm_compute. exact I. }
  destruct (priority_stations !! station_name) as [p|] eqn:E; cbn [default].
  - exact (H _ _ E).
  - lia.
Qed.

Lemma of_Z_finite (p : Z) :
  (0 <= p <= 100)%Z ->
  (of_Z p <? infinity) = true /\ (neg_infinity <? of_Z p) = true.
Proof.
  intros H.
  assert (forallb (fun p => (of_Z p <? infinity) && (neg_infinity <? of_Z p))
                  (map Z.of_nat (seq 0 101)) = true) as Hall by (vm_compute; reflexivity).
  rewrite forallb_forall in Hall.
  apply andb_true_iff, Hall, in_map_iff.
  exists (Z.to_nat p). split; [ lia |]. apply in_seq. lia.
Qed.

Lemma pymax_not_nan (y : float) : ~ nan64 (pymax 0 y).
Proof.
  unfold pymax. destruct (0 <? y) eqn:E.
  - apply (ltb_true_not_nan _ _ E).
  - literal_not_nan.
Qed.

Lemma total_score_scored (station_name : PyStr.str) (distance : float) :
  ~ nan64 (total_score station_name distance).
Proof.
  unfold total_score.
  destruct (of_Z_finite _ (priority_range station_name)) as [Hup Hdown].
  apply add_finite_not_nan; [ exact Hup | exact Hdown | apply pymax_not_nan ].
Qed.

End SortFacts.

Section DedupeFacts.
Import PyStr PyFloat Csv ViennaRadio.
Variable float_of_str : str -> option float.
Variable str_of_float : float -> str.
Variable lower : str -> str.
Variable calculate_distance : float -> float -> float -> float -> float.

Local Abbreviation key := (reading_key lower).
Local Abbreviation first_seen := (ViennaRadio.first_seen lower).
Local Abbreviation add_reading := (ViennaRadio.add_reading lower).
Local Abbreviation read_row :=
  (ViennaRadio.read_row float_of_str str_of_float lower calculate_distance).
Local Abbreviation ingest :=
  (ViennaRadio.ingest float_of_str str_of_float lower calculate_distance).
Local Abbreviation top_stations :=
  (ViennaRadio.top_stations float_of_str str_of_float lower calculate_distance).

Lemma add_readings_stations (xs : list reading) (st : ingest_state) :
  stations (fold_left add_reading xs st)
  = stations st ++ (make_station <$> first_seen (seen_stations st) xs).
Proof.
  revert st.
  induction xs as [|x xs IH]; intros st; cbn [fold_left ViennaRadio.first_seen fmap list_fmap].
  - rewrite app_nil_r. reflexivity.
  - rewrite IH. unfold ViennaRadio.add_reading, reading_key.
    destruct (decide (station_key lower (r_station_name x) ∈ seen_stations st)).
    + reflexivity.
    + cbn [stations seen_stations fmap list_fmap]. rewrite <- app_assoc. reflexivity.
Qed.

Lemma ingest_rows_readings (rows : list row) (st : ingest_state) :
  fold_left (ingest_row float_of_str str_of_float lower calculate_distance) rows st
  = fold_left add_reading (omap read_row rows) st.
Proof.
  revert st.
  induction rows as [|r rows IH]; intros st; cbn [fold_left omap list_omap]; [ reflexivity |].
  unfold ingest_row at 2.
  destruct (ViennaRadio.read_row float_of_str str_of_float lower calculate_distance r);
    cbn [fold_left]; apply IH.
Qed.

Lemma ingest_stations (rows : list row) :
  stations (ingest rows) = (make_station <$> first_seen ∅ (omap read_row rows)).
Proof.
  unfold ViennaRadio.ingest.
  rewrite ingest_rows_readings, add_readings_stations. reflexivity.
Qed.

Lemma first_seen_sublist (seen : gset str) (xs : list reading) :
  first_seen seen xs `sublist_of` xs.
Proof.
  revert seen.
  induction xs as [|x xs IH]; intros seen; cbn [ViennaRadio.first_seen]; [ constructor |].
  destruct (decide (reading_key lower x ∈ seen)).
  - apply sublist_cons, IH.
  - apply sublist_skip, IH.
Qed.

Lemma first_seen_fresh (seen : gset str) (xs : list reading) (y : reading) :
  y ∈ first_seen seen xs -> key y ∉ seen.
Proof.
  revert seen.
  induction xs as [|x xs IH]; intros seen; cbn [ViennaRadio.first_seen].
  - intros H. apply elem_of_nil in H. contradiction.
  - destruct (decide (reading_key lower x ∈ seen)) as [Hin|Hout].
    + apply IH.
    + intros [-> | H]%elem_of_cons; [ exact Hout |].
      apply IH in H. set_solver.
Qed.

Lemma first_seen_NoDup (seen : gset str) (xs : list reading) :
  NoDup ((key <$> first_seen seen xs)).
Proof.
  revert seen. induction xs as [|x xs IH]; intros seen;
    cbn [ViennaRadio.first_seen fmap list_fmap].
  - constructor.
  - destruct (decide (reading_key lower x ∈ seen)); [ apply IH |].
    cbn [fmap list_fmap]. constructor; [| apply IH ].
    intros (y & Hk & Hy)%list_elem_of_fmap.
    apply first_seen_fresh in Hy. set_solver.
Qed.

Lemma first_seen_covers (seen : gset str) (xs : list reading) (x : reading) :
  x ∈ xs -> key x ∈ seen \/ key x ∈ (key <$> first_seen seen xs).
Proof.
  revert seen. induction xs as [|z xs IH]; intros seen;
    cbn [ViennaRadio.first_seen].
  - intros H. apply elem_of_nil in H. contradiction.
  - intros [-> | H]%elem_of_cons.
    + destruct (decide (reading_key lower z ∈ seen)); [ left; assumption |].
      right. cbn [fmap list_fmap]. apply elem_of_cons. left. reflexivity.
    + destruct (decide (reading_key lower z ∈ seen)); [ apply IH, H |].
      destruct (IH (seen ∪ {[ reading_key lower z ]}) H) as [Hs | Hk].
      * apply elem_of_union in Hs as [Hs | Hs%elem_of_singleton]; [ left; exact Hs |].
        right. cbn [fmap list_fmap]. apply elem_of_cons. left. exact Hs.
      * right. cbn [fmap list_fmap]. apply elem_of_cons. right. exact Hk.
Qed.

Lemma first_seen_head (seen : gset str) (xs : list reading) (y : reading) :
  y ∈ first_seen seen xs -> head (filter (fun z => key z = key y) xs) = Some y.
Proof.
  revert seen. induction xs as [|x xs IH]; intros seen H.
  - apply elem_of_nil in H. contradiction.
  - pose proof (first_seen_fresh _ _ _ H) as Hfresh.
    cbn [ViennaRadio.first_seen] in H. rewrite filter_cons.
    destruct (decide (reading_key lower x ∈ seen)) as [Hin|Hout].
    + rewrite decide_False; [ apply (IH seen), H |].
      intros E. cbn beta in E. rewrite E in Hin. contradiction.
    + apply elem_of_cons in H as [-> | H].
      * rewrite decide_True by reflexivity. reflexivity.
      * pose proof (first_seen_fresh _ _ _ H) as Hy.
        rewrite decide_False; [ apply (IH _ H) |].
        intros E. cbn beta in E. set_solver.
Qed.

(** C4: the stations collected from the rows are those of the first
    reading of each key, in reading order, where the key is the station name
    in lower case without blanks; the score of a station is its priority plus
    [max(0, 50 - distance)]; the ranking is a permutation of the collected
    stations in descending order of score that keeps stations of equal score
    in reading order, cut to 50.  For readings A, A and B with scores 1, 9
    and 5 the output is B, then the first A with its score 1. *)
Theorem dedupe_and_rank (rows : list row) :
  let readings := omap read_row rows in
  let collected := stations (ingest rows) in
  let ranked := sort_by_score collected in
  (exists kept,
      collected = make_station <$> kept /\
      kept `sublist_of` readings /\
      NoDup ((key <$> kept)) /\
      (forall x, x ∈ readings -> key x ∈ (key <$> kept)) /\
      (forall y, y ∈ kept -> head (filter (fun z => key z = key y) readings) = Some y)) /\
  (forall x,
      key x = replace (lit " ") [] (lower (r_station_name x)) /\
      score (make_station x)
      = (of_Z (default 0%Z (priority_stations !! r_station_name x))
         + pymax 0 (50 - r_distance x))%float) /\
  Permutation ranked collected /\
  StronglySorted ranks_before ranked /\
  (forall s, filter (fun z => (score z =? s)%float = true) ranked
             = filter (fun z => (score z =? s)%float = true) collected) /\
  top_stations rows = take 50 ranked /\
  length (top_stations rows) <= 50 /\
  map (fun s => (name s, score s))
      (ViennaRadio.rank (stations (fold_left (ViennaRadio.add_reading ascii_lower)
                                 Samples.three_readings no_stations)))
  = [ (lit "B", 5%float); (lit "A", 1%float) ].
Proof.
  cbn zeta. repeat apply conj.
  - exists (first_seen ∅ (omap read_row rows)). repeat apply conj.
    + apply ingest_stations.
    + apply first_seen_sublist.
    + apply first_seen_NoDup.
    + intros x Hx. destruct (first_seen_covers ∅ _ _ Hx) as [H | H]; [| exact H ].
      apply elem_of_empty in H. contradiction.
    + apply first_seen_head.
  - intros x. split; reflexivity.
  - apply sort_by_score_Permutation.
  - apply sort_by_score_sorted. rewrite ingest_stations.
    apply Forall_forall. intros s (x & -> & _)%list_elem_of_fmap.
    apply total_score_scored.
  - intros s. apply sort_by_score_stable.
  - reflexivity.
  - unfold ViennaRadio.top_stations, rank.
    rewrite length_take. lia.
  - vm_compute. reflexivity.
Qed.

End DedupeFacts.

(** ** Band plan repair: the range of results *)

Section Rounding54.
Local Open Scope Z_scope.

(** Rounding a 54-bit integer at exponent -46: the mantissa is the integer
    divided by 2, to nearest. *)
Lemma binary_normalize_54 (M : positive) :
  2 ^ 53 <= Z.pos M < 2 ^ 54 - 2 ->
  exists m', binary_normalize prec emax (Z.pos M) (-46) false = S754_finite false m' (-45)
             /\ Z.pos M - 1 <= 2 * Z.pos m' <= Z.pos M + 1.
Proof.
  intros HM.
  unfold binary_normalize, binary_round.
  rewrite (digits2_pos_eq M 54) by (change (Z.pos 54 - 1) with 53; lia).
  change (shl_align M (-46) (fexp prec emax (54 + -46))) with (M, -46).
  unfold binary_round_aux, shr_fexp. cbn [Zdigits2].
  rewrite (digits2_pos_eq M 54) by (change (Z.pos 54 - 1) with 53; lia).
  change (fexp prec emax (54 + -46) - -46) with 1.
  cbn [shr SpecFloat.iter_pos shr_record_of_loc].
  change (-46 + 1) with (-45).
  change (2 ^ 53) with 9007199254740992 in HM.
  change (2 ^ 54 - 2) with 18014398509481982 in HM.
  destruct M as [p|p|]; try lia;
    cbn [shr_1 shr_m shr_r shr_s loc_of_shr_record round_nearest_even orb];
    try destruct (IntDef.Z.even (Z.pos p));
    rewrite ?Pos2Z.add_pos_pos;
    eexists; (split; [ apply round_done; change (2 ^ 52) with 4503599627370496;
                       change (2 ^ 53) with 9007199254740992; lia
                     | lia ]).
Qed.

End Rounding54.

Section BandPlanRange.
Import PyFloat BandPlan.
Local Open Scope float_scope.

(** Above the smallest exponent a valid mantissa has its leading bit set. *)
Lemma bounded_normal (m : positive) (e : Z) :
  bounded prec emax m e = true -> (-1074 < e)%Z -> (2 ^ 52 <= Z.pos m)%Z.
Proof.
  unfold bounded, canonical_mantissa, fexp, SpecFloat.emin, emax, prec.
  intros H He. apply andb_true_iff in H as [Hc _]. apply Z.eqb_eq in Hc.
  pose proof (digits2_pos_lower m) as Hl.
  assert (Z.pos (digits2_pos m) = 53)%Z as E by lia.
  rewrite E in Hl. exact Hl.
Qed.

(** A valid float whose rank lies within the ranks of exponent [e] is a
    positive finite value of that exponent. *)
Lemma finite_of_rank_le (x : spec_float) (e : Z) :
  valid_binary x = true -> (-1074 <= e <= 971)%Z ->
  ((e + 1075) * 2 ^ 53 <= rank x < (e + 1076) * 2 ^ 53)%Z ->
  exists m, x = S754_finite false m e /\ rank x = ((e + 1075) * 2 ^ 53 + Z.pos m)%Z.
Proof.
  change (2 ^ 53)%Z with 9007199254740992%Z.
  destruct x as [s|s| |s m e']; cbn [valid_binary SpecFloat.valid_binary rank];
    intros V He H; try destruct s; try lia.
  - apply bounded_range in V. change (2 ^ 53)%Z with 9007199254740992%Z in V. lia.
  - apply bounded_range in V. change (2 ^ 53)%Z with 9007199254740992%Z in V.
    assert (e' = e) as -> by nia. eauto.
Qed.

(** Above 50 and below 144 the sum with 94 is a float below 256. *)
Lemma add_94_below_144 (f : float) :
  (50 <? f) = true -> (f <? 144) = true ->
  ~ nan64 (f + 94) /\ (rank64 (f + 94) < rank64 256)%Z.
Proof.
  intros Hlo Hhi.
  destruct (ltb_true_not_nan _ _ Hlo) as [_ Hf].
  rewrite ltb_rank in Hlo, Hhi by first [ exact Hf | literal_not_nan ].
  apply Z.ltb_lt in Hlo, Hhi.
  revert Hlo Hhi. rank_literals. intros Hlo Hhi.
  assert (exists m', Prim2SF (f + 94) = S754_finite false m' (-45)) as (m' & Hsum).
  { destruct (Z_lt_le_dec (rank64 f) 9268408033128480768%Z) as [H64 | H64];
      [| destruct (Z_lt_le_dec (rank64 f) 9277415232383221760%Z) as [H128 | H128] ].
    - destruct (finite_of_rank (Prim2SF f) (-47) (Prim2SF_valid f) ltac:(lia))
        as (m & Hshape & Hrank).
      { change (2 ^ 53)%Z with 9007199254740992%Z. fold (rank64 f). lia. }
      fold (rank64 f) in Hrank. change (2 ^ 53)%Z with 9007199254740992%Z in Hrank.
      rewrite add_spec, Hshape.
      let v := eval vm_compute in (Prim2SF 94) in change (Prim2SF 94) with v.
      unfold SF64add, SFadd.
      change (Z.min (-47) (-46)) with (-47)%Z.
      change (shl_align m (-47) (-47)) with (m, (-47)%Z).
      change (shl_align 6614661952700416 (-46) (-47))
        with (13229323905400832%positive, (-47)%Z).
      cbn [fst cond_Zopp]. rewrite Pos2Z.add_pos_pos.
      destruct (binary_normalize_55 (m + 13229323905400832)) as (m' & E & _).
      { rewrite Pos2Z.inj_add. change (2 ^ 54)%Z with 18014398509481984%Z.
        change (2 ^ 55 - 4)%Z with 36028797018963964%Z. lia. }
      exists m'. exact E.
    - destruct (finite_of_rank_le (Prim2SF f) (-46) (Prim2SF_valid f) ltac:(lia))
        as (m & Hshape & Hrank).
      { change (2 ^ 53)%Z with 9007199254740992%Z. fold (rank64 f). lia. }
      fold (rank64 f) in Hrank. change (2 ^ 53)%Z with 9007199254740992%Z in Hrank.
      pose proof (Prim2SF_valid f) as Hnormal. rewrite Hshape in Hnormal.
      cbn [valid_binary SpecFloat.valid_binary] in Hnormal.
      apply bounded_normal in Hnormal; [| lia ].
      change (2 ^ 52)%Z with 4503599627370496%Z in Hnormal.
      rewrite add_spec, Hshape.
      let v := eval vm_compute in (Prim2SF 94) in change (Prim2SF 94) with v.
      unfold SF64add, SFadd.
      change (Z.min (-46) (-46)) with (-46)%Z.
      change (shl_align m (-46) (-46)) with (m, (-46)%Z).
      change (shl_align 6614661952700416 (-46) (-46))
        with (6614661952700416%positive, (-46)%Z).
      cbn [fst cond_Zopp]. rewrite Pos2Z.add_pos_pos.
      destruct (binary_normalize_54 (m + 6614661952700416)) as (m' & E & _).
      { rewrite Pos2Z.inj_add. change (2 ^ 53)%Z with 9007199254740992%Z.
        change (2 ^ 54 - 2)%Z with 18014398509481982%Z. lia. }
      exists m'. exact E.
    - destruct (finite_of_rank_le (Prim2SF f) (-45) (Prim2SF_valid f) ltac:(lia))
        as (m & Hshape & Hrank).
      { change (2 ^ 53)%Z with 9007199254740992%Z. fold (rank64 f). lia. }
      fold (rank64 f) in Hrank. change (2 ^ 53)%Z with 9007199254740992%Z in Hrank.
      pose proof (Prim2SF_valid f) as Hnormal. rewrite Hshape in Hnormal.
      cbn [valid_binary SpecFloat.valid_binary] in Hnormal.
      apply bounded_normal in Hnormal; [| lia ].
      change (2 ^ 52)%Z with 4503599627370496%Z in Hnormal.
      rewrite add_spec, Hshape.
      let v := eval vm_compute in (Prim2SF 94) in change (Prim2SF 94) with v.
      unfold SF64add, SFadd.
      change (Z.min (-45) (-46)) with (-46)%Z.
      change (shl_align m (-45) (-46)) with ((m~0)%positive, (-46)%Z).
      change (shl_align 6614661952700416 (-46) (-46))
        with (6614661952700416%positive, (-46)%Z).
      cbn [fst cond_Zopp]. rewrite Pos2Z.add_pos_pos.
      destruct (binary_normalize_54 (m~0 + 6614661952700416)) as (m' & E & _).
      { rewrite Pos2Z.inj_add, Pos2Z.inj_xO. change (2 ^ 53)%Z with 9007199254740992%Z.
        change (2 ^ 54 - 2)%Z with 18014398509481982%Z. lia. }
      exists m'. exact E. }
  pose proof (Prim2SF_valid (f + 94)) as V. rewrite Hsum in V.
  cbn [valid_binary SpecFloat.valid_binary] in V. apply bounded_range in V.
  apply rank64_finite in Hsum as [Hnan Hr]. split; [ exact Hnan |].
  rewrite Hr. rank_literals. change (2 ^ 53)%Z with 9007199254740992%Z in *. lia.
Qed.


Lemma in_2m_rank (g : float) :
  ~ nan64 g -> (rank64 144 <= rank64 g <= rank64 146)%Z -> in_2m g.
Proof.
  intros Hg Hr. unfold in_2m, between.
  rewrite !(leb_rank _ g), !(leb_rank g) by first [ exact Hg | literal_not_nan ].
  apply andb_true_iff. split; apply Z.leb_le; lia.
Qed.

(** The second phase on a float that is not NaN: the float itself, inside
    one of the accepted ranges, or 145.0. *)
Lemma ensure_amateur_band_cases (g : float) :
  ~ nan64 g ->
  ensure_amateur_band g = 145.0 \/
  (ensure_amateur_band g = g /\
   ((rank64 144 <= rank64 g <= rank64 146)%Z \/ (rank64 400 <= rank64 g <= rank64 500)%Z \/
    (rank64 1240 <= rank64 g <= rank64 1300)%Z \/ (rank64 2000 < rank64 g)%Z)).
Proof.
  intros Hg. rewrite (ensure_amateur_band_rank g Hg). rank_literals.
  split_rank; first [ left; reflexivity | right; split; [ reflexivity | lia ] ].
Qed.

(** Below 400 the second phase ends in the 2 m band. *)
Lemma ensure_amateur_band_low (g : float) :
  ~ nan64 g -> (rank64 g < rank64 400)%Z -> in_2m (ensure_amateur_band g).
Proof.
  intros Hg Hr. destruct (ensure_amateur_band_cases g Hg) as [-> | [-> H]].
  - vm_compute. reflexivity.
  - apply (in_2m_rank g Hg). revert Hr H. rank_literals. lia.
Qed.

(** Below 144 the first phase gives a float below 256. *)
Lemma fix_common_issues_low (f : float) :
  (f <? 144) = true ->
  ~ nan64 (fix_common_issues f) /\ (rank64 (fix_common_issues f) < rank64 400)%Z.
Proof.
  intros Hlt. unfold fix_common_issues.
  destruct ((50 <=? f) && (f <=? 54)) eqn:E6.
  { apply andb_true_iff in E6 as [Hlo Hhi].
    destruct (add_94_range f Hlo Hhi) as (Hnan & Hr & _). split; [ exact Hnan |].
    revert Hr. rank_literals. lia. }
  destruct ((28 <=? f) && (f <=? 29.7)) eqn:E10.
  { apply andb_true_iff in E10 as [Hlo Hhi].
    destruct (add_116_range f Hlo Hhi) as (Hnan & Hr). split; [ exact Hnan |].
    revert Hr. rank_literals. lia. }
  rewrite Hlt. destruct (50 <? f) eqn:E50.
  - destruct (add_94_below_144 f E50 Hlt) as (Hnan & Hr). split; [ exact Hnan |].
    revert Hr. rank_literals. lia.
  - split; [ literal_not_nan | vm_compute; reflexivity ].
Qed.

(** From 144 up the first phase changes nothing. *)
Lemma fix_common_issues_high (f : float) :
  ~ nan64 f -> (f <? 144) = false -> fix_common_issues f = f.
Proof.
  intros Hf Hge. rewrite ltb_rank in Hge by first [ exact Hf | literal_not_nan ].
  apply Z.ltb_ge in Hge. rewrite (fix_common_issues_rank f Hf).
  revert Hge. rank_literals. intros Hge. split_rank. reflexivity.
Qed.

Lemma fix_common_issues_nan (f : float) : nan64 f -> fix_common_issues f = f.
Proof.
  intros Hf. unfold fix_common_issues.
  rewrite !(nan_leb _ f), !(nan_leb f), !(nan_ltb f) by auto. reflexivity.
Qed.

(** The repaired frequency is never NaN and always lies in 144-146, in
    400-500, in 1240-1300 or above 2000 MHz, whatever the input, the
    infinities and NaN included. *)
Theorem repair_range (f : float) :
  ~ nan64 (repair f) /\
  (between 144 (repair f) 146 || between 400 (repair f) 500
   || between 1240 (repair f) 1300 || (2000 <? repair f)) = true.
Proof.
  split; [ apply ensure_amateur_band_not_nan |].
  unfold repair. generalize (fix_common_issues f). intros g.
  destruct (nan64_dec g) as [Hg | Hg].
  - rewrite (ensure_amateur_band_nan g Hg). vm_compute. reflexivity.
  - destruct (ensure_amateur_band_cases g Hg) as [-> | [-> H]].
    + vm_compute. reflexivity.
    + unfold between.
      rewrite !(leb_rank _ g), !(leb_rank g), !(ltb_rank _ g)
        by first [ exact Hg | literal_not_nan ].
      revert H. rank_literals. intros H. split_rank; reflexivity.
Qed.

(** Every frequency below 144 MHz is repaired into the 2 m band. *)
Theorem repair_below_144 (f : float) :
  (f <? 144) = true -> in_2m (repair f).
Proof.
  intros Hlt. destruct (fix_common_issues_low f Hlt) as [Hnan Hr].
  apply ensure_amateur_band_low; assumption.
Qed.

Lemma repair_below_144_witness : in_2m (repair 99.5).
Proof. apply (repair_below_144 99.5). reflexivity. Defined.

End BandPlanRange.

(** ** Band filter *)

Section FilterBandsFacts.
Import PyStr PyFloat Csv BandPlan FilterBands.
Local Open Scope float_scope.

Lemma in_standard_band_rank (f : float) :
  in_standard_band f = true <->
  ~ nan64 f /\
  ((rank64 144 <= rank64 f <= rank64 146)%Z \/ (rank64 430 <= rank64 f <= rank64 440)%Z \/
   (rank64 1240 <= rank64 f <= rank64 1300)%Z \/ (rank64 2300 <= rank64 f <= rank64 2450)%Z).
Proof.
  unfold in_standard_band. destruct (nan64_dec f) as [Hf | Hf].
  - rewrite !(nan_leb _ f), !(nan_leb f) by auto. cbn. split; [ discriminate | tauto ].
  - rewrite !(leb_rank _ f), !(leb_rank f) by first [ exact Hf | literal_not_nan ].
    rewrite !orb_true_iff, !andb_true_iff, !Z.leb_le. tauto.
Qed.

(** A frequency the band filter keeps is one that [repair] leaves as it
    is; a repaired frequency the band filter drops was left as it is by
    [repair], and lies in 400-500 MHz or above 2000 MHz. *)
Theorem repair_and_filter (f : float) :
  (in_standard_band f = true -> repair f = f) /\
  (in_standard_band (repair f) = false ->
   repair f = f /\ (between 400 f 500 = true \/ (2000 <? f) = true)).
Proof.
  split.
  - intros H. apply in_standard_band_rank in H as [Hf H].
    unfold repair. rewrite fix_common_issues_high; [| exact Hf |].
    + destruct (ensure_amateur_band_cases f Hf) as [E | [E _]]; [| exact E ].
      revert E. rewrite (ensure_amateur_band_rank f Hf). revert H. rank_literals.
      intros H. split_rank; intros E; first [ reflexivity | exfalso; lia ].
    + rewrite ltb_rank by first [ exact Hf | literal_not_nan ].
      apply Z.ltb_ge. revert H. rank_literals. lia.
  - intros H.
    assert (in_standard_band 145.0 = true) as H145 by (vm_compute; reflexivity).
    destruct (nan64_dec f) as [Hf | Hf].
    { exfalso. unfold repair in H. rewrite (fix_common_issues_nan f Hf) in H.
      rewrite (ensure_amateur_band_nan f Hf) in H. congruence. }
    destruct (f <? 144) eqn:Hlt.
    { exfalso. pose proof (fix_common_issues_low f Hlt) as [Hnan Hr].
      pose proof (ensure_amateur_band_low _ Hnan Hr) as H2m.
      fold (repair f) in H2m. unfold in_2m, between in H2m.
      unfold in_standard_band in H. rewrite H2m in H. discriminate H. }
    unfold repair in *. rewrite (fix_common_issues_high f Hf Hlt) in *.
    destruct (ensure_amateur_band_cases f Hf) as [E | [E Hc]].
    { exfalso. rewrite E in H. congruence. }
    rewrite E in H |- *. split; [ reflexivity |].
    assert (~ in_standard_band f = true) as Hout by congruence.
    rewrite in_standard_band_rank in Hout. unfold between.
    rewrite !(leb_rank _ f), !(leb_rank f), !(ltb_rank _ f)
      by first [ exact Hf | literal_not_nan ].
    rewrite andb_true_iff, !Z.leb_le, Z.ltb_lt.
    revert Hc Hout. rank_literals. intros Hc Hout.
    destruct Hc as [Hc | [Hc | [Hc | Hc]]]; first [ left; lia | right; lia | exfalso; apply Hout; split; [ exact Hf | lia ] ].
Qed.

Lemma repair_and_filter_witness :
  repair 438.95 = 438.95 /\
  (repair 450 = 450 /\ (between 400 450 500 = true \/ (2000 <? 450) = true)).
Proof.
  split.
  - apply (proj1 (repair_and_filter 438.95)). reflexivity.
  - apply (proj2 (repair_and_filter 450)). reflexivity.
Defined.

End FilterBandsFacts.

(** ** Frequency repair over a file: what is kept, and a second run *)

Section FixFrequencyBandsMore.
Import PyStr PyFloat Csv CsvWriter BandPlan FixFrequencyBands.
Variable float_of_str : str -> option float.
Variable str_of_float : float -> str.

Lemma repair_twice (f : float) : repair (repair f) = repair f.
Proof.
  destruct (repair_settled f) as [Hfix Hens].
  unfold repair at 1. rewrite Hfix. exact Hens.
Qed.

Lemma reread_Text (r : row) : reread str_of_float (Text <$> r) = r.
Proof.
  unfold reread. apply map_eq. intros k. rewrite !lookup_fmap.
  destruct (r !! k); reflexivity.
Qed.

(** Running the repair stage on its own output changes nothing: no row is
    counted as fixed and the file is written back as it was read, as long
    as the repaired frequencies print and parse back to themselves. *)
Theorem fix_frequency_bands_second_run (rows : list row) :
  (forall r f, r ∈ rows -> r !! "Frequency" ≫= float_of_str = Some f ->
     float_of_str (str_of_float (repair f)) = Some (repair f)) ->
  let first := fix_frequency_bands float_of_str rows in
  let file := reread str_of_float <$> out_rows first in
  let second := fix_frequency_bands float_of_str file in
  fixed_count second = 0 /\
  reread str_of_float <$> out_rows second = file.
Proof.
  intros Hround. cbn zeta.
  rewrite !fix_frequency_bands_out_rows, fix_frequency_bands_fixed_count.
  assert (forall r, r ∈ rows ->
            let r' := reread str_of_float (written_for float_of_str r) in
            counts_as_fixed float_of_str r' = false /\
            reread str_of_float (written_for float_of_str r') = r') as Hrow.
  { intros r Hr. cbn zeta.
    destruct (r !! "Frequency" ≫= float_of_str) as [f|] eqn:Ef.
    - specialize (Hround r f Hr Ef).
      assert (reread str_of_float (written_for float_of_str r)
              = <["Frequency" := str_of_float (repair f)]> r) as ->.
      { unfold written_for. rewrite Ef. unfold reread. rewrite fmap_insert.
        f_equal. apply reread_Text. }
      unfold counts_as_fixed, written_for.
      rewrite lookup_insert_eq. cbn [mbind option_bind]. rewrite Hround.
      rewrite repair_twice. split.
      + rewrite eqb_refl_not_nan by apply ensure_amateur_band_not_nan. reflexivity.
      + unfold reread. rewrite fmap_insert. cbn [str_of_cell].
        fold (reread str_of_float (Text <$> <["Frequency":=str_of_float (repair f)]> r)).
        rewrite reread_Text. apply insert_insert_eq.
    - assert (reread str_of_float (written_for float_of_str r) = r) as ->.
      { unfold written_for. rewrite Ef. apply reread_Text. }
      unfold counts_as_fixed, written_for. rewrite Ef.
      split; [ reflexivity | apply reread_Text ]. }
  clear Hround. induction rows as [|r rows IH]; [ split; reflexivity |].
  cbn [map fmap list_fmap]. 
  destruct (Hrow r) as [Hc Hw]; [ left |].
  destruct IH as [IHc IHw]; [ intros r' Hr'; apply Hrow; right; exact Hr' |].
  split.
  - rewrite filter_cons, decide_False by (rewrite Hc; discriminate). exact IHc.
  - f_equal; [ exact Hw | exact IHw ].
Qed.

End FixFrequencyBandsMore.

Lemma fix_frequency_bands_second_run_witness :
  let rows := [Samples.channel; Samples.channel_bad_frequency] in
  let first := FixFrequencyBands.fix_frequency_bands Csv.parse_decimal rows in
  let file := CsvWriter.reread Csv.decimal_repr <$> FixFrequencyBands.out_rows first in
  let second := FixFrequencyBands.fix_frequency_bands Csv.parse_decimal file in
  FixFrequencyBands.fixed_count second = 0 /\
  CsvWriter.reread Csv.decimal_repr <$> FixFrequencyBands.out_rows second = file.
Proof.
  apply (fix_frequency_bands_second_run Csv.parse_decimal Csv.decimal_repr).
  intros r f Hr Hf.
  apply elem_of_cons in Hr as [-> | Hr];
    [| apply elem_of_cons in Hr as [-> | Hr]; [| apply elem_of_nil in Hr; contradiction ] ].
  - vm_compute in Hf. injection Hf as <-. vm_compute. reflexivity.
  - vm_compute in Hf. discriminate Hf.
Defined.

(** ** Text normalizer: ASCII results and plain text *)

Section ReplaceFacts.
Import PyStr PyStrMore TextNormalizer.

Lemma replace_from_absent (key rep s : str) :
  contains key s = false -> replace_from key rep 0 s = s.
Proof.
  induction s as [|c s IH]; [ reflexivity |].
  cbn [contains replace_from]. intros H. apply orb_false_iff in H as [Hhere Hlater].
  rewrite Hhere, IH by exact Hlater. reflexivity.
Qed.

(** A key that does not occur is not replaced. *)
Lemma replace_absent (k : char) (key rep s : str) :
  contains (k :: key) s = false -> replace (k :: key) rep s = s.
Proof. apply replace_from_absent. Qed.

Lemma contains_high_key (k : char) (key s : str) :
  (128 <= k)%N -> is_ascii s -> contains (k :: key) s = false.
Proof.
  intros Hk. induction 1 as [|c s Hc Hs IH]; [ reflexivity |].
  cbn [contains starts_with]. rewrite IH, orb_false_r.
  assert ((k =? c)%N = false) as -> by (apply N.eqb_neq; lia). reflexivity.
Qed.

(** ASCII text has no occurrence of a key that starts outside ASCII. *)
Lemma replace_high_key (k : char) (key rep s : str) :
  (128 <= k)%N -> is_ascii s -> replace (k :: key) rep s = s.
Proof. intros Hk Hs. apply replace_absent, contains_high_key; assumption. Qed.

(** Replacing a character by itself. *)
Lemma replace_same (c : char) (s : str) : replace [c] [c] s = s.
Proof.
  unfold replace. induction s as [|x s IH]; [ reflexivity |].
  cbn [replace_from starts_with length Nat.sub app].
  destruct (N.eqb_spec c x) as [-> | Hne]; cbn [andb]; rewrite IH; reflexivity.
Qed.

Lemma apply_map_fixed (umlaut_map : list (str * str)) (text : str) :
  Forall (fun kv => replace kv.1 kv.2 text = text) umlaut_map ->
  apply_map umlaut_map text = text.
Proof.
  unfold apply_map. induction 1 as [|kv l Hkv Hl IH]; [ reflexivity |].
  cbn [fold_left]. rewrite Hkv. exact IH.
Qed.

Lemma is_ascii_drop_non_ascii (s : str) : is_ascii (drop_non_ascii s).
Proof.
  apply Forall_forall. intros c Hc. apply list_elem_of_filter in Hc as [Hc _]. exact Hc.
Qed.

Lemma drop_non_ascii_ascii (s : str) : is_ascii s -> drop_non_ascii s = s.
Proof.
  unfold drop_non_ascii, str. induction 1 as [|c s Hc Hs IH]; [ reflexivity |].
  rewrite filter_cons, decide_True by exact Hc. rewrite IH. reflexivity.
Qed.

End ReplaceFacts.

(** Every entry of a table leaves the text as it is. *)
Ltac table_fixed Hascii Habsent :=
  apply apply_map_fixed;
  repeat first
    [ apply Forall_nil_2
    | apply Forall_app; split
    | apply Forall_cons; split;
      [ first [ apply replace_same
              | apply replace_high_key; [ apply N.leb_le; reflexivity | exact Hascii ]
              | apply replace_absent; exact Habsent ] |] ].

Section TextNormalizerMore.
Import PyStr PyStrMore TextNormalizer.
Variable nfd : str -> str.

Lemma convert_umlauts_ascii_only_fix (text : str) : is_ascii (convert_umlauts_fix nfd text).
Proof.
  unfold convert_umlauts_fix.
  destruct text as [|c text]; [ exact (Forall_nil_2 _) | exact (is_ascii_drop_non_ascii _) ].
Qed.

Lemma convert_umlauts_ascii_only_sota (text : str) : is_ascii (convert_umlauts_sota nfd text).
Proof.
  unfold convert_umlauts_sota.
  destruct text as [|c text]; [ exact (Forall_nil_2 _) | exact (is_ascii_drop_non_ascii _) ].
Qed.

(** The two copies that end with the non-ASCII filter return ASCII text
    only, for every input and whatever the decomposition yields. *)
Theorem convert_umlauts_ascii_only (text : str) :
  is_ascii (convert_umlauts_fix nfd text) /\ is_ascii (convert_umlauts_sota nfd text).
Proof.
  split; [ apply convert_umlauts_ascii_only_fix | apply convert_umlauts_ascii_only_sota ].
Qed.

(** ASCII text without the seven characters [: "'", ] is returned as it is
    by every copy of the normalizer; the two copies that decompose need a
    decomposition that leaves this text alone. *)
Theorem convert_umlauts_plain_text (text : str) :
  is_ascii text ->
  contains triple_quote_entry.1 text = false ->
  convert_umlauts_api text = text /\
  convert_umlauts_pota text = text /\
  (nfd text = text ->
   convert_umlauts_fix nfd text = text /\ convert_umlauts_sota nfd text = text).
Proof.
  intros Hascii Habsent. cbn [fst triple_quote_entry] in Habsent.
  assert (apply_map western_entries text = text) as Hw.
  { unfold western_entries, triple_quote_entry. table_fixed Hascii Habsent. }
  assert (apply_map (western_entries ++ slavic_entries) text = text) as Hws.
  { unfold western_entries, slavic_entries, triple_quote_entry.
    table_fixed Hascii Habsent. }
  assert (apply_map (western_entries ++ [([345], lit "r"); ([344], lit "R")]%N) text = text)
    as Hwp.
  { unfold western_entries, triple_quote_entry. table_fixed Hascii Habsent. }
  assert (apply_map sota_entries text = text) as Hs.
  { unfold sota_entries, triple_quote_entry. table_fixed Hascii Habsent. }
  unfold convert_umlauts_api, convert_umlauts_pota, convert_umlauts_fix,
    convert_umlauts_sota.
  rewrite Hw, Hws, Hwp, Hs.
  destruct text as [|c text]; [ repeat split; reflexivity |].
  repeat split; try reflexivity;
    rewrite H; apply drop_non_ascii_ascii; exact Hascii.
Qed.

End TextNormalizerMore.

Lemma convert_umlauts_plain_text_witness :
  let text := PyStr.lit "Wien Kahlenberg 484m" in
  TextNormalizer.convert_umlauts_api text = text /\
  TextNormalizer.convert_umlauts_pota text = text /\
  (TextNormalizer.nfd_latin text = text ->
   TextNormalizer.convert_umlauts_fix TextNormalizer.nfd_latin text = text /\
   TextNormalizer.convert_umlauts_sota TextNormalizer.nfd_latin text = text).
Proof.
  apply (convert_umlauts_plain_text TextNormalizer.nfd_latin).
  - apply Forall_forall. intros c Hc. apply N.ltb_lt.
    revert c Hc. apply Forall_forall. vm_compute. repeat constructor.
  - vm_compute. reflexivity.
Defined.

(** ** SOTA projectors: ASCII names, waypoint names, country files *)

Section SotaMore.
Import PyStr PyStrMore PyFloat Csv TextNormalizer SotaExport SotaGpsFiles.
Variable float_of_str : str -> option float.
Variable nfd : str -> str.
Variable current_date : str.

Lemma length_omap_le {A B : Type} (f : A -> option B) (l : list A) :
  length (omap f l) <= length l.
Proof.
  induction l as [|x l IH]; [ reflexivity |].
  cbn [omap list_omap]. destruct (f x); cbn [length]; lia.
Qed.


(** A waypoint name has at most 50 characters: the normalized summit
    name, or its first 47 characters and three dots when it is longer. *)
Theorem gps_entry_name (r : row) (e : gps_entry) :
  gps_entry_of_row float_of_str current_date r = Some e ->
  let clean_name := convert_umlauts_api (get r "name" []) in
  length (gps_name e) <= 50 /\
  (length clean_name <= 50 -> gps_name e = clean_name) /\
  (50 < length clean_name -> gps_name e = take 47 clean_name ++ lit "...").
Proof.
  unfold gps_entry_of_row.
  destruct (group_map (upper (get r "country_code" []))) as [g|]; [| discriminate ].
  destruct (float_get float_of_str r "lat") as [lat|]; [| discriminate ].
  destruct (float_get float_of_str r "long") as [lon|]; [| discriminate ].
  cbn [mbind option_bind].
  destruct (get r "name" []) as [|c cs]; [ discriminate |].
  destruct (without_coordinates lat lon); [ discriminate |].
  generalize (convert_umlauts_api (c :: cs)). intros clean_name.
  intros [= <-]. cbn [gps_name].
  destruct (Nat.ltb_spec 50 (length clean_name)) as [Hlong | Hshort].
  - split; [| split ].
    + rewrite length_app, length_take. cbn [length lit]. lia.
    + intros H. lia.
    + intros _. reflexivity.
  - split; [| split ].
    + exact Hshort.
    + intros _. reflexivity.
    + intros H. lia.
Qed.

(** *** Country files *)

Local Abbreviation entry := (gps_entry_of_row float_of_str current_date).

(** The entries of the rows filed under one country, in reading order. *)
Local Abbreviation entries_of country_code rows :=
  (omap entry (filter (fun r => country_of r = country_code) rows)).

Lemma entry_country (r : row) (e : gps_entry) :
  entry r = Some e ->
  (country_of r = lit "AUT" \/ country_of r = lit "SVK" \/ country_of r = lit "SGP") /\
  group_map (country_of r) = Some (gps_group e, gps_group_name e).
Proof.
  unfold gps_entry_of_row, country_of.
  destruct (group_map (upper (get r "country_code" []))) as [g|] eqn:Eg; [| discriminate ].
  destruct (float_get float_of_str r "lat") as [lat|]; [| discriminate ].
  destruct (float_get float_of_str r "long") as [lon|]; [| discriminate ].
  cbn [mbind option_bind].
  destruct (get r "name" []) as [|c cs]; [ discriminate |].
  destruct (without_coordinates lat lon); [ discriminate |].
  generalize (convert_umlauts_api (c :: cs)). intros clean_name.
  intros [= <-]. cbn [gps_group gps_group_name]. split.
  - revert Eg. unfold group_map, str_eqb.
    repeat case_bool_decide; try discriminate; auto.
  - destruct g. reflexivity.
Qed.

Lemma collect_from (rows : list row) (a s g : list gps_entry) :
  fold_left (collect_row float_of_str current_date) rows
    [ (lit "AUT", a); (lit "SVK", s); (lit "SGP", g) ]
  = [ (lit "AUT", a ++ entries_of (lit "AUT") rows);
      (lit "SVK", s ++ entries_of (lit "SVK") rows);
      (lit "SGP", g ++ entries_of (lit "SGP") rows) ].
Proof.
  revert a s g. induction rows as [|r rows IH]; intros a s g.
  - rewrite !filter_nil. cbn [fold_left omap list_omap]. rewrite !app_nil_r. reflexivity.
  - cbn [fold_left]. unfold collect_row at 2. rewrite !filter_cons.
    destruct (entry r) as [e|] eqn:Ee.
    + fold (country_of r).
      destruct (entry_country r e Ee) as [[Hc | [Hc | Hc]] _]; rewrite Hc;
        cbn [append_summit map fst snd]; unfold str_eqb;
        repeat (first [ rewrite bool_decide_eq_true_2 by reflexivity
                      | rewrite bool_decide_eq_false_2 by discriminate ]);
        rewrite IH;
        repeat (first [ rewrite decide_True by reflexivity
                      | rewrite decide_False by discriminate ]);
        cbn [omap list_omap]; rewrite Ee; rewrite <- ?app_assoc; reflexivity.
    + rewrite IH.
      assert (forall c, omap entry (if decide (country_of r = c)
                                    then r :: filter (fun r => country_of r = c) rows
                                    else filter (fun r => country_of r = c) rows)
                        = entries_of c rows) as Hskip.
      { intros c. destruct (decide (country_of r = c)); [| reflexivity ].
        cbn [omap list_omap]. rewrite Ee. reflexivity. }
      rewrite !Hskip. reflexivity.
Qed.

Lemma entries_Permutation (rows : list row) :
  entries_of (lit "AUT") rows ++ entries_of (lit "SVK") rows ++ entries_of (lit "SGP") rows
  ≡ₚ omap entry rows.
Proof.
  induction rows as [|r rows IH]; [ reflexivity |].
  rewrite !filter_cons. cbn [omap list_omap].
  destruct (entry r) as [e|] eqn:Ee.
  - destruct (entry_country r e Ee) as [[Hc | [Hc | Hc]] _]; rewrite Hc;
      repeat (first [ rewrite decide_True by reflexivity
                    | rewrite decide_False by discriminate ]);
      cbn [omap list_omap]; rewrite Ee.
    + cbn [app]. constructor. exact IH.
    + rewrite <- IH. symmetry. apply Permutation_middle.
    + rewrite <- IH. rewrite !app_assoc. symmetry. apply Permutation_middle.
  - assert (forall c, omap entry (if decide (country_of r = c)
                                  then r :: filter (fun r => country_of r = c) rows
                                  else filter (fun r => country_of r = c) rows)
                      = entries_of c rows) as Hskip.
    { intros c. destruct (decide (country_of r = c)); [| reflexivity ].
      cbn [omap list_omap]. rewrite Ee. reflexivity. }
    rewrite !Hskip. exact IH.
Qed.


End SotaMore.

Lemma gps_entry_name_witness :
  let e := {| SotaExport.gps_group := PyStr.lit "X";
              SotaExport.gps_group_name := PyStr.lit "SOTA-AT";
              SotaExport.gps_name := PyStr.lit "Hochschwab";
              SotaExport.gps_date := PyStr.lit "11/03/2026";
              SotaExport.gps_time := PyStr.lit "00:00:00";
              SotaExport.gps_latitude := 47.618%float;
              SotaExport.gps_longitude := 15.143%float;
              SotaExport.gps_altitude := [];
              SotaExport.gps_alarm := PyStr.lit "OFF" |} in
  let clean_name := TextNormalizer.convert_umlauts_api (Csv.get Samples.summit "name" []) in
  length (SotaExport.gps_name e) <= 50 /\
  (length clean_name <= 50 -> SotaExport.gps_name e = clean_name) /\
  (50 < length clean_name -> SotaExport.gps_name e = take 47 clean_name ++ PyStr.lit "...").
Proof.
  apply (gps_entry_name Csv.parse_decimal (PyStr.lit "11/03/2026") Samples.summit).
  vm_compute. reflexivity.
Defined.

(** ** Vienna stations: what reaches the output *)

Section ViennaMore.
Import PyStr PyFloat Csv ViennaRadio.
Variable float_of_str : str -> option float.
Variable str_of_float : float -> str.
Variable lower : str -> str.
Variable calculate_distance : float -> float -> float -> float -> float.

Local Abbreviation key := (reading_key lower).
Local Abbreviation first_seen := (ViennaRadio.first_seen lower).
Local Abbreviation read_row :=
  (ViennaRadio.read_row float_of_str str_of_float lower calculate_distance).
Local Abbreviation ingest :=
  (ViennaRadio.ingest float_of_str str_of_float lower calculate_distance).
Local Abbreviation top_stations :=
  (ViennaRadio.top_stations float_of_str str_of_float lower calculate_distance).
Local Abbreviation convert :=
  (convert_vienna_radio_to_icom_format float_of_str str_of_float lower calculate_distance).

Lemma read_row_Some (r : row) (x : reading) :
  read_row r = Some x ->
  (max_distance <? r_distance x)%float = false /\
  between 87.5 (r_frequency x) 108.0 = true /\
  r_station_name x <> [].
Proof.
  unfold ViennaRadio.read_row.
  destruct (ViennaRadio.float_get float_of_str r "lat") as [lat|]; [| discriminate ].
  destruct (ViennaRadio.float_get float_of_str r "long") as [lon|]; [| discriminate ].
  cbn [mbind option_bind].
  destruct (max_distance <? calculate_distance vienna_lat vienna_lon lat lon)%float eqn:Ed;
    [ discriminate |].
  destruct (r !! "freq_rx" ≫= float_of_str) as [f|]; [| discriminate ].
  cbn [mbind option_bind].
  destruct (between 87.5 f 108.0) eqn:Ef; [| discriminate ].
  cbn [negb]. intros [= <-]. cbn [r_distance r_frequency r_station_name].
  repeat split; try assumption.
  destruct (strip (get r "name" [])); [ discriminate | discriminate ].
Qed.

Lemma top_stations_readings (rows : list row) (s : station_data) :
  s ∈ top_stations rows ->
  exists r x, r ∈ rows /\ read_row r = Some x /\ s = make_station x.
Proof.
  unfold ViennaRadio.top_stations, rank. intros Hs.
  apply elem_of_take in Hs as (i & Hs & _). apply list_elem_of_lookup_2 in Hs.
  rewrite sort_by_score_Permutation in Hs.
  rewrite (ingest_stations float_of_str str_of_float lower calculate_distance) in Hs.
  apply list_elem_of_fmap in Hs as (x & -> & Hx).
  apply (fun H => elem_of_sublist _ _ _ H (first_seen_sublist lower ∅ _)) in Hx.
  apply list_elem_of_omap in Hx as (r & Hr & Hrx).
  exists r, x. repeat split; assumption.
Qed.

(** Every station written comes from a row within 150 km of Vienna whose
    frequency lies in 87.5-108 MHz; its name and its sub name are never
    empty and its score is never NaN. *)
Theorem vienna_stations_written (rows : list row) (s : station_data) :
  s ∈ top_stations rows ->
  (exists r x, r ∈ rows /\ read_row r = Some x /\ s = make_station x /\
               (max_distance <? r_distance x)%float = false) /\
  between 87.5 (frequency s) 108.0 = true /\
  name s <> [] /\ sub_name s <> [] /\ ~ nan64 (score s).
Proof.
  intros Hs. destruct (top_stations_readings rows s Hs) as (r & x & Hr & Hrx & ->).
  destruct (read_row_Some r x Hrx) as (Hd & Hf & Hn).
  split; [ exists r, x; repeat split; assumption |].
  cbn [make_station frequency name sub_name score].
  repeat split; try assumption.
  - destruct (r_location x), (r_state x); discriminate.
  - apply total_score_scored.
Qed.

(** The projector writes one row per ranked station, in rank order, and
    returns their number: the number of distinct station keys among the
    rows read, or 50 when there are more. *)
Theorem vienna_output_count (rows : list row) (group_number : Z) (group_name : str) :
  let out := convert rows group_number group_name in
  let keys : gset str := list_to_set (key <$> omap read_row rows) in
  written out = icom_of_station group_number group_name <$> top_stations rows /\
  processed_count out = length (written out) /\
  length (written out) = Nat.min 50 (size keys).
Proof.
  cbn zeta.
  assert (forall l (out : output icom_row),
            fold_left (fun out s => writerow out (icom_of_station group_number group_name s))
              l out
            = {| written := written out ++ (icom_of_station group_number group_name <$> l);
                 processed_count := processed_count out + length l |}) as Hloop.
  { induction l as [|s l IH]; intros [w n]; cbn [fold_left fmap list_fmap].
    - cbn [written processed_count length]. rewrite app_nil_r, Nat.add_0_r. reflexivity.
    - rewrite IH. cbn [writerow written processed_count length].
      rewrite <- app_assoc. cbn [app]. f_equal. lia. }
  unfold convert_vienna_radio_to_icom_format. rewrite Hloop.
  cbn [written processed_count no_output app Nat.add].
  split; [ reflexivity |]. rewrite length_fmap. split; [ reflexivity |].
  unfold ViennaRadio.top_stations, rank. rewrite length_take.
  rewrite (Permutation_length (sort_by_score_Permutation _)).
  rewrite (ingest_stations float_of_str str_of_float lower calculate_distance).
  rewrite length_fmap. f_equal.
  rewrite <- (length_fmap key).
  rewrite <- (size_list_to_set (C := gset str)) by apply first_seen_NoDup.
  f_equal. apply set_eq. intros k. rewrite !elem_of_list_to_set. split.
  - intros (x & -> & Hx)%list_elem_of_fmap. apply list_elem_of_fmap. exists x.
    split; [ reflexivity |].
    apply (elem_of_sublist _ _ _ Hx (first_seen_sublist lower ∅ _)).
  - intros (x & -> & Hx)%list_elem_of_fmap.
    destruct (first_seen_covers lower ∅ _ _ Hx) as [H | H]; [| exact H ].
    apply elem_of_empty in H. contradiction.
Qed.

End ViennaMore.

Lemma vienna_stations_written_witness :
  let rows := [MoreSamples.broadcast] in
  let s := MoreSamples.broadcast_station in
  (exists r x, r ∈ rows /\
     ViennaRadio.read_row Csv.parse_decimal Csv.decimal_repr PyStr.ascii_lower
       MoreSamples.ten_km r = Some x /\
     s = ViennaRadio.make_station x /\
     (ViennaRadio.max_distance <? ViennaRadio.r_distance x)%float = false) /\
  PyFloat.between 87.5 (ViennaRadio.frequency s) 108.0 = true /\
  ViennaRadio.name s <> [] /\ ViennaRadio.sub_name s <> [] /\
  ~ PyFloat.nan64 (ViennaRadio.score s).
Proof.
  apply (vienna_stations_written Csv.parse_decimal Csv.decimal_repr PyStr.ascii_lower
           MoreSamples.ten_km [MoreSamples.broadcast] MoreSamples.broadcast_station).
  vm_compute. left.
Defined.

(** ** FM projector: which rows are written, tone and coordinates *)

Section FmMore.
Import PyStr PyFloat Csv FmExport.
Variable float_of_str : str -> option float.
Variable str_of_float : float -> str.
Variable lower : str -> str.

Local Abbreviation convert_row := (FmExport.convert_row float_of_str str_of_float lower).

Lemma fm_convert_row_Some (group_number : Z) (group_name : str)
    (country_filter : option str) (r : row) (o : icom_row) :
  convert_row group_number group_name country_filter r = Some o ->
  (truthy country_filter = false \/ Some (get r "country" []) = country_filter) /\
  lower (get r "fm" (lit "True")) = lit "true" /\
  read_frequency float_of_str r = Some match frequency o with
                                       | Float f => f
                                       | _ => 0%float
                                       end /\
  (exists f, frequency o = Float f) /\
  (tone o, repeater_tone o) = ctcss float_of_str str_of_float r /\
  rpt1use o = (if str_eqb (tone o) (lit "OFF") then lit "NO" else lit "YES") /\
  (latitude o, longitude o) = coordinates float_of_str r /\
  mode o = lit "FM" /\ gateway_call_sign o = [] /\
  utc_offset o = (if bool_decide (country_filter = Some (lit "Singapore")) then lit "+8:00"
                  else if bool_decide (country_filter = Some (lit "Japan")) then lit "+9:00"
                  else lit "+1:00").
Proof.
  unfold FmExport.convert_row.
  destruct (truthy country_filter) eqn:Et; cbn [andb].
  - case_bool_decide as Ec; cbn [negb]; [| discriminate ].
    unfold str_eqb at 1. case_bool_decide as Efm; cbn [negb]; [| discriminate ].
    destruct (read_frequency float_of_str r) as [f|]; [| discriminate ].
    cbn [mbind option_bind].
    destruct (duplex float_of_str r) as [d off],
      (ctcss float_of_str str_of_float r) as [t tv], (coordinates float_of_str r) as [la lo].
    intros [= <-]. cbn. repeat split; eauto.
  - unfold str_eqb at 1. case_bool_decide as Efm; cbn [negb]; [| discriminate ].
    destruct (read_frequency float_of_str r) as [f|]; [| discriminate ].
    cbn [mbind option_bind].
    destruct (duplex float_of_str r) as [d off],
      (ctcss float_of_str str_of_float r) as [t tv], (coordinates float_of_str r) as [la lo].
    intros [= <-]. cbn. repeat split; eauto.
Qed.

(** The frequency of line 41, by the columns of the row. *)
Lemma read_frequency_columns (r : row) :
  read_frequency float_of_str r =
  match r !! "freq_rx", r !! "freq_tx" with
  | Some t, _ => float_of_str t
  | None, Some t => float_of_str t
  | None, None => Some 0%float
  end.
Proof.
  unfold read_frequency, float_get.
  destruct (r !! "freq_rx"), (r !! "freq_tx"); reflexivity.
Qed.

(** On a file whose lines have as many cells as the header, the FM
    projector writes a row exactly when the row passes the country filter
    (an absent or empty filter passes every row), its [fm] column, read as
    True when absent, is "true" in any letter case, and its frequency text
    is a number: the text of [freq_rx], or that of [freq_tx] when the file
    has no [freq_rx] column.  The written frequency is that number; a file
    with neither column gives every row the frequency 0.0.  The time zone
    depends on the filter only. *)
Theorem fm_row_written (group_number : Z) (group_name : str)
    (country_filter : option str) (r : row) :
  (is_Some (convert_row group_number group_name country_filter r) <->
   (truthy country_filter = false \/ Some (get r "country" []) = country_filter) /\
   lower (get r "fm" (lit "True")) = lit "true" /\
   match r !! "freq_rx", r !! "freq_tx" with
   | Some t, _ => is_Some (float_of_str t)
   | None, Some t => is_Some (float_of_str t)
   | None, None => True
   end) /\
  (forall o, convert_row group_number group_name country_filter r = Some o ->
     match r !! "freq_rx", r !! "freq_tx" with
     | Some t, _ => exists f, float_of_str t = Some f /\ frequency o = Float f
     | None, Some t => exists f, float_of_str t = Some f /\ frequency o = Float f
     | None, None => frequency o = Float 0
     end /\
     mode o = lit "FM" /\ gateway_call_sign o = [] /\
     utc_offset o = (if bool_decide (country_filter = Some (lit "Singapore")) then lit "+8:00"
                     else if bool_decide (country_filter = Some (lit "Japan")) then lit "+9:00"
                     else lit "+1:00")).
Proof.
  split.
  - split.
    + intros [o Ho]. apply fm_convert_row_Some in Ho as (Hc & Hfm & Hf & _).
      split; [ exact Hc |]. split; [ exact Hfm |].
      rewrite read_frequency_columns in Hf.
      destruct (r !! "freq_rx"), (r !! "freq_tx"); eauto.
    + intros (Hc & Hfm & Hfreq). unfold FmExport.convert_row.
      assert (truthy country_filter
              && negb (bool_decide (Some (get r "country" []) = country_filter)) = false)
        as ->.
      { destruct Hc as [-> | Hc]; [ reflexivity |].
        rewrite bool_decide_eq_true_2 by exact Hc. apply andb_false_r. }
      unfold str_eqb at 1. rewrite bool_decide_eq_true_2 by exact Hfm. cbn [negb].
      assert (is_Some (read_frequency float_of_str r)) as [f Hf].
      { rewrite read_frequency_columns.
        destruct (r !! "freq_rx"), (r !! "freq_tx"); eauto. }
      rewrite Hf. cbn [mbind option_bind].
      destruct (duplex float_of_str r), (ctcss float_of_str str_of_float r),
        (coordinates float_of_str r). eauto.
  - intros o Ho.
    apply fm_convert_row_Some in Ho as (_ & _ & Hf & [f Ef] & _ & _ & _ & Hm & Hg & Hu).
    rewrite Ef in Hf. rewrite read_frequency_columns in Hf.
    split; [| repeat split; assumption ].
    destruct (r !! "freq_rx"), (r !! "freq_tx");
      first [ exists f; split; assumption | injection Hf as <-; exact Ef ].
Qed.

(** A written row has TONE, the tone frequency followed by "Hz" and RPT1USE
    YES when its [ctcss_tx] column holds a number; when the column is
    absent, empty or not a number it has OFF, "88.5Hz" and RPT1USE NO. *)
Theorem fm_tone (group_number : Z) (group_name : str)
    (country_filter : option str) (r : row) (o : icom_row) :
  convert_row group_number group_name country_filter r = Some o ->
  let ctcss_tx := get r "ctcss_tx" [] in
  (forall tone_freq, ctcss_tx <> [] -> float_of_str ctcss_tx = Some tone_freq ->
     tone o = lit "TONE" /\ repeater_tone o = str_of_float tone_freq ++ lit "Hz" /\
     rpt1use o = lit "YES") /\
  (ctcss_tx = [] \/ float_of_str ctcss_tx = None ->
     tone o = lit "OFF" /\ repeater_tone o = lit "88.5Hz" /\ rpt1use o = lit "NO").
Proof.
  intros Ho. cbn zeta.
  apply fm_convert_row_Some in Ho as (_ & _ & _ & _ & Ht & Hr & _).
  unfold ctcss in Ht. split.
  - intros tone_freq Hne Hf. destruct (get r "ctcss_tx" []) as [|c cs]; [ congruence |].
    rewrite Hf in Ht. injection Ht as Ht Hv. rewrite Hr, Ht, Hv.
    repeat split; reflexivity.
  - intros H.
    assert ((tone o, repeater_tone o) = (lit "OFF", lit "88.5Hz")) as E.
    { destruct (get r "ctcss_tx" []) as [|c cs]; [ exact Ht |].
      destruct H as [H | H]; [ discriminate H |]. rewrite H in Ht. exact Ht. }
    injection E as Et Ev. rewrite Hr, Et, Ev. repeat split; reflexivity.
Qed.

(** A written row carries both coordinates as parsed, or 0 for both: a
    latitude that parses is dropped when the longitude does not, and the
    other way round. *)
Theorem fm_coordinates (group_number : Z) (group_name : str)
    (country_filter : option str) (r : row) (o : icom_row) :
  convert_row group_number group_name country_filter r = Some o ->
  (forall lat lon, float_get float_of_str r "lat" = Some lat ->
     float_get float_of_str r "long" = Some lon ->
     latitude o = Float lat /\ longitude o = Float lon) /\
  (float_get float_of_str r "lat" = None \/ float_get float_of_str r "long" = None ->
     latitude o = Int 0 /\ longitude o = Int 0).
Proof.
  intros Ho.
  apply fm_convert_row_Some in Ho as (_ & _ & _ & _ & _ & _ & Hc & _).
  unfold coordinates in Hc. split.
  - intros lat lon Hlat Hlon. rewrite Hlat, Hlon in Hc. injection Hc as -> ->.
    split; reflexivity.
  - intros H.
    destruct (float_get float_of_str r "lat") as [lat|],
      (float_get float_of_str r "long") as [lon|];
      try (destruct H as [H | H]; discriminate H);
      injection Hc as -> ->; split; reflexivity.
Qed.

End FmMore.

Lemma fm_tone_witness :
  let o := Samples.repeater_channel in
  let ctcss_tx := Csv.get Samples.repeater "ctcss_tx" [] in
  (forall tone_freq, ctcss_tx <> [] -> Csv.parse_decimal ctcss_tx = Some tone_freq ->
     Csv.tone o = PyStr.lit "TONE" /\
     Csv.repeater_tone o = Csv.decimal_repr tone_freq ++ PyStr.lit "Hz" /\
     Csv.rpt1use o = PyStr.lit "YES") /\
  (ctcss_tx = [] \/ Csv.parse_decimal ctcss_tx = None ->
     Csv.tone o = PyStr.lit "OFF" /\ Csv.repeater_tone o = PyStr.lit "88.5Hz" /\
     Csv.rpt1use o = PyStr.lit "NO").
Proof.
  apply (fm_tone Csv.parse_decimal Csv.decimal_repr PyStr.ascii_lower
           32 (PyStr.lit "AT-Repeaters") (Some (PyStr.lit "Austria")) Samples.repeater).
  vm_compute. reflexivity.
Defined.

Lemma fm_coordinates_witness :
  let o := Samples.repeater_channel in
  (forall lat lon, FmExport.float_get Csv.parse_decimal Samples.repeater "lat" = Some lat ->
     FmExport.float_get Csv.parse_decimal Samples.repeater "long" = Some lon ->
     Csv.latitude o = Csv.Float lat /\ Csv.longitude o = Csv.Float lon) /\
  (FmExport.float_get Csv.parse_decimal Samples.repeater "lat" = None
   \/ FmExport.float_get Csv.parse_decimal Samples.repeater "long" = None ->
     Csv.latitude o = Csv.Int 0 /\ Csv.longitude o = Csv.Int 0).
Proof.
  apply (fm_coordinates Csv.parse_decimal Csv.decimal_repr PyStr.ascii_lower
           32 (PyStr.lit "AT-Repeaters") (Some (PyStr.lit "Austria")) Samples.repeater).
  vm_compute. reflexivity.
Defined.

(** ** D-STAR projector: gateway call sign and written rows *)

Section ReplaceLength.
Import PyStr PyStrMore.

Lemma starts_with_length (key s : str) : starts_with key s = true -> length key <= length s.
Proof.
  revert s. induction key as [|k key IH]; intros s H; [ cbn; lia |].
  destruct s as [|c s]; [ discriminate H |].
  cbn [starts_with] in H. apply andb_true_iff in H as [_ H].
  apply IH in H. cbn [length]. lia.
Qed.

Lemma replace_from_length (key rep : str) (skip : nat) (s : str) :
  key <> [] -> length rep = length key -> skip <= length s ->
  length (replace_from key rep skip s) = length s - skip.
Proof.
  intros Hkey Hrep. revert skip. induction s as [|c s IH]; intros skip Hskip.
  - reflexivity.
  - cbn [replace_from]. destruct skip as [|skip].
    + destruct (starts_with key (c :: s)) eqn:E.
      * apply starts_with_length in E. cbn [length] in E |- *.
        assert (length key <> 0) by (destruct key; [ congruence | discriminate ]).
        rewrite length_app, IH by lia. lia.
      * cbn [length]. rewrite IH by lia. lia.
    + cbn [length] in Hskip |- *. rewrite IH by lia. lia.
Qed.

(** Replacing a key by a text of the same length keeps the length. *)
Lemma replace_length (k : char) (key rep s : str) :
  length rep = length (k :: key) -> length (replace (k :: key) rep s) = length s.
Proof.
  intros Hrep. unfold replace. rewrite replace_from_length; [ lia | discriminate | exact Hrep | lia ].
Qed.

(** A blank followed by [a] is replaced at the end of a text without other
    blanks when the last character is [a], and nowhere else. *)
Lemma replace_module (a m : char) (base : str) :
  32%N ∉ base -> m <> 32%N ->
  replace [32%N; a] [32%N; 71%N] (base ++ [32%N; m])
  = base ++ [32%N; if (a =? m)%N then 71%N else m].
Proof.
  intros Hbase Hm. unfold replace. induction base as [|c base IH].
  - cbn [app replace_from starts_with length Nat.sub]. rewrite N.eqb_refl. cbn [andb].
    destruct (N.eqb_spec a m) as [-> | Hne]; cbn [andb app replace_from].
    + reflexivity.
    + cbn [starts_with]. assert ((32 =? m)%N = false) as -> by (apply N.eqb_neq; congruence).
      reflexivity.
  - apply not_elem_of_cons in Hbase as [Hc Hbase].
    cbn [app replace_from starts_with].
    assert ((32 =? c)%N = false) as -> by (apply N.eqb_neq; congruence).
    cbn [andb]. rewrite IH by exact Hbase. reflexivity.
Qed.

Lemma ends_with_last (c : char) (suffix s : str) :
  ends_with (suffix ++ [c]) s = true -> last s = Some c.
Proof.
  unfold ends_with. rewrite rev_unit. intros H.
  destruct (rev s) as [|x rs] eqn:E; [ discriminate H |].
  cbn [starts_with] in H. apply andb_true_iff in H as [Hx _]. apply N.eqb_eq in Hx. subst x.
  apply (f_equal (@rev _)) in E. rewrite rev_involutive in E. rewrite E.
  cbn [rev]. apply last_snoc.
Qed.

End ReplaceLength.

Section DstarFacts.
Import PyStr PyStrMore PyFloat Csv DstarExport.
Variable float_of_str : str -> option float.
Variable lower : str -> str.

(** The gateway call sign of an empty call sign is empty; that of any other
    call sign ends in G and is as long as the call sign, or two characters
    longer when the call sign has at most 7 characters; a call sign made of
    a text without blanks, a blank and the module letter A, B or C gets the
    module letter replaced by G. *)
Theorem gateway_call_sign_shape (callsign : str) :
  gateway_call_sign_of [] = [] /\
  (callsign <> [] ->
   last (gateway_call_sign_of callsign) = Some 71%N /\
   (length (gateway_call_sign_of callsign) = length callsign \/
    (length callsign <= 7 /\
     length (gateway_call_sign_of callsign) = length callsign + 2))) /\
  (forall base m, callsign = base ++ [32%N; m] -> 32%N ∉ base -> m ∈ [65; 66; 67]%N ->
     gateway_call_sign_of callsign = base ++ lit " G").
Proof.
  split; [ reflexivity |]. split.
  - intros Hne. unfold gateway_call_sign_of.
    set (g := replace (lit " C") (lit " G")
                (replace (lit " B") (lit " G") (replace (lit " A") (lit " G") callsign))).
    assert (length g = length callsign) as Hlen.
    { unfold g, lit. cbn [N_of_ascii]. rewrite !replace_length by reflexivity. reflexivity. }
    destruct callsign as [|c cs]; [ congruence |].
    destruct (ends_with (lit " G") g) eqn:Eg.
    + split; [ apply (ends_with_last 71%N [32%N]); exact Eg | left; exact Hlen ].
    + destruct (Nat.leb_spec (length (c :: cs)) 7) as [Hshort | Hlong].
      * split; [| right; split; [ exact Hshort | rewrite length_app; cbn [length lit]; lia ] ].
        change (lit " G") with ([32%N] ++ [71%N]). rewrite app_assoc. apply last_snoc.
      * split.
        -- change (lit "G") with [71%N]. apply last_snoc.
        -- left. unfold drop_last. rewrite length_app, length_take. cbn [length lit]. lia.
  - intros base m -> Hbase Hm. unfold gateway_call_sign_of.
    assert (m <> 32%N) as Hm32.
    { repeat (apply elem_of_cons in Hm as [-> | Hm]); try discriminate.
      apply elem_of_nil in Hm. contradiction. }
    change (lit " A") with [32%N; 65%N]. change (lit " B") with [32%N; 66%N].
    change (lit " C") with [32%N; 67%N]. change (lit " G") with [32%N; 71%N].
    assert (replace [32; 67] [32; 71]
              (replace [32; 66] [32; 71] (replace [32; 65] [32; 71] (base ++ [32; m])))
            = base ++ [32; 71])%N as ->.
    { repeat (apply elem_of_cons in Hm as [-> | Hm]);
        [ | | | apply elem_of_nil in Hm; contradiction ];
        rewrite !replace_module by (first [ exact Hbase | discriminate ]); reflexivity. }
    destruct (base ++ [32%N; m]) as [|c cs] eqn:E.
    { destruct base; discriminate E. }
    assert (ends_with [32; 71]%N (base ++ [32; 71]%N) = true) as ->; [| reflexivity ].
    unfold ends_with. rewrite rev_app_distr. reflexivity.
Qed.

Local Abbreviation convert_row := (DstarExport.convert_row float_of_str lower).

(** On a file whose lines have as many cells as the header, the D-STAR
    projector writes a row exactly when the row passes the country filter,
    its [dstar] column - or, only when the file has no such column, its
    [d-star] column - is "true" in any letter case, and its frequency text
    ([freq_rx], or [freq_tx] when the file has no [freq_rx] column) is a
    number; a row of a file with neither column is never written, the
    default False not being "true".  Every written row has mode DV, tone
    OFF, RPT1USE YES, and the gateway call sign derived from its call
    sign. *)
Theorem dstar_row_written (group_number : Z) (group_name : str)
    (country_filter : option str) (r : row) :
  lower (lit "False") = lit "false" ->
  (is_Some (convert_row group_number group_name country_filter r) <->
   (FmExport.truthy country_filter = false \/ Some (get r "country" []) = country_filter) /\
   match r !! "dstar", r !! "d-star" with
   | Some s, _ => lower s = lit "true"
   | None, Some s => lower s = lit "true"
   | None, None => False
   end /\
   match r !! "freq_rx", r !! "freq_tx" with
   | Some t, _ => is_Some (float_of_str t)
   | None, Some t => is_Some (float_of_str t)
   | None, None => True
   end) /\
  (r !! "dstar" = None -> r !! "d-star" = None ->
   convert_row group_number group_name country_filter r = None) /\
  (forall o, convert_row group_number group_name country_filter r = Some o ->
     mode o = lit "DV" /\ tone o = lit "OFF" /\ repeater_tone o = lit "88.5Hz" /\
     rpt1use o = lit "YES" /\
     repeater_call_sign o = strip (get r "callsign" []) /\
     gateway_call_sign o = gateway_call_sign_of (repeater_call_sign o)).
Proof.
  intros Hlower.
  assert (dstar_field lower r = lit "true" <->
          match r !! "dstar", r !! "d-star" with
          | Some s, _ => lower s = lit "true"
          | None, Some s => lower s = lit "true"
          | None, None => False
          end) as Hfield.
  { unfold dstar_field, get.
    destruct (r !! "dstar") as [s|]; [ reflexivity |].
    destruct (r !! "d-star") as [s|]; [ reflexivity |].
    rewrite Hlower. split; [ discriminate | contradiction ]. }
  assert (is_Some (FmExport.read_frequency float_of_str r) <->
          match r !! "freq_rx", r !! "freq_tx" with
          | Some t, _ => is_Some (float_of_str t)
          | None, Some t => is_Some (float_of_str t)
          | None, None => True
          end) as Hfreq.
  { unfold FmExport.read_frequency, FmExport.float_get.
    destruct (r !! "freq_rx"), (r !! "freq_tx"); try reflexivity.
    split; [ auto | eauto ]. }
  assert (is_Some (convert_row group_number group_name country_filter r) <->
          (FmExport.truthy country_filter = false
           \/ Some (get r "country" []) = country_filter) /\
          dstar_field lower r = lit "true" /\
          is_Some (FmExport.read_frequency float_of_str r)) as Hwritten.
  { unfold DstarExport.convert_row. split.
    + intros [o Ho]. revert Ho.
      destruct (FmExport.truthy country_filter) eqn:Et; cbn [andb].
      * case_bool_decide as Ec; cbn [negb]; [| discriminate ].
        unfold str_eqb at 1. case_bool_decide as Ed; cbn [negb]; [| discriminate ].
        destruct (FmExport.read_frequency float_of_str r) as [f|]; [| discriminate ].
        intros _. repeat split; eauto.
      * unfold str_eqb at 1. case_bool_decide as Ed; cbn [negb]; [| discriminate ].
        destruct (FmExport.read_frequency float_of_str r) as [f|]; [| discriminate ].
        intros _. repeat split; eauto.
    + intros (Hc & Hd & [f Hf]).
      assert (FmExport.truthy country_filter
              && negb (bool_decide (Some (get r "country" []) = country_filter)) = false)
        as ->.
      { destruct Hc as [-> | Hc]; [ reflexivity |].
        rewrite bool_decide_eq_true_2 by exact Hc. apply andb_false_r. }
      unfold str_eqb at 1. rewrite bool_decide_eq_true_2 by exact Hd. cbn [negb].
      rewrite Hf. cbn [mbind option_bind].
      destruct (FmExport.duplex float_of_str r), (FmExport.coordinates float_of_str r). eauto. }
  split; [| split ].
  - rewrite Hwritten, Hfield, Hfreq. reflexivity.
  - intros H1 H2. apply eq_None_not_Some. intros Hs.
    apply Hwritten in Hs as (_ & Hd & _). apply Hfield in Hd.
    rewrite H1, H2 in Hd. exact Hd.
  - intros o. unfold DstarExport.convert_row.
    repeat match goal with
           | |- context [if ?b then None else _] => destruct b; [ discriminate |]
           end.
    destruct (FmExport.read_frequency float_of_str r) as [f|]; [| discriminate ].
    cbn [mbind option_bind].
    destruct (FmExport.duplex float_of_str r), (FmExport.coordinates float_of_str r).
    intros [= <-]. cbn. repeat split; reflexivity.
Qed.

End DstarFacts.

Lemma dstar_row_written_witness :
  let convert_row :=
    DstarExport.convert_row Csv.parse_decimal PyStr.ascii_lower
      33 (PyStr.lit "AT-DSTAR") (Some (PyStr.lit "Austria")) in
  let r := MoreSamples.dstar_repeater in
  (is_Some (convert_row r) <->
   (FmExport.truthy (Some (PyStr.lit "Austria")) = false
    \/ Some (Csv.get r "country" []) = Some (PyStr.lit "Austria")) /\
   match r !! "dstar", r !! "d-star" with
   | Some s, _ => PyStr.ascii_lower s = PyStr.lit "true"
   | None, Some s => PyStr.ascii_lower s = PyStr.lit "true"
   | None, None => False
   end /\
   match r !! "freq_rx", r !! "freq_tx" with
   | Some t, _ => is_Some (Csv.parse_decimal t)
   | None, Some t => is_Some (Csv.parse_decimal t)
   | None, None => True
   end) /\
  (r !! "dstar" = None -> r !! "d-star" = None -> convert_row r = None) /\
  (forall o, convert_row r = Some o ->
     Csv.mode o = PyStr.lit "DV" /\ Csv.tone o = PyStr.lit "OFF" /\
     Csv.repeater_tone o = PyStr.lit "88.5Hz" /\ Csv.rpt1use o = PyStr.lit "YES" /\
     Csv.repeater_call_sign o = PyStr.strip (Csv.get r "callsign" []) /\
     Csv.gateway_call_sign o = DstarExport.gateway_call_sign_of (Csv.repeater_call_sign o)).
Proof.
  apply (dstar_row_written Csv.parse_decimal PyStr.ascii_lower
           33 (PyStr.lit "AT-DSTAR") (Some (PyStr.lit "Austria")) MoreSamples.dstar_repeater).
  reflexivity.
Defined.

(** ** GPS columns for a channel file *)

Section AddGpsFacts.
Import PyStr Csv AddGps.

Lemma add_gps_rows_None (rows : list row) :
  fold_left add_gps_row rows None = None.
Proof. induction rows as [|r rows IH]; [ reflexivity | exact IH ]. Qed.

Lemma add_gps_rows_from (rows : list row) (gps_data : gmap str gps_info) :
  Forall (fun r => is_Some (r !! "callsign")) rows ->
  exists m, fold_left add_gps_row rows (Some gps_data) = Some m /\
    forall c, m !! c =
      match last (filter (fun r => r !! "callsign" = Some c) rows) with
      | Some r => Some (gps_info_of r)
      | None => gps_data !! c
      end.
Proof.
  intros H. revert gps_data. induction H as [|r rows [c0 Hr] Hrows IH]; intros gps_data.
  - exists gps_data. split; [ reflexivity |]. intros c. reflexivity.
  - cbn [fold_left]. unfold add_gps_row at 2. cbn [mbind option_bind]. rewrite Hr.
    cbn [mbind option_bind].
    destruct (IH (<[c0 := gps_info_of r]> gps_data)) as (m & Hm & Hlookup).
    exists m. split; [ exact Hm |]. intros c. rewrite Hlookup, filter_cons.
    destruct (decide (r !! "callsign" = Some c)) as [Hc | Hc].
    + assert (c0 = c) as -> by congruence.
      destruct (filter (fun r => r !! "callsign" = Some c) rows) as [|r' l] eqn:E.
      * cbn [last]. apply lookup_insert_eq.
      * change (last (r :: r' :: l)) with (last (r' :: l)).
        destruct (last (r' :: l)) eqn:El; [ reflexivity |].
        apply last_None in El. discriminate El.
    + destruct (last (filter (fun r => r !! "callsign" = Some c) rows)); [ reflexivity |].
      apply lookup_insert_ne. congruence.
Qed.

(** The GPS table keeps, for each call sign, the values of the last row
    with that call sign; one row without a [callsign] column makes the
    whole table empty. *)
Theorem read_intermediate_csv_last_wins (rows : list row) :
  (Forall (fun r => is_Some (r !! "callsign")) rows ->
   forall c, read_intermediate_csv rows !! c
             = gps_info_of <$> last (filter (fun r => r !! "callsign" = Some c) rows)) /\
  (Exists (fun r => r !! "callsign" = None) rows -> read_intermediate_csv rows = ∅).
Proof.
  unfold read_intermediate_csv. split.
  - intros H c. destruct (add_gps_rows_from rows ∅ H) as (m & -> & Hm).
    cbn [default]. rewrite Hm.
    destruct (last (filter (fun r => r !! "callsign" = Some c) rows)); [ reflexivity |].
    apply lookup_empty.
  - intros H.
    assert (forall gps_data, fold_left add_gps_row rows gps_data = None) as ->;
      [| reflexivity ].
    induction H as [r rows Hr | r rows H IH]; intros gps_data; cbn [fold_left].
    + unfold add_gps_row at 2. destruct gps_data; cbn [mbind option_bind];
        rewrite ?Hr; apply add_gps_rows_None.
    + apply IH.
Qed.

End AddGpsFacts.

(** ** The two grid geocoders *)

Section GeocodersCompared.
Import PyStr GridGeocoder.
Local Open Scope Q_scope.

(** On ASCII text of fewer than 8 characters with digits at positions 2
    and 3 the two geocoders resolve the same south-west corner:
    [maidenhead_to_latlon] returns what [maidenhead_to_gps] returns without
    the half square that one adds at 4 and 5 characters, moved by 1.25
    minutes of latitude and 1 minute of longitude and rounded to six
    places. *)
Theorem geocoders_same_corner (grid : str) (lat lon : Q) :
  is_ascii grid ->
  maidenhead_to_gps grid = Some (lat, lon) ->
  digit_at grid 2 = true -> digit_at grid 3 = true -> (length grid < 8)%nat ->
  let centre := if (length grid <? 6)%nat then (0.5, 1.0) else (0, 0) in
  maidenhead_to_latlon grid
  = Some (round6 (lat - centre.1 + 1.25 / 60), round6 (lon - centre.2 + 1 / 60)).
Proof.
  intros _.
  destruct grid as [|c0 [|c1 [|c2 [|c3 rest]]]]; try discriminate.
  unfold digit_at. cbn [lookup list_lookup]. intros Hgps H2 H3 Hlen. cbn zeta.
  revert Hgps. unfold maidenhead_to_gps, maidenhead_to_latlon, index, upper.
  cbn [length Nat.ltb Nat.leb map lookup list_lookup mbind option_bind].
  rewrite !int_of_char_digit, !is_digit_upper_char, H2, H3.
  cbn [mbind option_bind].
  assert (upper_char c2 = c2 /\ upper_char c3 = c3) as [E2 E3].
  { unfold is_digit in H2, H3. unfold upper_char.
    apply andb_true_iff in H2 as [_ H2]. apply andb_true_iff in H3 as [_ H3].
    apply N.leb_le in H2, H3.
    assert ((97 <=? c2)%N = false) as -> by (apply N.leb_gt; lia).
    assert ((97 <=? c3)%N = false) as -> by (apply N.leb_gt; lia).
    split; reflexivity. }
  rewrite E2, E3.
  destruct rest as [|c4 [|c5 [|c6 [|c7 rest]]]];
    cbn [length Nat.ltb Nat.leb map lookup list_lookup mbind option_bind] in Hlen |- *;
    try (exfalso; lia);
    intros [= <- <-]; cbn [fst snd]; f_equal; f_equal; apply round6_Qeq;
    unfold ord, ord_A, ord_0, Z.sub;
    repeat (rewrite inject_Z_plus || rewrite inject_Z_mult || rewrite inject_Z_opp);
    unfold inject_Z; first [ ring | field | lra ].
Qed.

Lemma geocoders_same_corner_witness :
  maidenhead_to_latlon (lit "JN88ee")
  = Some (round6 (48 + 4 * (1.0 / 24.0) - 0 + 1.25 / 60),
          round6 (16 + 4 * (2.0 / 24.0) - 0 + 1 / 60)).
Proof.
  apply (geocoders_same_corner (lit "JN88ee"));
    first [ reflexivity | cbn; lia | repeat constructor ].
Defined.

(** For a locator with field letters A-R, square digits and, when it has
    them, subsquare letters A-X, in either case, [maidenhead_to_gps]
    returns a latitude from -90 to below 90 and a longitude from -180 to
    below 180. *)
Theorem maidenhead_to_gps_range (c0 c1 c2 c3 : char) (rest : str) (lat lon : Q) :
  maidenhead_to_gps (c0 :: c1 :: c2 :: c3 :: rest) = Some (lat, lon) ->
  in_range 65 82 (upper_char c0) = true -> in_range 65 82 (upper_char c1) = true ->
  is_digit c2 = true -> is_digit c3 = true ->
  Forall (fun c => in_range 65 88 (upper_char c) = true) (take 2 rest) ->
  (-90 <= lat /\ lat < 90) /\ (-180 <= lon /\ lon < 180).
Proof.
  intros Hgps H0 H1 H2 H3 Hsub. revert Hgps.
  unfold maidenhead_to_gps, index, upper.
  cbn [length Nat.ltb Nat.leb map lookup list_lookup mbind option_bind].
  assert (upper_char c2 = c2 /\ upper_char c3 = c3) as [E2 E3].
  { unfold is_digit in H2, H3. unfold upper_char.
    apply andb_true_iff in H2 as [_ H2']. apply andb_true_iff in H3 as [_ H3'].
    apply N.leb_le in H2', H3'.
    assert ((97 <=? c2)%N = false) as -> by (apply N.leb_gt; lia).
    assert ((97 <=? c3)%N = false) as -> by (apply N.leb_gt; lia).
    split; reflexivity. }
  rewrite E2, E3.
  unfold in_range, is_digit in *.
  apply andb_true_iff in H0 as [H0a H0b]. apply andb_true_iff in H1 as [H1a H1b].
  apply andb_true_iff in H2 as [H2a H2b]. apply andb_true_iff in H3 as [H3a H3b].
  apply N.leb_le in H0a, H0b, H1a, H1b, H2a, H2b, H3a, H3b.
  unfold ord, ord_A, ord_0.
  generalize dependent (upper_char c0). generalize dependent (upper_char c1).
  intros u1 H1a H1b u0 H0a H0b.
  destruct rest as [|c4 [|c5 rest]];
    cbn [length Nat.ltb Nat.leb map lookup list_lookup mbind option_bind take] in Hsub |- *.
  1, 2: intros [= <- <-]; unfold Qle, Qlt, Qplus, Qmult, inject_Z; cbn; lia.
  apply Forall_cons in Hsub as [H4 Hsub]. apply Forall_cons in Hsub as [H5 _].
  apply andb_true_iff in H4 as [H4a H4b]. apply andb_true_iff in H5 as [H5a H5b].
  apply N.leb_le in H4a, H4b, H5a, H5b.
  generalize dependent (upper_char c4). generalize dependent (upper_char c5).
  intros u5 H5a H5b u4 H4a H4b.
  intros [= <- <-]. unfold Qle, Qlt, Qplus, Qmult, Qdiv, Qinv, inject_Z; cbn; lia.
Qed.

Lemma maidenhead_to_gps_range_witness :
  (-90 <= 48 + 4 * (1.0 / 24.0) /\ 48 + 4 * (1.0 / 24.0) < 90) /\
  (-180 <= 16 + 4 * (2.0 / 24.0) /\ 16 + 4 * (2.0 / 24.0) < 180).
Proof.
  apply (maidenhead_to_gps_range 106%N 110%N 56%N 56%N (lit "ee"));
    first [ reflexivity | repeat constructor ].
Defined.

End GeocodersCompared.

(** ** POTA parks *)

(** Rewriting with an equation on texts, whatever name the character type
    is written with. *)
Ltac rewrite_text H :=
  let E := fresh "E" in
  pose proof H as E; unfold PyStr.char in *; rewrite E; clear E.

Section SplitFacts.
Import PyStr PyStrMore.

Lemma partition_char_shorter (sep : char) (s head rest : str) :
  partition_char sep s = (head, Some rest) -> length rest < length s.
Proof.
  revert head. induction s as [|x s IH]; intros head; cbn [partition_char].
  - discriminate.
  - destruct (x =? sep)%N.
    + intros [= <- <-]. cbn [length]. lia.
    + destruct (partition_char sep s) as [h r]. intros [= <- ->].
      specialize (IH h eq_refl). cbn [length]. lia.
Qed.

(** More fuel than the length of the text changes nothing. *)
Lemma split_from_fuel (sep : char) (fuel1 fuel2 : nat) (s : str) :
  length s <= fuel1 -> length s <= fuel2 -> split_from fuel1 sep s = split_from fuel2 sep s.
Proof.
  revert fuel2 s. induction fuel1 as [|fuel1 IH]; intros fuel2 s H1 H2.
  - destruct s; [| cbn [length] in H1; lia ].
    destruct fuel2; reflexivity.
  - destruct fuel2 as [|fuel2].
    + destruct s; [ reflexivity | cbn [length] in H2; lia ].
    + cbn [split_from]. destruct (partition_char sep s) as [h [rest|]] eqn:E; [| reflexivity ].
      apply partition_char_shorter in E. f_equal. apply IH; lia.
Qed.

Lemma partition_char_absent (sep : char) (s : str) :
  sep ∉ s -> partition_char sep s = (s, None).
Proof.
  induction s as [|x s IH]; intros H; [ reflexivity |].
  apply not_elem_of_cons in H as [Hx Hs]. cbn [partition_char].
  assert ((x =? sep)%N = false) as -> by (apply N.eqb_neq; congruence).
  rewrite (IH Hs). reflexivity.
Qed.

Lemma partition_char_first (sep : char) (head rest : str) :
  sep ∉ head -> partition_char sep (head ++ sep :: rest) = (head, Some rest).
Proof.
  induction head as [|x head IH]; intros H; cbn [app partition_char].
  - rewrite N.eqb_refl. reflexivity.
  - apply not_elem_of_cons in H as [Hx Hs].
    assert ((x =? sep)%N = false) as -> by (apply N.eqb_neq; congruence).
    rewrite (IH Hs). reflexivity.
Qed.

Lemma split_absent (sep : char) (s : str) : sep ∉ s -> split sep s = [s].
Proof.
  intros H. unfold split. destruct (length s) eqn:E.
  - reflexivity.
  - cbn [split_from]. rewrite (partition_char_absent sep s H). reflexivity.
Qed.

(** Splitting at the first separator. *)
Lemma split_first (sep : char) (head rest : str) :
  sep ∉ head -> split sep (head ++ sep :: rest) = head :: split sep rest.
Proof.
  intros H. unfold split. rewrite length_app. cbn [length].
  replace (length head + S (length rest)) with (S (length head + length rest)) by lia.
  cbn [split_from]. rewrite (partition_char_first sep head rest H). f_equal.
  apply split_from_fuel; lia.
Qed.

Lemma contains_char (c : char) (s : str) : contains [c] s = true <-> c ∈ s.
Proof.
  induction s as [|x s IH]; cbn [contains starts_with].
  - split; [ discriminate | intros H; apply elem_of_nil in H; contradiction ].
  - rewrite orb_true_iff, andb_true_r, IH, elem_of_cons, N.eqb_eq. tauto.
Qed.

(** A text that has the separator splits at its first occurrence. *)
Lemma elem_of_split (sep : char) (s : str) :
  sep ∈ s -> exists head rest, (sep ∉ head) /\ s = head ++ sep :: rest.
Proof.
  induction s as [|x s IH]; intros H; [ apply elem_of_nil in H; contradiction |].
  destruct (decide (x = sep)) as [-> | Hne].
  - exists [], s. split; [ apply not_elem_of_nil | reflexivity ].
  - apply elem_of_cons in H as [-> | H]; [ congruence |].
    destruct (IH H) as (head & rest & Hh & ->).
    exists (x :: head), rest. split; [| reflexivity ].
    apply not_elem_of_cons. split; [ congruence | exact Hh ].
Qed.

Lemma split_nonempty (sep : char) (s : str) : exists p ps, split sep s = p :: ps.
Proof.
  unfold split. destruct (length s); cbn [split_from]; [ eauto |].
  destruct (partition_char sep s) as [h [r|]]; eauto.
Qed.

(** The last piece is what follows the last separator. *)
Lemma split_last (sep : char) (s tail : str) :
  sep ∉ tail -> last (split sep (s ++ sep :: tail)) = Some tail.
Proof.
  intros Htail. remember (length s) as n eqn:Hn. revert s Hn.
  induction n as [n IH] using lt_wf_ind. intros s Hn.
  destruct (decide (sep ∈ s)) as [Hin | Hout].
  - destruct (elem_of_split sep s Hin) as (h & rest & Hh & ->).
    rewrite <- app_assoc. cbn [app].
    rewrite_text (split_first sep h (rest ++ sep :: tail) Hh).
    destruct (split_nonempty sep (rest ++ sep :: tail)) as (p & ps & Hs).
    rewrite Hs. change (last (h :: p :: ps)) with (last (p :: ps)). rewrite <- Hs.
    apply (IH (length rest)); [| reflexivity ].
    rewrite Hn, length_app. cbn [length]. lia.
  - rewrite (split_first sep s tail Hout), (split_absent sep tail Htail). reflexivity.
Qed.

Lemma lstrip_char_head (c : char) (s : str) : head (lstrip_char c s) <> Some c.
Proof.
  induction s as [|x s IH]; cbn [lstrip_char]; [ discriminate |].
  destruct (N.eqb_spec x c) as [-> | Hne]; [ exact IH |].
  cbn [head]. congruence.
Qed.

End SplitFacts.

Section PotaParksFacts.
Import PyStr PyStrMore TextNormalizer GridGeocoder PotaParks.
Local Open Scope Q_scope.

Lemma falsy_Some (q : Q) : falsy (Some q) = false <-> ~ q == 0.
Proof.
  cbn [falsy]. split.
  - intros H E. apply Qeq_bool_iff in E. congruence.
  - intros H. destruct (Qeq_bool q 0) eqn:E; [| reflexivity ].
    apply Qeq_bool_iff in E. contradiction.
Qed.

Lemma falsy_or_zero (x y : json_number) :
  falsy x || falsy y || is_zero x || is_zero y = falsy x || falsy y.
Proof.
  destruct x as [p|], y as [q|]; cbn [falsy is_zero orb]; try reflexivity.
  - destruct (Qeq_bool p 0), (Qeq_bool q 0); reflexivity.
  - rewrite !orb_true_r. reflexivity.
Qed.

(** The two tests of the source without their repeated halves. *)
Lemma resolve_coordinates_eq (lat lon : json_number) (grid : str) :
  resolve_coordinates lat lon grid =
  let final :=
    match grid with
    | _ :: _ =>
        if falsy lat || falsy lon then
          match maidenhead_to_latlon grid with
          | Some (grid_lat, grid_lon) =>
              if negb (Qeq_bool grid_lat 0) && negb (Qeq_bool grid_lon 0)
              then (Some grid_lat, Some grid_lon)
              else (lat, lon)
          | None => (lat, lon)
          end
        else (lat, lon)
    | [] => (lat, lon)
    end in
  if falsy final.1 || falsy final.2 then None else Some final.
Proof.
  unfold resolve_coordinates. cbn zeta. rewrite !falsy_or_zero. reflexivity.
Qed.

(** Coordinates a park record provides are kept whenever both are present
    and not zero, whatever its grid; when one is missing or zero and the
    grid converts to a pair without a zero, both are taken from the grid;
    when the grid is empty or does not convert, the park is skipped; a
    stored pair never has a missing or zero coordinate. *)
Theorem resolve_coordinates_cases (lat lon : json_number) (grid : str) :
  (forall a b, lat = Some a -> lon = Some b -> ~ a == 0 -> ~ b == 0 ->
     resolve_coordinates lat lon grid = Some (Some a, Some b)) /\
  (falsy lat = true \/ falsy lon = true ->
   (forall grid_lat grid_lon, grid <> [] ->
      maidenhead_to_latlon grid = Some (grid_lat, grid_lon) ->
      ~ grid_lat == 0 -> ~ grid_lon == 0 ->
      resolve_coordinates lat lon grid = Some (Some grid_lat, Some grid_lon)) /\
   (grid = [] \/ maidenhead_to_latlon grid = None ->
      resolve_coordinates lat lon grid = None)) /\
  (forall p, resolve_coordinates lat lon grid = Some p ->
     exists a b, p = (Some a, Some b) /\ ~ a == 0 /\ ~ b == 0).
Proof.
  rewrite resolve_coordinates_eq. cbn zeta. split; [| split ].
  - intros a b -> -> Ha Hb. apply falsy_Some in Ha, Hb. rewrite Ha, Hb. cbn [orb].
    destruct grid; cbn [fst snd]; rewrite Ha, Hb; reflexivity.
  - intros Hmissing.
    assert (falsy lat || falsy lon = true) as Hm.
    { apply orb_true_iff. exact Hmissing. }
    rewrite Hm. split.
    + intros grid_lat grid_lon Hgrid Hg Hlat Hlon.
      destruct grid as [|c grid]; [ congruence |]. rewrite Hg.
      apply falsy_Some in Hlat, Hlon. cbn [falsy] in Hlat, Hlon.
      rewrite Hlat, Hlon. cbn [negb andb fst snd falsy].
      rewrite Hlat, Hlon. reflexivity.
    + intros [-> | Hg].
      * cbn [fst snd]. rewrite Hm. reflexivity.
      * rewrite Hg. destruct grid; cbn [fst snd]; rewrite Hm; reflexivity.
  - intros p.
    match goal with
    | |- context [if falsy (fst ?f) || _ then _ else _] => generalize f
    end.
    intros [x y]. cbn [fst snd].
    destruct x as [a|], y as [b|]; cbn [falsy orb];
      try (rewrite ?orb_true_r; discriminate).
    destruct (Qeq_bool a 0) eqn:Ea; [ discriminate |].
    destruct (Qeq_bool b 0) eqn:Eb; [ discriminate |].
    cbn [orb]. intros [= <-]. exists a, b.
    repeat split; intros E; apply Qeq_bool_iff in E; congruence.
Qed.

Lemma park_number_Some (park_ref : str) : is_Some (park_number park_ref).
Proof.
  unfold park_number, has_dash. destruct (contains [dash] park_ref) eqn:E; [| eauto ].
  apply contains_char in E. destruct (elem_of_split dash park_ref E) as (h & rest & Hh & ->).
  rewrite_text (split_first dash h rest Hh).
  destruct (split_nonempty dash rest) as (p & ps & ->). cbn. eauto.
Qed.

(** The park number of a reference without a dash is the reference; that
    of a reference with dashes is the text between the first and the
    second dash without its leading zeros - empty when it is all zeros;
    the lookup never fails. *)
Theorem park_number_shape (park_ref : str) :
  is_Some (park_number park_ref) /\
  (dash ∉ park_ref -> park_number park_ref = Some park_ref) /\
  (forall prefix number rest,
     park_ref = prefix ++ dash :: number ++ rest ->
     dash ∉ prefix -> dash ∉ number -> rest = [] \/ head rest = Some dash ->
     park_number park_ref = Some (lstrip_char 48%N number) /\
     head (lstrip_char 48%N number) <> Some 48%N).
Proof.
  split; [ apply park_number_Some |]. split.
  - intros H. unfold park_number, has_dash.
    destruct (contains [dash] park_ref) eqn:E; [| reflexivity ].
    apply contains_char in E. contradiction.
  - intros prefix number rest -> Hp Hn Hrest.
    split; [| apply lstrip_char_head ].
    unfold park_number, has_dash.
    assert (contains [dash] (prefix ++ dash :: number ++ rest) = true) as ->.
    { apply contains_char. apply elem_of_app. right. left. }
    rewrite_text (split_first dash prefix (number ++ rest) Hp).
    destruct Hrest as [-> | Hrest].
    + rewrite app_nil_r, (split_absent dash number Hn). reflexivity.
    + destruct rest as [|x rest]; [ discriminate Hrest |].
      injection Hrest as ->. rewrite_text (split_first dash number rest Hn). reflexivity.
Qed.

(** A park of a location becomes a waypoint exactly when the location's
    country prefix is AT, SK or SG, the park has a reference and a name,
    and its grid has at least four characters; the waypoint carries what
    [maidenhead_to_gps] returns for the grid and the group of the prefix,
    and its name is the park number, a blank and the converted park name,
    or the first 47 characters of the converted name and three dots when
    that has more than 50. *)
Theorem gps_entry_of_park_written (current_date descriptor reference name grid : str) :
  (is_Some (gps_entry_of_park current_date descriptor reference name grid) <->
   is_Some (group_map (default [] (head (split dash descriptor)))) /\
   reference <> [] /\ name <> [] /\ (4 <= length grid)%nat) /\
  (forall e, gps_entry_of_park current_date descriptor reference name grid = Some e ->
     maidenhead_to_gps grid = Some (gps_latitude e, gps_longitude e) /\
     group_map (default [] (head (split dash descriptor))) =
       Some (gps_group e, gps_group_name e) /\
     exists number,
       park_number reference = Some number /\
       ((length (convert_umlauts_api name) <= 50)%nat ->
        gps_name e = number ++ lit " " ++ convert_umlauts_api name) /\
       ((50 < length (convert_umlauts_api name))%nat ->
        gps_name e = number ++ lit " " ++ take 47 (convert_umlauts_api name) ++ lit "...") /\
       (length (gps_name e) <= length number + 51)%nat).
Proof.
  unfold gps_entry_of_park.
  destruct (group_map (default [] (head (split dash descriptor)))) as [[g gn]|];
    cbn [mbind option_bind];
    [| split; [ split; [ intros [? ?]; discriminate
                       | intros ([? ?] & _); discriminate ]
              | discriminate ] ].
  destruct (park_number_Some reference) as [number Hnumber]. rewrite Hnumber.
  generalize (convert_umlauts_api name). intros clean_name.
  destruct reference as [|r0 reference], name as [|n0 name], grid as [|c0 grid];
    try (split; [ split; [ intros [? ?]; discriminate
                         | intros (_ & ? & ? & ?); cbn [length] in *;
                           first [ congruence | lia ] ]
                | discriminate ]).
  destruct (maidenhead_to_gps (c0 :: grid)) as [[lat lon]|] eqn:Eg; cbn [mbind option_bind].
  - split.
    + split; [| eauto ]. intros _.
      repeat split; eauto; try discriminate.
      destruct (Nat.lt_ge_cases (length (c0 :: grid)) 4) as [Hshort | Hlong]; [| exact Hlong ].
      apply maidenhead_to_gps_None in Hshort. congruence.
    + intros e [= <-]. cbn [gps_latitude gps_longitude gps_group gps_group_name gps_name].
      split; [ reflexivity |]. split; [ reflexivity |].
      exists number. split; [ reflexivity |].
      destruct (Nat.ltb_spec 50 (length clean_name)) as [Hlong | Hshort].
      * split; [ intros H; lia |]. split; [ intros _; reflexivity |].
        cbv iota. rewrite length_app. cbn [length].
        rewrite length_app, length_take. cbn [length]. lia.
      * split; [ intros _; reflexivity |]. split; [ intros H; lia |].
        cbv iota. rewrite length_app. cbn [length]. lia.
  - split; [| discriminate ].
    apply maidenhead_to_gps_None in Eg.
    split; [ intros [? ?]; discriminate | intros (_ & _ & _ & ?); lia ].
Qed.

(** The name shown for a park has at most 50 characters and is the park
    number, a blank and the name when those fit; the park number is what
    follows the last dash of the reference without its leading zeros, and
    "0" when nothing is left, so it is never empty. *)
Theorem display_name_shape (ref clean_name : str) :
  (length (display_name ref clean_name) <= 50)%nat /\
  ((length (park_number_or_zero ref ++ lit " " ++ clean_name) <= 50)%nat ->
   display_name ref clean_name = park_number_or_zero ref ++ lit " " ++ clean_name) /\
  park_number_or_zero ref <> [] /\
  (forall prefix number,
     ref = prefix ++ dash :: number -> dash ∉ number ->
     park_number_or_zero ref =
       match lstrip_char 48%N number with
       | [] => lit "0"
       | digits => digits
       end).
Proof.
  unfold display_name. split; [| split; [| split ] ].
  - destruct (Nat.ltb_spec 50 (length (park_number_or_zero ref ++ lit " " ++ clean_name)));
      [| lia ].
    rewrite length_app, length_take. cbn [length lit]. lia.
  - intros H.
    destruct (Nat.ltb_spec 50 (length (park_number_or_zero ref ++ lit " " ++ clean_name)));
      [ lia | reflexivity ].
  - unfold park_number_or_zero.
    destruct (if has_dash ref then _ else _); discriminate.
  - intros prefix number -> Hn. unfold park_number_or_zero, has_dash.
    assert (contains [dash] (prefix ++ dash :: number) = true) as ->.
    { apply contains_char. apply elem_of_app. right. left. }
    rewrite_text (split_last dash prefix number Hn). cbn [default from_option id]. unfold id.
    destruct (lstrip_char 48%N number); reflexivity.
Qed.

End PotaParksFacts.

(** ** Loops that can stop *)

Section PyFacts.
Import PyStr PyFloat Csv Py.

Lemma for_each_app {St A : Type} (body : A -> prog St ()) (xs ys : list A) (s : St) :
  for_each body (xs ++ ys) s =
  match for_each body xs s with
  | Done _ s' => for_each body ys s'
  | Raised e s' => Raised e s'
  end.
Proof.
  revert s. induction xs as [|x xs IH]; intros s; [ reflexivity |].
  cbn [app for_each]. unfold mbind, prog_bind.
  destruct (body x s) as [[] s'|e s']; [ apply IH | reflexivity ].
Qed.

Lemma for_each_cons {St A : Type} (body : A -> prog St ()) (x : A) (xs : list A) (s : St) :
  for_each body (x :: xs) s =
  match body x s with
  | Done _ s' => for_each body xs s'
  | Raised e s' => Raised e s'
  end.
Proof. cbn [for_each]. unfold mbind, prog_bind. destruct (body x s) as [[] s'|e s']; reflexivity. Qed.

Lemma cells_of_row (r : row) (k : string) : cells (of_row r) !! k = Some <$> r !! k.
Proof. apply lookup_fmap. Qed.

Lemma get_of_row (r : row) (k : string) (d : str) :
  Py.get (of_row r) k (VStr d) = VStr (Csv.get r k d).
Proof.
  unfold Py.get, Csv.get. rewrite cells_of_row. destruct (r !! k); reflexivity.
Qed.

Lemma dict_of_row (r : row) : dict_of (of_row r) = of_cell <$> (Text <$> r).
Proof.
  unfold dict_of, of_row. cbn [cells]. rewrite <- !map_fmap_compose.
  apply map_fmap_ext. reflexivity.
Qed.

End PyFacts.

(** ** Frequency repair over any file *)

Section FixFrequencyBandsLinesFacts.
Import PyStr PyFloat Csv BandPlan Py FixFrequencyBandsLines.
Variable float_of_str : str -> option float.

Local Abbreviation iteration := (FixFrequencyBandsLines.iteration float_of_str).
Local Abbreviation frequency_of := (FixFrequencyBandsLines.frequency_of float_of_str).
Local Abbreviation written_for := (FixFrequencyBandsLines.written_for float_of_str).
Local Abbreviation counts_as_fixed := (FixFrequencyBandsLines.counts_as_fixed float_of_str).

(** A line that passes adds one row. *)
Lemma iteration_passes (l : line) (st : state) :
  passes l ->
  exists r, iteration l st =
            Done () {| row := r;
                       out_rows := out_rows st ++ [written_for l];
                       fixed_count := fixed_count st
                                      + (if counts_as_fixed l then 1 else 0) |}.
Proof.
  intros [Hcell Hrest].
  unfold FixFrequencyBandsLines.iteration, FixFrequencyBandsLines.written_for,
    FixFrequencyBandsLines.counts_as_fixed, FixFrequencyBandsLines.frequency_of.
  unfold mbind, prog_bind, try_except, modify, lift, getitem, writerow, refused, mret,
    prog_ret, result_bind. cbn [row out_rows fixed_count].
  rewrite Hrest.
  destruct (cells l !! "Frequency") as [[t|]|] eqn:Ec; [| congruence |].
  - cbn [option_bind of_text float_of].
    destruct (float_of_str t) as [f|]; cbn [catches existsb exn_eqb orb].
    + destruct (f =? repair f)%float; cbn [negb row out_rows fixed_count];
        rewrite ?Nat.add_0_r, ?Nat.add_1_r; eexists; reflexivity.
    + rewrite Nat.add_0_r. eexists. reflexivity.
  - cbn [option_bind catches existsb exn_eqb orb row out_rows fixed_count].
    rewrite Nat.add_0_r. eexists. reflexivity.
Qed.

(** A line that ends before its [Frequency] cell stops the run with
    [TypeError]; any other line with more cells than the header stops
    it with [ValueError].  Nothing is written for it. *)
Lemma iteration_stops (l : line) (st : state) :
  ~ passes l ->
  exists st', iteration l st =
              Raised (match cells l !! "Frequency" with
                      | Some None => TypeError
                      | _ => ValueError
                      end) st'
              /\ out_rows st' = out_rows st.
Proof.
  intros Hnot.
  unfold FixFrequencyBandsLines.iteration.
  unfold mbind, prog_bind, try_except, modify, lift, getitem, writerow, refused, mret,
    prog_ret, result_bind. cbn [row out_rows fixed_count].
  destruct (cells l !! "Frequency") as [[t|]|] eqn:Ec.
  - assert (rest l <> []) as Hrest.
    { intros E. apply Hnot. split; [ rewrite Ec; discriminate | exact E ]. }
    destruct (rest l) as [|x xs]; [ congruence |].
    cbn [of_text float_of].
    destruct (float_of_str t) as [f|]; cbn [catches existsb exn_eqb orb].
    + destruct (f =? repair f)%float; cbn [catches existsb exn_eqb orb];
        eexists; split; reflexivity.
    + eexists; split; reflexivity.
  - cbn [of_text float_of catches existsb exn_eqb orb].
    eexists; split; reflexivity.
  - assert (rest l <> []) as Hrest.
    { intros E. apply Hnot. split; [ rewrite Ec; discriminate | exact E ]. }
    destruct (rest l) as [|x xs]; [ congruence |].
    cbn [catches existsb exn_eqb orb]. eexists; split; reflexivity.
Qed.

Lemma for_each_passes (lines : list line) (st : state) :
  Forall passes lines ->
  exists r, for_each iteration lines st =
            Done () {| row := r;
                       out_rows := out_rows st ++ map written_for lines;
                       fixed_count :=
                         fixed_count st
                         + length (filter (fun l => counts_as_fixed l = true) lines) |}.
Proof.
  intros H. revert st. induction H as [|l lines Hl _ IH]; intros st.
  - exists (row st). cbn. rewrite app_nil_r, Nat.add_0_r. destruct st; reflexivity.
  - rewrite for_each_cons. destruct (iteration_passes l st Hl) as [r ->].
    destruct (IH {| row := r; out_rows := out_rows st ++ [written_for l];
                    fixed_count := fixed_count st + (if counts_as_fixed l then 1 else 0) |})
      as [r' ->].
    exists r'. cbn [row out_rows fixed_count map]. rewrite <- app_assoc. cbn [app].
    rewrite filter_cons.
    destruct (counts_as_fixed l);
      [ rewrite decide_True by reflexivity | rewrite decide_False by discriminate ];
      cbn [length]; f_equal; f_equal; lia.
Qed.

Lemma passes_dec (l : line) : {passes l} + {~ passes l}.
Proof.
  unfold passes.
  destruct (cells l !! "Frequency") as [[t|]|], (rest l) as [|x xs];
    first [ left; split; [ discriminate | reflexivity ]
          | right; intros [H1 H2]; first [ discriminate H2 | apply H1; reflexivity ] ].
Qed.

(** The run over a file: every line passes and the function returns, or
    the run stops at the first line that does not. *)
Lemma fix_frequency_bands_passes (lines : list line) :
  Forall passes lines ->
  fix_frequency_bands float_of_str lines
  = Returned (map written_for lines)
             (length (filter (fun l => counts_as_fixed l = true) lines)).
Proof.
  intros H. unfold fix_frequency_bands.
  destruct (for_each_passes lines {| row := ∅; out_rows := []; fixed_count := 0 |} H)
    as [r ->].
  reflexivity.
Qed.

Lemma fix_frequency_bands_stops (before after : list line) (l : line) :
  Forall passes before -> ~ passes l ->
  fix_frequency_bands float_of_str (before ++ l :: after)
  = Aborted (map written_for before)
            (match cells l !! "Frequency" with
             | Some None => TypeError
             | _ => ValueError
             end).
Proof.
  intros Hb Hl. unfold fix_frequency_bands. rewrite for_each_app.
  destruct (for_each_passes before {| row := ∅; out_rows := []; fixed_count := 0 |} Hb)
    as [r ->].
  rewrite for_each_cons.
  match goal with
  | |- context [FixFrequencyBandsLines.iteration _ l ?s] =>
      destruct (iteration_stops l s Hl) as (st' & -> & Hout)
  end.
  rewrite Hout. reflexivity.
Qed.

Lemma fix_frequency_bands_lines_from (lines : list line) (st : state) :
  match for_each iteration lines st with
  | Done _ st' => Returned (out_rows st') (fixed_count st')
  | Raised e st' => Aborted (out_rows st') e
  end
  = continued (out_rows st) (fixed_count st) (fix_frequency_bands float_of_str lines).
Proof.
  revert st. induction lines as [|l lines IH]; intros st.
  - cbn. rewrite app_nil_r, Nat.add_0_r. reflexivity.
  - unfold fix_frequency_bands. rewrite !for_each_cons.
    destruct (passes_dec l) as [Hl | Hl].
    + destruct (iteration_passes l st Hl) as [r ->].
      destruct (iteration_passes l {| row := ∅; out_rows := []; fixed_count := 0 |} Hl)
        as [r0 ->].
      rewrite !IH. cbn [out_rows fixed_count app Nat.add].
      destruct (fix_frequency_bands float_of_str lines) as [w n|w e];
        cbn [continued]; rewrite <- ?app_assoc; cbn [app]; f_equal; lia.
    + destruct (iteration_stops l st Hl) as (st1 & -> & H1).
      destruct (iteration_stops l {| row := ∅; out_rows := []; fixed_count := 0 |} Hl)
        as (st0 & -> & H0).
      rewrite H1, H0. cbn [out_rows continued]. rewrite app_nil_r. reflexivity.
Qed.

(** A run over two parts of a file is the run over the first part
    continued by the run over the second. *)
Lemma fix_frequency_bands_app (xs ys : list line) :
  fix_frequency_bands float_of_str (xs ++ ys)
  = match fix_frequency_bands float_of_str xs with
    | Returned w n => continued w n (fix_frequency_bands float_of_str ys)
    | Aborted w e => Aborted w e
    end.
Proof.
  unfold fix_frequency_bands at 1 2. rewrite for_each_app.
  destruct (for_each iteration xs _) as [[] st|e st]; [| reflexivity ].
  apply fix_frequency_bands_lines_from.
Qed.

End FixFrequencyBandsLinesFacts.

(** ** FM projector over any file *)

Section FmExportLinesFacts.
Import PyStr PyFloat Csv Py FmExportLines.
Variable float_of_str : str -> option float.
Variable str_of_float : float -> str.
Variable lower : str -> str.
Variable group_number : Z.
Variable group_name : str.
Variable country_filter : option str.

Local Abbreviation convert_line :=
  (FmExportLines.convert_line float_of_str str_of_float lower
     group_number group_name country_filter).
Local Abbreviation fm_iteration :=
  (FmExportLines.iteration float_of_str str_of_float lower
     group_number group_name country_filter).
Local Abbreviation convert_lines :=
  (FmExportLines.convert_mcp_to_icom_fm_format float_of_str str_of_float lower
     group_number group_name country_filter).

(** One iteration, by what the body computes. *)
Lemma fm_iteration_eq (l : line) (out : output icom_row) :
  fm_iteration l out =
  match convert_line l with
  | Ok (Some o) => Done () (writerow out o)
  | Ok None => Done () out
  | Raise e => if catches [ValueError; KeyError] e then Done () out else Raised e out
  end.
Proof.
  unfold FmExportLines.iteration, try_except, mbind, prog_bind, lift.
  destruct convert_line as [[o|]|e]; reflexivity.
Qed.

Lemma convert_lines_from (lines : list line) (out : output icom_row) :
  match for_each fm_iteration lines out with
  | Done _ out' => Returned (written out') (processed_count out')
  | Raised e out' => Aborted (written out') e
  end
  = continued (written out) (processed_count out) (convert_lines lines).
Proof.
  revert out. induction lines as [|l lines IH]; intros out.
  - cbn. rewrite app_nil_r, Nat.add_0_r. reflexivity.
  - unfold convert_mcp_to_icom_fm_format. rewrite !for_each_cons, !fm_iteration_eq.
    destruct (convert_line l) as [[o|]|e].
    + rewrite !IH. cbn [writerow written processed_count no_output app].
      destruct (convert_lines lines) as [w n|w e];
        cbn [continued]; rewrite <- ?app_assoc; cbn [app]; f_equal; lia.
    + rewrite !IH. cbn [written processed_count no_output app Nat.add].
      destruct (convert_lines lines) as [w n|w e]; reflexivity.
    + destruct (catches [ValueError; KeyError] e).
      * rewrite !IH. cbn [written processed_count no_output app Nat.add].
        destruct (convert_lines lines) as [w n|w e']; reflexivity.
      * cbn [written no_output continued]. rewrite app_nil_r. reflexivity.
Qed.

Lemma convert_lines_app (xs ys : list line) :
  convert_lines (xs ++ ys)
  = match convert_lines xs with
    | Returned w n => continued w n (convert_lines ys)
    | Aborted w e => Aborted w e
    end.
Proof.
  unfold convert_mcp_to_icom_fm_format at 1 2. rewrite for_each_app.
  destruct (for_each fm_iteration xs _) as [[] out|e out]; [| reflexivity ].
  apply convert_lines_from.
Qed.

(** The run over one line. *)
Lemma convert_lines_one (l : line) :
  convert_lines [l] =
  match convert_line l with
  | Ok (Some o) => Returned [o] 1
  | Ok None => Returned [] 0
  | Raise e => if catches [ValueError; KeyError] e then Returned [] 0 else Aborted [] e
  end.
Proof.
  unfold convert_mcp_to_icom_fm_format. rewrite for_each_cons, fm_iteration_eq.
  destruct (convert_line l) as [[o|]|e]; try reflexivity.
  destruct (catches [ValueError; KeyError] e); reflexivity.
Qed.

End FmExportLinesFacts.


(** ** FM projector: what a line becomes *)

Section FmLineFacts.
Import PyStr PyFloat Csv Py FmExportLines.
Variable float_of_str : str -> option float.
Variable str_of_float : float -> str.
Variable lower : str -> str.
Variable group_number : Z.
Variable group_name : str.
Variable country_filter : option str.

Local Abbreviation convert_line :=
  (FmExportLines.convert_line float_of_str str_of_float lower
     group_number group_name country_filter).
Local Abbreviation convert_lines :=
  (FmExportLines.convert_mcp_to_icom_fm_format float_of_str str_of_float lower
     group_number group_name country_filter).

(** The country test of line 33, by the cell. *)
Lemma country_test (l : line) :
  FmExport.truthy country_filter
  && negb (eq_text (Py.get l "country" (VStr [])) (default [] country_filter)) = false
  <-> FmExport.truthy country_filter = false \/ cells l !! "country" = Some country_filter.
Proof.
  unfold FmExport.truthy, Py.get, eq_text, str_eqb.
  destruct country_filter as [[|c f]|]; cbn [andb default from_option id];
    try (split; [ left; reflexivity | reflexivity ]).
  destruct (cells l !! "country") as [[s|]|]; cbn [of_text negb].
  - case_bool_decide as E; cbn [negb].
    + subst s. split; [ right; reflexivity | reflexivity ].
    + split; [ discriminate | intros [H | H]; [ discriminate H | congruence ] ].
  - split; [ discriminate | intros [H | H]; discriminate H ].
  - case_bool_decide as E; [ discriminate E |]. cbn [negb].
    split; [ discriminate | intros [H | H]; discriminate H ].
Qed.

(** The frequency expression of line 41, by the cells. *)
Lemma frequency_value (l : line) :
  Py.get l "freq_rx" (Py.get l "freq_tx" (VInt 0)) =
  match cells l !! "freq_rx" with
  | Some v => of_text v
  | None => match cells l !! "freq_tx" with
            | Some v => of_text v
            | None => VInt 0
            end
  end.
Proof. reflexivity. Qed.

(** [duplex], [ctcss] and [coordinates]: the only exception that leaves
    them is the [TypeError] of an offset cell that is [None]. *)
Lemma duplex_cases (l : line) :
  FmExportLines.duplex float_of_str l =
  match cells l !! "offset" with
  | Some None => Raise TypeError
  | Some (Some t) =>
      match float_of_str t with
      | Some x =>
          if eq_text (Py.get l "dup" (VStr [])) (lit "+") then Ok (lit "DUP+", Float x)
          else if eq_text (Py.get l "dup" (VStr [])) (lit "-") then Ok (lit "DUP-", Float x)
          else Ok ([], Int 0)
      | None => Ok ([], Int 0)
      end
  | None =>
      if eq_text (Py.get l "dup" (VStr [])) (lit "+") then Ok (lit "DUP+", Float 0)
      else if eq_text (Py.get l "dup" (VStr [])) (lit "-") then Ok (lit "DUP-", Float 0)
      else Ok ([], Int 0)
  end.
Proof.
  unfold FmExportLines.duplex, attempt.
  assert (Py.get l "offset" (VInt 0) = match cells l !! "offset" with
                                       | Some v => of_text v
                                       | None => VInt 0
                                       end) as -> by reflexivity.
  destruct (cells l !! "offset") as [[t|]|]; cbn [of_text float_of mbind result_bind].
  - destruct (float_of_str t) as [x|]; cbn [mbind result_bind]; [| reflexivity ].
    destruct (eq_text _ (lit "+")); [ reflexivity |].
    destruct (eq_text _ (lit "-")); reflexivity.
  - reflexivity.
  - destruct (eq_text _ (lit "+")); [ reflexivity |].
    destruct (eq_text _ (lit "-")); reflexivity.
Qed.

Lemma ctcss_Ok (l : line) : exists p, FmExportLines.ctcss float_of_str str_of_float l = Ok p.
Proof.
  unfold FmExportLines.ctcss.
  destruct (truth _) eqn:Et; [| eauto ].
  unfold attempt. destruct (Py.get l "ctcss_tx" (VStr [])) as [|s|x|z];
    cbn [float_of mbind result_bind]; eauto.
  - discriminate Et.
  - destruct (float_of_str s); cbn [mbind result_bind]; eauto.
Qed.

Lemma coordinates_Ok (l : line) : exists p, FmExportLines.coordinates float_of_str l = Ok p.
Proof.
  unfold FmExportLines.coordinates, attempt.
  destruct (float_of float_of_str (Py.get l "lat" (VInt 0))) as [la|[]] eqn:Ela;
    cbn [mbind result_bind catches existsb exn_eqb orb]; eauto.
  - destruct (float_of float_of_str (Py.get l "long" (VInt 0))) as [lo|[]] eqn:Elo;
      cbn [mbind result_bind catches existsb exn_eqb orb]; eauto.
    + exfalso. revert Elo. unfold float_of.
      destruct (Py.get l "long" (VInt 0)); try discriminate.
      destruct (float_of_str s); discriminate.
    + exfalso. revert Elo. unfold float_of.
      destruct (Py.get l "long" (VInt 0)); try discriminate.
      destruct (float_of_str s); discriminate.
  - exfalso. revert Ela. unfold float_of.
    destruct (Py.get l "lat" (VInt 0)); try discriminate.
    destruct (float_of_str s); discriminate.
  - exfalso. revert Ela. unfold float_of.
    destruct (Py.get l "lat" (VInt 0)); try discriminate.
    destruct (float_of_str s); discriminate.
Qed.

(** What an emitted row says of its line. *)
Lemma convert_line_Some (l : line) (o : icom_row) :
  convert_line l = Ok (Some o) ->
  (FmExport.truthy country_filter = false \/ cells l !! "country" = Some country_filter) /\
  (exists s, Py.get l "fm" (VStr (lit "True")) = VStr s /\ lower s = lit "true") /\
  float_of float_of_str (Py.get l "freq_rx" (Py.get l "freq_tx" (VInt 0)))
    = Ok match frequency o with
         | Float x => x
         | _ => 0%float
         end /\
  (exists x, frequency o = Float x) /\
  FmExportLines.duplex float_of_str l = Ok (dup o, offset o) /\
  FmExportLines.ctcss float_of_str str_of_float l = Ok (tone o, repeater_tone o) /\
  FmExportLines.coordinates float_of_str l = Ok (latitude o, longitude o) /\
  call strip (Py.get l "name" (VStr [])) = Ok (name o) /\
  call strip (Py.get l "landmark" (VStr [])) = Ok (sub_name o) /\
  call strip (Py.get l "callsign" (VStr [])) = Ok (repeater_call_sign o).
Proof.
  unfold FmExportLines.convert_line.
  destruct (FmExport.truthy country_filter && _) eqn:Ec; [ discriminate |].
  apply country_test in Ec.
  destruct (Py.get l "fm" (VStr (lit "True"))) as [|s|x|z]; cbn [call mbind result_bind];
    try discriminate.
  unfold str_eqb at 1. case_bool_decide as Efm; cbn [negb]; [| discriminate ].
  destruct (float_of float_of_str (Py.get l "freq_rx" _)) as [f|e];
    cbn [mbind result_bind]; [| discriminate ].
  destruct (FmExportLines.duplex float_of_str l) as [[d off]|e];
    cbn [mbind result_bind]; [| discriminate ].
  destruct (FmExportLines.ctcss float_of_str str_of_float l) as [[t tv]|e];
    cbn [mbind result_bind]; [| discriminate ].
  destruct (call lower (Py.get l "loc_exact" _)) as [le|e];
    cbn [mbind result_bind]; [| discriminate ].
  destruct (FmExportLines.coordinates float_of_str l) as [[la lo]|e];
    cbn [mbind result_bind]; [| discriminate ].
  destruct (call strip (Py.get l "name" _)) as [n|e]; cbn [mbind result_bind];
    [| discriminate ].
  destruct (call strip (Py.get l "landmark" _)) as [sn|e]; cbn [mbind result_bind];
    [| discriminate ].
  destruct (call strip (Py.get l "callsign" _)) as [cs|e]; cbn [mbind result_bind];
    [| discriminate ].
  intros [= <-]. cbn. repeat split; eauto.
Qed.

(** A line whose frequency text does not parse is left out, by the
    country test, by the [fm] test or by the handler of line 115. *)
Lemma convert_line_unparsable (l : line) (t : str) :
  cells l !! "freq_rx" = Some (Some t)
  \/ (cells l !! "freq_rx" = None /\ cells l !! "freq_tx" = Some (Some t)) ->
  float_of_str t = None ->
  cells l !! "fm" <> Some None ->
  convert_line l = Ok None \/ convert_line l = Raise ValueError.
Proof.
  intros Ht Hf Hfm. unfold FmExportLines.convert_line.
  destruct (FmExport.truthy country_filter && _); [ left; reflexivity |].
  assert (Py.get l "fm" (VStr (lit "True")) = match cells l !! "fm" with
                                              | Some v => of_text v
                                              | None => VStr (lit "True")
                                              end) as -> by reflexivity.
  destruct (cells l !! "fm") as [[s|]|]; [| congruence |]; cbn [of_text call mbind result_bind].
  - destruct (negb _); [ left; reflexivity |]. right.
    rewrite frequency_value.
    destruct Ht as [-> | [-> ->]]; cbn [of_text float_of]; rewrite Hf; reflexivity.
  - destruct (negb _); [ left; reflexivity |]. right.
    rewrite frequency_value.
    destruct Ht as [-> | [-> ->]]; cbn [of_text float_of]; rewrite Hf; reflexivity.
Qed.

(** A line that gets to line 41 and ends before its frequency cell. *)
Lemma convert_line_cut (l : line) :
  FmExport.truthy country_filter = false \/ cells l !! "country" = Some country_filter ->
  (exists s, Py.get l "fm" (VStr (lit "True")) = VStr s /\ lower s = lit "true") ->
  cells l !! "freq_rx" = Some None
  \/ (cells l !! "freq_rx" = None /\ cells l !! "freq_tx" = Some None) ->
  convert_line l = Raise TypeError.
Proof.
  intros Hc (s & Hs & Hl) Hf. unfold FmExportLines.convert_line.
  apply country_test in Hc. rewrite Hc, Hs. cbn [call mbind result_bind].
  unfold str_eqb at 1. rewrite bool_decide_eq_true_2 by exact Hl. cbn [negb].
  rewrite frequency_value. destruct Hf as [-> | [-> ->]]; reflexivity.
Qed.

End FmLineFacts.

(** ** Files with as many cells in every line as in the header *)

Section Rectangular.
Import PyStr PyFloat Csv Py.
Variable float_of_str : str -> option float.
Variable str_of_float : float -> str.
Variable lower : str -> str.
Variable group_number : Z.
Variable group_name : str.
Variable country_filter : option str.

Lemma float_of_get_of_row (r : row) (k : string) :
  float_of float_of_str (Py.get (of_row r) k (VInt 0)) =
  match FmExport.float_get float_of_str r k with
  | Some x => Ok x
  | None => Raise ValueError
  end.
Proof.
  unfold Py.get, FmExport.float_get. rewrite cells_of_row.
  destruct (r !! k) as [s|]; cbn [fmap option_fmap option_map of_text float_of];
    [ destruct (float_of_str s) |]; reflexivity.
Qed.

Lemma float_of_frequency_of_row (r : row) :
  float_of float_of_str (Py.get (of_row r) "freq_rx" (Py.get (of_row r) "freq_tx" (VInt 0))) =
  match FmExport.read_frequency float_of_str r with
  | Some x => Ok x
  | None => Raise ValueError
  end.
Proof.
  unfold FmExport.read_frequency. unfold Py.get at 1. rewrite cells_of_row.
  destruct (r !! "freq_rx") as [s|]; cbn [fmap option_fmap option_map of_text float_of].
  - destruct (float_of_str s); reflexivity.
  - apply float_of_get_of_row.
Qed.

(** On such a file the FM loop body raises nothing that its handler
    does not catch, and builds what the body on rows builds. *)
Lemma convert_line_of_row (r : row) :
  match FmExportLines.convert_line float_of_str str_of_float lower
          group_number group_name country_filter (of_row r) with
  | Ok o => o
  | Raise e => None
  end
  = FmExport.convert_row float_of_str str_of_float lower
      group_number group_name country_filter r
  /\ forall e, FmExportLines.convert_line float_of_str str_of_float lower
                 group_number group_name country_filter (of_row r) = Raise e ->
               e = ValueError.
Proof.
  unfold FmExportLines.convert_line, FmExport.convert_row.
  rewrite !get_of_row.
  assert (FmExport.truthy country_filter
          && negb (eq_text (VStr (Csv.get r "country" [])) (default [] country_filter))
          = FmExport.truthy country_filter
            && negb (bool_decide (Some (Csv.get r "country" []) = country_filter))) as ->.
  { unfold FmExport.truthy, eq_text, str_eqb.
    destruct country_filter as [[|c f]|]; cbn [andb default from_option id]; try reflexivity.
    f_equal. apply bool_decide_ext. split; [ intros ->; reflexivity | intros [= ->]; reflexivity ]. }
  destruct (FmExport.truthy country_filter && _); [ split; [ reflexivity | discriminate ] |].
  cbn [call mbind result_bind].
  destruct (negb (str_eqb (lower (Csv.get r "fm" (lit "True"))) (lit "true")));
    [ split; [ reflexivity | discriminate ] |].
  rewrite float_of_frequency_of_row.
  destruct (FmExport.read_frequency float_of_str r) as [f|]; cbn [mbind result_bind option_bind];
    [| split; [ reflexivity | intros e [= <-]; reflexivity ] ].
  assert (FmExportLines.duplex float_of_str (of_row r) = Ok (FmExport.duplex float_of_str r))
    as ->.
  { unfold FmExportLines.duplex, FmExport.duplex, attempt.
    rewrite float_of_get_of_row, get_of_row.
    destruct (FmExport.float_get float_of_str r "offset") as [x|];
      cbn [mbind result_bind catches existsb exn_eqb orb]; [| reflexivity ].
    unfold eq_text. destruct (str_eqb _ (lit "+")); [ reflexivity |].
    destruct (str_eqb _ (lit "-")); reflexivity. }
  cbn [mbind result_bind].
  assert (FmExportLines.ctcss float_of_str str_of_float (of_row r)
          = Ok (FmExport.ctcss float_of_str str_of_float r)) as ->.
  { unfold FmExportLines.ctcss, FmExport.ctcss, attempt. rewrite get_of_row.
    destruct (Csv.get r "ctcss_tx" []) as [|c cs]; cbn [truth float_of]; [ reflexivity |].
    destruct (float_of_str (c :: cs)); reflexivity. }
  cbn [mbind result_bind].
  assert (FmExportLines.coordinates float_of_str (of_row r)
          = Ok (FmExport.coordinates float_of_str r)) as ->.
  { unfold FmExportLines.coordinates, FmExport.coordinates, attempt.
    rewrite !float_of_get_of_row.
    destruct (FmExport.float_get float_of_str r "lat");
      cbn [mbind result_bind catches existsb exn_eqb orb]; [| reflexivity ].
    destruct (FmExport.float_get float_of_str r "long"); reflexivity. }
  cbn [mbind result_bind].
  destruct (FmExport.duplex float_of_str r), (FmExport.ctcss float_of_str str_of_float r),
    (FmExport.coordinates float_of_str r).
  split; [ reflexivity | discriminate ].
Qed.

(** So the run over such a file returns, with the rows and the count of
    the run on rows. *)
Lemma convert_lines_of_rows (rows : list row) :
  FmExportLines.convert_mcp_to_icom_fm_format float_of_str str_of_float lower
    group_number group_name country_filter (map of_row rows)
  = Returned
      (written (FmExport.convert_mcp_to_icom_fm_format float_of_str str_of_float lower
                  rows group_number group_name country_filter))
      (processed_count (FmExport.convert_mcp_to_icom_fm_format float_of_str str_of_float
                          lower rows group_number group_name country_filter)).
Proof.
  unfold FmExport.convert_mcp_to_icom_fm_format.
  rewrite for_each_row_written, for_each_row_count.
  induction rows as [|r rows IH]; [ reflexivity |].
  cbn [map]. change (of_row r :: map of_row rows) with ([of_row r] ++ map of_row rows).
  rewrite convert_lines_app, convert_lines_one, IH. cbn [omap list_omap].
  destruct (convert_line_of_row r) as [Heq Hexn]. rewrite <- Heq.
  destruct (FmExportLines.convert_line _ _ _ _ _ _ (of_row r)) as [[o|]|e].
  - reflexivity.
  - reflexivity.
  - rewrite (Hexn e eq_refl). reflexivity.
Qed.

(** The repair stage on such a file returns, with the rows and the count
    of the run on rows. *)
Lemma fix_frequency_bands_of_rows (rows : list row) :
  FixFrequencyBandsLines.fix_frequency_bands float_of_str (map of_row rows)
  = Returned
      (map (fun w : gmap string cell => of_cell <$> w)
         (FixFrequencyBands.out_rows
            (FixFrequencyBands.fix_frequency_bands float_of_str rows)))
      (FixFrequencyBands.fixed_count
         (FixFrequencyBands.fix_frequency_bands float_of_str rows)).
Proof.
  rewrite fix_frequency_bands_out_rows, fix_frequency_bands_fixed_count.
  assert (forall r, FixFrequencyBandsLines.frequency_of float_of_str (of_row r)
                    = r !! "Frequency" ≫= float_of_str) as Hfreq.
  { intros r. unfold FixFrequencyBandsLines.frequency_of. rewrite cells_of_row.
    destruct (r !! "Frequency"); reflexivity. }
  rewrite fix_frequency_bands_passes.
  - f_equal.
    + rewrite !map_map. apply map_ext. intros r.
      unfold FixFrequencyBandsLines.written_for, FixFrequencyBands.written_for.
      rewrite Hfreq. destruct (r !! "Frequency" ≫= float_of_str) as [f|].
      * rewrite fmap_insert, dict_of_row. reflexivity.
      * apply dict_of_row.
    + induction rows as [|r rows IH]; [ reflexivity |].
      cbn [map]. rewrite !filter_cons.
      assert (FixFrequencyBandsLines.counts_as_fixed float_of_str (of_row r)
              = FixFrequencyBands.counts_as_fixed float_of_str r) as E.
      { unfold FixFrequencyBandsLines.counts_as_fixed, FixFrequencyBands.counts_as_fixed.
        rewrite Hfreq. reflexivity. }
      rewrite E. destruct (FixFrequencyBands.counts_as_fixed float_of_str r);
        [ rewrite !decide_True by reflexivity | rewrite !decide_False by discriminate ];
        cbn [length]; rewrite IH; reflexivity.
  - apply Forall_forall. intros l Hl. apply list_elem_of_In, in_map_iff in Hl as (r & <- & _).
    split; [| reflexivity ].
    rewrite cells_of_row. destruct (r !! "Frequency"); discriminate.
Qed.

End Rectangular.

(** ** Rows that fail to parse *)


Section UnparsableRows.
Import PyStr PyFloat Csv Py.
Variable float_of_str : str -> option float.
Variable str_of_float : float -> str.
Variable lower : str -> str.
Variable group_number : Z.
Variable group_name : str.
Variable country_filter : option str.

Local Abbreviation fm :=
  (FmExportLines.convert_mcp_to_icom_fm_format float_of_str str_of_float lower
     group_number group_name country_filter).
Local Abbreviation fix_ := (FixFrequencyBandsLines.fix_frequency_bands float_of_str).


End UnparsableRows.


(** ** Duplex symbol and offset of the FM projector *)

(** C10, as stated, fails in its second half: a row with the direction
    [-] and an offset that is not a number is emitted with an empty Dup
    and the offset 0, not with DUP- and the source value. *)
Lemma unparsable_offset_counterexample :
  let fm :=
    FmExportLines.convert_mcp_to_icom_fm_format Csv.parse_decimal Csv.decimal_repr
      PyStr.ascii_lower 32 (PyStr.lit "AT-Repeaters") (Some (PyStr.lit "Austria")) in
  Samples.repeater_bad_offset !! "dup" = Some (PyStr.lit "-") /\
  Samples.repeater_bad_offset !! "offset" = Some (PyStr.lit "n/a") /\
  Csv.parse_decimal (PyStr.lit "n/a") = None /\
  fm [Py.of_row Samples.repeater_bad_offset] = Py.Returned [LineSamples.simplex_channel] 1 /\
  Csv.dup LineSamples.simplex_channel = [] /\
  Csv.offset LineSamples.simplex_channel = Csv.Int 0.
Proof. cbn zeta. repeat split; vm_compute; reflexivity. Qed.

Section FmDuplex.
Import PyStr PyFloat Csv Py.
Variable float_of_str : str -> option float.
Variable str_of_float : float -> str.
Variable lower : str -> str.
Variable group_number : Z.
Variable group_name : str.
Variable country_filter : option str.

Local Abbreviation fm :=
  (FmExportLines.convert_mcp_to_icom_fm_format float_of_str str_of_float lower
     group_number group_name country_filter).

(** C10, amended.  For the row the FM projector emits for a line: a
    direction cell other than [+] and [-] - empty, absent, any other text,
    or cut off at the end of the line - gives an empty Dup and the offset 0
    whatever the offset cell holds.  With the direction [+] or [-], an
    offset text that is a number is emitted as that number with DUP+ or
    DUP-, and a file without offset column gives 0.0 with DUP+ or DUP-; an
    offset text that is not a number gives an empty Dup and the offset 0,
    as if there were no direction.  No row is emitted for a line that ends
    before its offset cell. *)
Theorem fm_duplex_and_offset (l : line) (o : icom_row) :
  fm [l] = Returned [o] 1 ->
  (cells l !! "dup" <> Some (Some (lit "+")) -> cells l !! "dup" <> Some (Some (lit "-")) ->
     dup o = [] /\ offset o = Int 0) /\
  (forall sign, sign = lit "+" \/ sign = lit "-" -> cells l !! "dup" = Some (Some sign) ->
     (forall t x, cells l !! "offset" = Some (Some t) -> float_of_str t = Some x ->
        dup o = lit "DUP" ++ sign /\ offset o = Float x) /\
     (cells l !! "offset" = None -> dup o = lit "DUP" ++ sign /\ offset o = Float 0) /\
     (forall t, cells l !! "offset" = Some (Some t) -> float_of_str t = None ->
        dup o = [] /\ offset o = Int 0)) /\
  cells l !! "offset" <> Some None.
Proof.
  intros Ho. rewrite convert_lines_one in Ho.
  destruct (FmExportLines.convert_line _ _ _ _ _ _ l) as [[o'|]|e] eqn:E;
    [| discriminate Ho | destruct (catches _ e); discriminate Ho ].
  injection Ho as ->.
  apply convert_line_Some in E as (_ & _ & _ & _ & Hd & _).
  rewrite duplex_cases in Hd. unfold Py.get, eq_text, str_eqb in Hd.
  split; [| split ].
  - intros Hplus Hminus.
    assert (forall x, (if match match cells l !! "dup" with
                                 | Some v => of_text v
                                 | None => VStr []
                                 end with
                           | VStr t => bool_decide (t = lit "+")
                           | _ => false
                           end
                       then Ok (lit "DUP+", Float x)
                       else if match match cells l !! "dup" with
                                      | Some v => of_text v
                                      | None => VStr []
                                      end with
                                | VStr t => bool_decide (t = lit "-")
                                | _ => false
                                end
                            then Ok (lit "DUP-", Float x)
                            else Ok ([], Int 0)) = Ok ([] : str, Int 0)) as Hneither.
    { intros x. destruct (cells l !! "dup") as [[d|]|]; cbn [of_text]; try reflexivity.
      case_bool_decide as E1; [ congruence |].
      case_bool_decide as E2; [ congruence |]. reflexivity. }
    destruct (cells l !! "offset") as [[t|]|]; [| discriminate Hd |].
    + destruct (float_of_str t) as [x|]; [ rewrite Hneither in Hd |];
        injection Hd as <- <-; split; reflexivity.
    + rewrite Hneither in Hd. injection Hd as <- <-. split; reflexivity.
  - intros sign Hsign Hdir. rewrite Hdir in Hd. cbn [of_text] in Hd.
    split; [| split ].
    + intros t x Ht Hx. rewrite Ht, Hx in Hd.
      destruct Hsign as [-> | ->].
      * rewrite bool_decide_eq_true_2 in Hd by reflexivity.
        injection Hd as <- <-. split; reflexivity.
      * rewrite bool_decide_eq_false_2 in Hd by discriminate.
        rewrite bool_decide_eq_true_2 in Hd by reflexivity.
        injection Hd as <- <-. split; reflexivity.
    + intros Hoff. rewrite Hoff in Hd.
      destruct Hsign as [-> | ->].
      * rewrite bool_decide_eq_true_2 in Hd by reflexivity.
        injection Hd as <- <-. split; reflexivity.
      * rewrite bool_decide_eq_false_2 in Hd by discriminate.
        rewrite bool_decide_eq_true_2 in Hd by reflexivity.
        injection Hd as <- <-. split; reflexivity.
    + intros t Ht Hx. rewrite Ht, Hx in Hd. injection Hd as <- <-. split; reflexivity.
  - intros Hoff. rewrite Hoff in Hd. discriminate Hd.
Qed.

End FmDuplex.

Lemma fm_duplex_and_offset_witness :
  let fm :=
    FmExportLines.convert_mcp_to_icom_fm_format Csv.parse_decimal Csv.decimal_repr
      PyStr.ascii_lower 32 (PyStr.lit "AT-Repeaters") (Some (PyStr.lit "Austria")) in
  let rule (l : Py.line) (o : Csv.icom_row) :=
    (Py.cells l !! "dup" <> Some (Some (PyStr.lit "+")) ->
     Py.cells l !! "dup" <> Some (Some (PyStr.lit "-")) ->
       Csv.dup o = [] /\ Csv.offset o = Csv.Int 0) /\
    (forall sign, sign = PyStr.lit "+" \/ sign = PyStr.lit "-" ->
       Py.cells l !! "dup" = Some (Some sign) ->
       (forall t x, Py.cells l !! "offset" = Some (Some t) -> Csv.parse_decimal t = Some x ->
          Csv.dup o = PyStr.lit "DUP" ++ sign /\ Csv.offset o = Csv.Float x) /\
       (Py.cells l !! "offset" = None ->
          Csv.dup o = PyStr.lit "DUP" ++ sign /\ Csv.offset o = Csv.Float 0) /\
       (forall t, Py.cells l !! "offset" = Some (Some t) -> Csv.parse_decimal t = None ->
          Csv.dup o = [] /\ Csv.offset o = Csv.Int 0)) /\
    Py.cells l !! "offset" <> Some None in
  rule LineSamples.repeater_line Samples.repeater_channel /\
  rule (Py.of_row Samples.simplex) LineSamples.simplex_channel /\
  rule (Py.of_row LineSamples.repeater_split) LineSamples.simplex_channel /\
  rule (Py.of_row Samples.repeater_bad_offset) LineSamples.simplex_channel.
Proof.
  cbn zeta. split; [| split; [| split ] ].
  - apply (fm_duplex_and_offset Csv.parse_decimal Csv.decimal_repr PyStr.ascii_lower
             32 (PyStr.lit "AT-Repeaters") (Some (PyStr.lit "Austria"))
             LineSamples.repeater_line Samples.repeater_channel).
    vm_compute. reflexivity.
  - apply (fm_duplex_and_offset Csv.parse_decimal Csv.decimal_repr PyStr.ascii_lower
             32 (PyStr.lit "AT-Repeaters") (Some (PyStr.lit "Austria"))
             (Py.of_row Samples.simplex) LineSamples.simplex_channel).
    vm_compute. reflexivity.
  - apply (fm_duplex_and_offset Csv.parse_decimal Csv.decimal_repr PyStr.ascii_lower
             32 (PyStr.lit "AT-Repeaters") (Some (PyStr.lit "Austria"))
             (Py.of_row LineSamples.repeater_split) LineSamples.simplex_channel).
    vm_compute. reflexivity.
  - apply (fm_duplex_and_offset Csv.parse_decimal Csv.decimal_repr PyStr.ascii_lower
             32 (PyStr.lit "AT-Repeaters") (Some (PyStr.lit "Austria"))
             (Py.of_row Samples.repeater_bad_offset) LineSamples.simplex_channel).
    vm_compute. reflexivity.
Defined.

(** ** Names of the exporters *)

(** C3, as stated, fails.  The Vienna projector writes the 22 characters
    of a station name as they were read, the o with diaeresis among them:
    the name is neither normalized nor cut.  The SOTA projector cuts before
    it normalizes: the state to 8 characters, so that for Steiermark at
    2277 m the sub name is ["Steierma 2277m"] although the normalized full
    text has exactly 16 characters; and the summit name to 10 characters, so
    that for the reference W1 and Mount Washington the name is
    ["W1 Mount Wash"], not the first 16 characters of the normalized full
    text. *)
Lemma export_names_counterexample :
  Csv.written
    (ViennaRadio.convert_vienna_radio_to_icom_format Csv.parse_decimal Csv.decimal_repr
       PyStr.ascii_lower MoreSamples.ten_km [LineSamples.long_name_broadcast]
       81 (PyStr.lit "Vienna-FM-Radio"))
    = [LineSamples.long_name_channel] /\
  Csv.name LineSamples.long_name_channel
    = PyStr.strip (Csv.get LineSamples.long_name_broadcast "name" []) /\
  length (Csv.name LineSamples.long_name_channel) = 22 /\
  ~ PyStr.is_ascii (Csv.name LineSamples.long_name_channel) /\
  Csv.sub_name <$> SotaExport.convert_row Csv.parse_decimal TextNormalizer.nfd_latin
                     70 (PyStr.lit "SOTA-Summits") Samples.summit
    = Some (PyStr.lit "Steierma 2277m") /\
  take 16 (TextNormalizer.convert_umlauts_sota TextNormalizer.nfd_latin
             (PyStr.lit "Steiermark 2277m")) = PyStr.lit "Steiermark 2277m" /\
  Csv.name <$> SotaExport.convert_row Csv.parse_decimal TextNormalizer.nfd_latin
                 70 (PyStr.lit "SOTA-Summits") LineSamples.short_reference_summit
    = Some (PyStr.lit "W1 Mount Wash") /\
  take 16 (TextNormalizer.convert_umlauts_sota TextNormalizer.nfd_latin
             (PyStr.lit "W1 Mount Washington")) = PyStr.lit "W1 Mount Washing".
Proof.
  repeat split; try (vm_compute; reflexivity).
  intros H. unfold PyStr.is_ascii in H. rewrite Forall_forall in H.
  specialize (H 246%N). cbn in H.
  assert (246 < 128)%N as Hlt; [| lia ].
  apply H. vm_compute. do 12 right. left.
Qed.

Section ExportNames.
Import PyStr PyFloat Csv TextNormalizer.
Variable float_of_str : str -> option float.
Variable str_of_float : float -> str.
Variable lower : str -> str.
Variable nfd : str -> str.
Variable calculate_distance : float -> float -> float -> float -> float.

Local Abbreviation convert_sota := (SotaExport.convert_sota_to_icom_format float_of_str nfd).
Local Abbreviation convert_vienna :=
  (ViennaRadio.convert_vienna_radio_to_icom_format float_of_str str_of_float lower
     calculate_distance).

(** The rows of the Vienna output, by the ranked stations. *)
Lemma vienna_written (rows : list row) (group_number : Z) (group_name : str) :
  written (convert_vienna rows group_number group_name)
  = map (ViennaRadio.icom_of_station group_number group_name)
      (ViennaRadio.top_stations float_of_str str_of_float lower calculate_distance rows).
Proof.
  unfold ViennaRadio.convert_vienna_radio_to_icom_format.
  assert (forall l (out : output icom_row),
            written (fold_left (fun out s =>
                       writerow out (ViennaRadio.icom_of_station group_number group_name s))
                     l out)
            = written out ++ map (ViennaRadio.icom_of_station group_number group_name) l)
    as Hloop.
  { induction l as [|s l IH]; intros [w n]; cbn [fold_left map].
    - cbn [written]. rewrite app_nil_r. reflexivity.
    - rewrite IH. cbn [writerow written]. rewrite <- app_assoc. reflexivity. }
  rewrite Hloop. reflexivity.
Qed.

(** What a reading keeps of the texts of its row. *)
Lemma read_row_texts (r : row) (x : ViennaRadio.reading) :
  ViennaRadio.read_row float_of_str str_of_float lower calculate_distance r = Some x ->
  r !! "freq_rx" ≫= float_of_str = Some (ViennaRadio.r_frequency x) /\
  ViennaRadio.r_station_name x
    = match strip (get r "name" []) with
      | [] => lit "FM " ++ str_of_float (ViennaRadio.r_frequency x)
      | _ :: _ => strip (get r "name" [])
      end /\
  ViennaRadio.r_location x = strip (get r "landmark" []) /\
  ViennaRadio.r_state x = strip (get r "state" []).
Proof.
  unfold ViennaRadio.read_row.
  destruct (ViennaRadio.float_get float_of_str r "lat") as [lat|]; [| discriminate ].
  destruct (ViennaRadio.float_get float_of_str r "long") as [lon|]; [| discriminate ].
  cbn [mbind option_bind].
  destruct (ViennaRadio.max_distance <? _)%float; [ discriminate |].
  destruct (r !! "freq_rx" ≫= float_of_str) as [f|]; [| discriminate ].
  cbn [mbind option_bind].
  destruct (negb _); [ discriminate |].
  intros [= <-].
  cbn [ViennaRadio.r_frequency ViennaRadio.r_station_name ViennaRadio.r_location
       ViennaRadio.r_state].
  repeat split; reflexivity.
Qed.

(** C3, amended.  Every row the SOTA projector writes comes from a row
    read whose call sign it joins with the first 10 characters of the summit
    name, and whose state it cuts to 8 characters and normalizes before it
    joins it with the elevation; it normalizes the joined texts and then
    cuts each to 16 characters, so that Name and Sub Name have at most 16.
    Every row the Vienna projector writes comes from a row read and carries
    as Name the stripped name of that row - or FM and the frequency when
    that is empty - and as Sub Name its stripped landmark, else its stripped
    state, else Austria: as read, neither normalized nor cut. *)
Theorem export_names (rows : list row) (group_number : Z) (group_name : str) (o : icom_row) :
  (o ∈ written (convert_sota rows group_number group_name) ->
   exists r, r ∈ rows /\
     let callsign := strip (get r "callsign" []) in
     let summit_name := strip (get r "name" []) in
     let state := strip (get r "state" []) in
     let elevation := strip (get r "sea_level" []) in
     let country_code := strip (get r "country_code" []) in
     let sub_parts :=
       match state with
       | [] => []
       | _ => [convert_umlauts_sota nfd (take 8 state)]
       end ++ SotaExport.elevation_part float_of_str elevation in
     name o = take 16 (convert_umlauts_sota nfd
                match summit_name with
                | [] => callsign
                | _ => callsign ++ lit " " ++ take 10 summit_name
                end) /\
     sub_name o = take 16 (convert_umlauts_sota nfd
                    match sub_parts with
                    | [] => country_code
                    | _ => join (lit " ") sub_parts
                    end) /\
     length (name o) <= 16 /\ length (sub_name o) <= 16) /\
  (o ∈ written (convert_vienna rows group_number group_name) ->
   exists r frequency, r ∈ rows /\
     r !! "freq_rx" ≫= float_of_str = Some frequency /\
     name o = match strip (get r "name" []) with
              | [] => lit "FM " ++ str_of_float frequency
              | _ :: _ => strip (get r "name" [])
              end /\
     sub_name o = match strip (get r "landmark" []), strip (get r "state" []) with
                  | _ :: _, _ => strip (get r "landmark" [])
                  | [], _ :: _ => strip (get r "state" [])
                  | [], [] => lit "Austria"
                  end).
Proof.
  split.
  - unfold SotaExport.convert_sota_to_icom_format. rewrite for_each_row_written.
    intros Ho. apply list_elem_of_omap in Ho as (r & Hr & Ho).
    exists r. split; [ exact Hr |]. cbn zeta.
    apply convert_row_Some in Ho as (lat & lon & _ & _ & _ & _ & Hn & Hs & _).
    rewrite Hn, Hs, !length_take.
    unfold SotaExport.display_name, SotaExport.display_sub_name.
    repeat split; lia.
  - rewrite vienna_written. intros Ho.
    apply list_elem_of_In, in_map_iff in Ho as (s & <- & Hs).
    apply list_elem_of_In in Hs.
    apply top_stations_readings in Hs as (r & x & Hr & Hx & ->).
    apply read_row_texts in Hx as (Hf & Hn & Hl & Hst).
    exists r, (ViennaRadio.r_frequency x). split; [ exact Hr |]. split; [ exact Hf |].
    cbn [ViennaRadio.icom_of_station name sub_name ViennaRadio.make_station
         ViennaRadio.name ViennaRadio.sub_name].
    rewrite Hn, Hl, Hst. split; reflexivity.
Qed.

End ExportNames.

Lemma export_names_witness :
  (exists r, r ∈ [Samples.summit] /\
     let callsign := PyStr.strip (Csv.get r "callsign" []) in
     let summit_name := PyStr.strip (Csv.get r "name" []) in
     let state := PyStr.strip (Csv.get r "state" []) in
     let elevation := PyStr.strip (Csv.get r "sea_level" []) in
     let country_code := PyStr.strip (Csv.get r "country_code" []) in
     let sub_parts :=
       match state with
       | [] => []
       | _ => [TextNormalizer.convert_umlauts_sota TextNormalizer.nfd_latin (take 8 state)]
       end ++ SotaExport.elevation_part Csv.parse_decimal elevation in
     Csv.name Samples.summit_waypoint
       = take 16 (TextNormalizer.convert_umlauts_sota TextNormalizer.nfd_latin
                    match summit_name with
                    | [] => callsign
                    | _ => callsign ++ PyStr.lit " " ++ take 10 summit_name
                    end) /\
     Csv.sub_name Samples.summit_waypoint
       = take 16 (TextNormalizer.convert_umlauts_sota TextNormalizer.nfd_latin
                    match sub_parts with
                    | [] => country_code
                    | _ => Csv.join (PyStr.lit " ") sub_parts
                    end) /\
     length (Csv.name Samples.summit_waypoint) <= 16 /\
     length (Csv.sub_name Samples.summit_waypoint) <= 16) /\
  (exists r frequency, r ∈ [LineSamples.long_name_broadcast] /\
     r !! "freq_rx" ≫= Csv.parse_decimal = Some frequency /\
     Csv.name LineSamples.long_name_channel
       = match PyStr.strip (Csv.get r "name" []) with
         | [] => PyStr.lit "FM " ++ Csv.decimal_repr frequency
         | _ :: _ => PyStr.strip (Csv.get r "name" [])
         end /\
     Csv.sub_name LineSamples.long_name_channel
       = match PyStr.strip (Csv.get r "landmark" []), PyStr.strip (Csv.get r "state" []) with
         | _ :: _, _ => PyStr.strip (Csv.get r "landmark" [])
         | [], _ :: _ => PyStr.strip (Csv.get r "state" [])
         | [], [] => PyStr.lit "Austria"
         end).
Proof.
  split.
  - apply (proj1 (export_names Csv.parse_decimal Csv.decimal_repr PyStr.ascii_lower
                    TextNormalizer.nfd_latin MoreSamples.ten_km [Samples.summit]
                    70 (PyStr.lit "SOTA-Summits") Samples.summit_waypoint)).
    vm_compute. left.
  - apply (proj2 (export_names Csv.parse_decimal Csv.decimal_repr PyStr.ascii_lower
                    TextNormalizer.nfd_latin MoreSamples.ten_km
                    [LineSamples.long_name_broadcast]
                    81 (PyStr.lit "Vienna-FM-Radio") LineSamples.long_name_channel)).
    vm_compute. left.
Defined.

(** ** Frequency repair over any file: rows written, and where a run stops *)

Section FixFrequencyBandsRows.
Import PyStr PyFloat Csv BandPlan Py.
Variable float_of_str : str -> option float.

Local Abbreviation fix_ := (FixFrequencyBandsLines.fix_frequency_bands float_of_str).

(** On a file in which no line ends before its [Frequency] cell and no
    line has more cells than the header, the repair stage returns after
    writing one row per line, in input order, with the columns of the
    line: every cell other than [Frequency] as read, a [Frequency] that
    parses as the repaired float, which is never NaN, and one that does not
    parse as read; the count it returns is at most the number of lines.  On
    any other file the run stops at the first line that ends before its
    [Frequency] cell, with [TypeError], or has more cells than the header,
    with [ValueError]; the output keeps the rows of the lines before it. *)
Theorem fix_frequency_bands_rows (lines : list line) :
  (Forall (fun l => cells l !! "Frequency" <> Some None /\ rest l = []) lines ->
   exists written fixed_count,
     fix_ lines = Returned written fixed_count /\
     length written = length lines /\ fixed_count <= length lines /\
     forall i l, lines !! i = Some l ->
       exists w, written !! i = Some w /\
         dom w = dom (cells l) /\
         (forall k, k <> "Frequency"%string -> w !! k = of_text <$> cells l !! k) /\
         (forall t f, cells l !! "Frequency" = Some (Some t) -> float_of_str t = Some f ->
            w !! "Frequency" = Some (VFloat (repair f)) /\ ~ nan64 (repair f)) /\
         (forall t, cells l !! "Frequency" = Some (Some t) -> float_of_str t = None ->
            w !! "Frequency" = Some (VStr t)) /\
         (cells l !! "Frequency" = None -> w !! "Frequency" = None)) /\
  (forall before l after, lines = before ++ l :: after ->
     Forall (fun l => cells l !! "Frequency" <> Some None /\ rest l = []) before ->
     cells l !! "Frequency" = Some None \/ rest l <> [] ->
     exists written n,
       fix_ lines = Aborted written (match cells l !! "Frequency" with
                                     | Some None => TypeError
                                     | _ => ValueError
                                     end) /\
       fix_ before = Returned written n /\
       length written = length before).
Proof.
  split.
  - intros H. eexists _, _. split; [ apply fix_frequency_bands_passes; exact H |].
    rewrite length_map. split; [ reflexivity |]. split; [ apply length_filter |].
    intros i l Hi. eexists. split; [ rewrite list_lookup_fmap_Some; eauto |].
    unfold FixFrequencyBandsLines.written_for, FixFrequencyBandsLines.frequency_of, dict_of.
    destruct (cells l !! "Frequency") as [[t|]|] eqn:Ec; cbn [mbind option_bind].
    + destruct (float_of_str t) as [f|] eqn:Ef.
      * split; [| split; [| split; [| split ] ] ].
        -- rewrite dom_insert_L, dom_fmap_L.
           apply subseteq_union_1_L, singleton_subseteq_l, elem_of_dom. eauto.
        -- intros k Hk. rewrite lookup_insert_ne by congruence. apply lookup_fmap.
        -- intros t' f' [= <-] Hf'. rewrite Ef in Hf'. injection Hf' as <-.
           split; [ apply lookup_insert_eq | apply ensure_amateur_band_not_nan ].
        -- intros t' [= <-] Hf'. congruence.
        -- discriminate.
      * split; [| split; [| split; [| split ] ] ].
        -- apply dom_fmap_L.
        -- intros k _. apply lookup_fmap.
        -- intros t' f' [= <-] Hf'. congruence.
        -- intros t' [= <-] _. rewrite lookup_fmap, Ec. reflexivity.
        -- discriminate.
    + split; [| split; [| split; [| split ] ] ].
      * apply dom_fmap_L.
      * intros k _. apply lookup_fmap.
      * discriminate.
      * discriminate.
      * discriminate.
    + split; [| split; [| split; [| split ] ] ].
      * apply dom_fmap_L.
      * intros k _. apply lookup_fmap.
      * discriminate.
      * discriminate.
      * intros _. rewrite lookup_fmap, Ec. reflexivity.
  - intros before l after -> Hb Hl.
    assert (~ FixFrequencyBandsLines.passes l) as Hnot.
    { intros [H1 H2]. destruct Hl as [Hl | Hl]; congruence. }
    eexists _, _. split; [ apply fix_frequency_bands_stops; assumption |].
    split; [ apply fix_frequency_bands_passes; exact Hb | apply length_map ].
Qed.

End FixFrequencyBandsRows.

(** ** Band filter over any file *)

Section FilterBandsLinesFacts.
Import PyStr PyFloat Csv Py FilterBands FilterBandsLines.
Variable float_of_str : str -> option float.

Local Abbreviation filter_iteration := (FilterBandsLines.iteration float_of_str).
Local Abbreviation kept := (FilterBandsLines.kept float_of_str).
Local Abbreviation filtered_out := (FilterBandsLines.filtered_out float_of_str).
Local Abbreviation filter_amateur_bands := (FilterBandsLines.filter_amateur_bands float_of_str).

(** One iteration on a line whose [Frequency] cell is not [None]. *)
Lemma filter_iteration_goes_on (l : line) (st : state) :
  cells l !! "Frequency" <> Some None ->
  filter_iteration l st =
  Done () {| out_rows := out_rows st ++ (if kept l then [cells l] else []);
             kept_count := kept_count st + (if kept l then 1 else 0);
             filtered_count := filtered_count st + (if filtered_out l then 1 else 0) |}.
Proof.
  intros Hcell.
  unfold FilterBandsLines.iteration, FilterBandsLines.kept, FilterBandsLines.filtered_out,
    FilterBandsLines.frequency_of.
  unfold mbind, prog_bind, try_except, modify, lift, getitem, writerow, refused, mret,
    prog_ret, result_bind.
  destruct (cells l !! "Frequency") as [[t|]|] eqn:Ec; [| congruence |];
    cbn [option_bind of_text float_of catches existsb exn_eqb orb].
  - destruct (float_of_str t) as [f|]; cbn [catches existsb exn_eqb orb].
    + destruct (in_standard_band f); cbn [andb negb].
      * destruct (rest l) as [|x xs]; cbn [negb catches existsb exn_eqb orb
                                            out_rows kept_count filtered_count];
          rewrite ?app_nil_r, ?Nat.add_0_r, ?Nat.add_1_r; destruct st; reflexivity.
      * cbn [out_rows kept_count filtered_count].
        rewrite ?app_nil_r, ?Nat.add_0_r, ?Nat.add_1_r. reflexivity.
    + rewrite ?app_nil_r, ?Nat.add_0_r. destruct st; reflexivity.
  - rewrite ?app_nil_r, ?Nat.add_0_r. destruct st; reflexivity.
Qed.

(** One iteration on a line that ends before its [Frequency] cell. *)
Lemma filter_iteration_stops (l : line) (st : state) :
  cells l !! "Frequency" = Some None -> filter_iteration l st = Raised TypeError st.
Proof.
  intros Hcell.
  unfold FilterBandsLines.iteration.
  unfold mbind, prog_bind, try_except, modify, lift, getitem, mret, prog_ret, result_bind.
  rewrite Hcell. reflexivity.
Qed.

Lemma filter_for_each_goes_on (lines : list line) (st : state) :
  Forall (fun l => cells l !! "Frequency" <> Some None) lines ->
  for_each filter_iteration lines st =
  Done () {| out_rows := out_rows st ++ map cells (filter (fun l => kept l = true) lines);
             kept_count := kept_count st + length (filter (fun l => kept l = true) lines);
             filtered_count :=
               filtered_count st + length (filter (fun l => filtered_out l = true) lines) |}.
Proof.
  intros H. revert st. induction H as [|l lines Hl _ IH]; intros st.
  - cbn. rewrite app_nil_r, !Nat.add_0_r. destruct st; reflexivity.
  - rewrite for_each_cons, (filter_iteration_goes_on l st Hl), IH.
    cbn [out_rows kept_count filtered_count]. rewrite !filter_cons.
    destruct (kept l), (filtered_out l);
      repeat first [ rewrite decide_True by reflexivity
                   | rewrite decide_False by discriminate ];
      cbn [map length]; rewrite <- ?app_assoc; cbn [app]; f_equal; f_equal; lia.
Qed.

(** On a file in which no line ends before its [Frequency] cell, the band
    filter returns after writing, as read and in input order, the lines
    whose [Frequency] parses into one of the four bands and that have no
    more cells than the header; it returns their number and the number of
    lines whose frequency parses and lies outside the bands.  A line whose
    [Frequency] is absent or not a number is in neither count, and neither
    is an in-band line with more cells than the header, which the writer
    refuses and the handler skips.  On any other file the run stops with
    [TypeError] at the first line that ends before its [Frequency] cell, and
    the output keeps what was written for the lines before it. *)
Theorem filter_amateur_bands_counts (lines : list line) :
  (forall l, kept l = true <->
     exists t f, cells l !! "Frequency" = Some (Some t) /\ float_of_str t = Some f /\
                 in_standard_band f = true /\ rest l = []) /\
  (forall l, filtered_out l = true <->
     exists t f, cells l !! "Frequency" = Some (Some t) /\ float_of_str t = Some f /\
                 in_standard_band f = false) /\
  (Forall (fun l => cells l !! "Frequency" <> Some None) lines ->
   filter_amateur_bands lines
   = Returned (map cells (filter (fun l => kept l = true) lines))
              (length (filter (fun l => kept l = true) lines),
               length (filter (fun l => filtered_out l = true) lines)) /\
   (length (filter (fun l => kept l = true) lines)
    + length (filter (fun l => filtered_out l = true) lines) <= length lines)%nat) /\
  (forall before l after, lines = before ++ l :: after ->
     Forall (fun l => cells l !! "Frequency" <> Some None) before ->
     cells l !! "Frequency" = Some None ->
     filter_amateur_bands lines
     = Aborted (map cells (filter (fun l => kept l = true) before)) TypeError).
Proof.
  split; [| split; [| split ] ].
  - intros l. unfold FilterBandsLines.kept, FilterBandsLines.frequency_of, refused.
    split.
    + destruct (cells l !! "Frequency") as [[t|]|] eqn:Ec; cbn [mbind option_bind];
        [| discriminate | discriminate ].
      destruct (float_of_str t) as [f|] eqn:Ef; [| discriminate ].
      destruct (in_standard_band f) eqn:Eb; [| discriminate ].
      destruct (rest l) as [|x xs] eqn:Er; [| discriminate ].
      intros _. exists t, f. repeat split; assumption.
    + intros (t & f & -> & Hf & Hb & ->). cbn [mbind option_bind].
      rewrite Hf, Hb. reflexivity.
  - intros l. unfold FilterBandsLines.filtered_out, FilterBandsLines.frequency_of.
    split.
    + destruct (cells l !! "Frequency") as [[t|]|] eqn:Ec; cbn [mbind option_bind];
        [| discriminate | discriminate ].
      destruct (float_of_str t) as [f|] eqn:Ef; [| discriminate ].
      destruct (in_standard_band f) eqn:Eb; [ discriminate |].
      intros _. exists t, f. repeat split; assumption.
    + intros (t & f & -> & Hf & Hb). cbn [mbind option_bind].
      rewrite Hf, Hb. reflexivity.
  - intros H. split.
    + unfold FilterBandsLines.filter_amateur_bands.
      rewrite (filter_for_each_goes_on lines _ H). reflexivity.
    + clear H. induction lines as [|l lines IH]; [ reflexivity |].
      rewrite !filter_cons.
      assert (kept l = true -> filtered_out l = false) as Hexcl.
      { unfold FilterBandsLines.kept, FilterBandsLines.filtered_out.
        destruct (FilterBandsLines.frequency_of float_of_str l) as [f|]; [| discriminate ].
        destruct (in_standard_band f); [ reflexivity | discriminate ]. }
      destruct (kept l) eqn:Ek.
      * rewrite (Hexcl eq_refl). rewrite decide_True by reflexivity.
        rewrite decide_False by discriminate. cbn [length]. lia.
      * rewrite decide_False by discriminate.
        destruct (filtered_out l);
          [ rewrite decide_True by reflexivity | rewrite decide_False by discriminate ];
          cbn [length]; lia.
  - intros before l after -> Hb Hl.
    unfold FilterBandsLines.filter_amateur_bands.
    rewrite for_each_app, (filter_for_each_goes_on before _ Hb), for_each_cons.
    rewrite (filter_iteration_stops l _ Hl). reflexivity.
Qed.

End FilterBandsLinesFacts.

(** ** Umlaut repair over any file *)

Section FixUmlautsLinesFacts.
Import PyStr Csv TextNormalizer Py FixUmlautsLines.
Variable nfd : str -> str.

Local Abbreviation step := (fun st field => fix_field_step nfd field st).

Lemma fix_field_step_spec (field : string) (st : state) :
  let st' := fix_field_step nfd field st in
  out_rows st' = out_rows st /\
  fixed_count st <= fixed_count st' <= fixed_count st + 1 /\
  dom (row st') = dom (row st) /\
  (forall k, k <> field -> row st' !! k = row st !! k) /\
  match row st !! field with
  | Some (Some (c :: cs)) =>
      row st' !! field = Some (Some (convert_umlauts_fix nfd (c :: cs)))
  | other => row st' !! field = other
  end.
Proof.
  cbn zeta. unfold fix_field_step.
  destruct (row st !! field) as [[[|c cs]|]|] eqn:E;
    try (repeat split; first [ lia | assumption | reflexivity ]).
  generalize (convert_umlauts_fix nfd (c :: cs)). intros t.
  cbn [row out_rows fixed_count].
  split; [ reflexivity |]. split; [ destruct (str_eqb _ _); lia |].
  split; [| split ].
  - rewrite dom_insert_L. apply subseteq_union_1_L, singleton_subseteq_l, elem_of_dom. eauto.
  - intros k Hk. apply lookup_insert_ne. congruence.
  - apply lookup_insert_eq.
Qed.

Lemma fix_fields_spec (fields : list string) (st : state) :
  NoDup fields ->
  let st' := fold_left step fields st in
  out_rows st' = out_rows st /\
  fixed_count st <= fixed_count st' <= fixed_count st + length fields /\
  dom (row st') = dom (row st) /\
  (forall k, k ∉ fields -> row st' !! k = row st !! k) /\
  (forall k, k ∈ fields ->
     match row st !! k with
     | Some (Some (c :: cs)) =>
         row st' !! k = Some (Some (convert_umlauts_fix nfd (c :: cs)))
     | other => row st' !! k = other
     end).
Proof.
  cbn zeta. intros Hnd. revert st. induction Hnd as [|field fields Hnotin Hnd IH]; intros st.
  - cbn [fold_left length]. repeat split; try lia.
    intros k Hk. apply elem_of_nil in Hk. contradiction.
  - cbn [fold_left length].
    pose proof (fix_field_step_spec field st) as (Ho & Hn & Hd & Hother & Hfield).
    cbn zeta in Ho, Hn, Hd, Hother, Hfield.
    destruct (IH (fix_field_step nfd field st)) as (IHo & IHn & IHd & IHother & IHin).
    split; [ congruence |]. split; [ lia |]. split; [ congruence |]. split.
    + intros k Hk. apply not_elem_of_cons in Hk as [Hne Hk].
      rewrite (IHother k Hk). apply Hother. exact Hne.
    + intros k Hk. apply elem_of_cons in Hk as [-> | Hk].
      * destruct (row st !! field) as [[[|c cs]|]|];
          (etransitivity; [ apply (IHother field Hnotin) | exact Hfield ]).
      * assert (k <> field) as Hne by (intros ->; contradiction).
        specialize (IHin k Hk). pose proof (Hother k Hne) as E.
        unfold str in *. rewrite E in IHin. exact IHin.
Qed.

(** The count a row adds does not depend on the count before it. *)
Lemma fix_fields_from (fields : list string) (st : state) :
  fold_left step fields st
  = {| row := row (fold_left step fields
                     {| row := row st; out_rows := []; fixed_count := 0 |});
       out_rows := out_rows st;
       fixed_count :=
         fixed_count st
         + fixed_count (fold_left step fields
                          {| row := row st; out_rows := []; fixed_count := 0 |}) |}.
Proof.
  revert st. induction fields as [|field fields IH]; intros st.
  - cbn [fold_left row out_rows fixed_count]. rewrite Nat.add_0_r. destruct st; reflexivity.
  - cbn [fold_left].
    assert (forall st0, fix_field_step nfd field st0
                        = {| row := row (fix_field_step nfd field
                                           {| row := row st0; out_rows := [];
                                              fixed_count := 0 |});
                             out_rows := out_rows st0;
                             fixed_count :=
                               fixed_count st0
                               + fixed_count (fix_field_step nfd field
                                                {| row := row st0; out_rows := [];
                                                   fixed_count := 0 |}) |}) as Hstep.
    { intros st0. unfold fix_field_step. cbn [row out_rows fixed_count].
      destruct (row st0 !! field) as [[[|c cs]|]|];
        cbn [row out_rows fixed_count]; rewrite ?Nat.add_0_r; try (destruct st0; reflexivity).
      generalize (convert_umlauts_fix nfd (c :: cs)). intros t.
      destruct (str_eqb _ _); rewrite ?Nat.add_0_r, ?Nat.add_1_r; reflexivity. }
    rewrite (Hstep st), (Hstep {| row := row st; out_rows := []; fixed_count := 0 |}).
    cbn [row out_rows fixed_count Nat.add].
    match goal with
    | |- context [fix_field_step nfd field ?s0] => generalize (fix_field_step nfd field s0)
    end.
    intros s1.
    rewrite (IH {| row := row s1; out_rows := out_rows st;
                   fixed_count := fixed_count st + fixed_count s1 |}).
    rewrite (IH {| row := row s1; out_rows := []; fixed_count := fixed_count s1 |}).
    cbn [row out_rows fixed_count]. f_equal. lia.
Qed.

Lemma for_each_fix_field (fields : list string) (st : state) :
  for_each (fix_field nfd) fields st = Done () (fold_left step fields st).
Proof.
  revert st. induction fields as [|field fields IH]; intros st; [ reflexivity |].
  rewrite for_each_cons. unfold fix_field at 1, modify. apply IH.
Qed.

Lemma text_fields_NoDup : NoDup text_fields.
Proof.
  unfold text_fields. repeat constructor; rewrite ?elem_of_cons, ?elem_of_nil;
    intros H; repeat destruct H as [H | H]; first [ discriminate H | contradiction ].
Qed.

(** One iteration: a row with the key [None] is refused, any other row
    is written with its three fields fixed. *)
Lemma umlauts_iteration (l : line) (st : state) :
  FixUmlautsLines.iteration nfd l st =
  if refused l
  then Raised ValueError {| row := fixed_row nfd (cells l);
                            out_rows := out_rows st;
                            fixed_count := fixed_count st + fixes_in nfd (cells l) |}
  else Done () {| row := fixed_row nfd (cells l);
                  out_rows := out_rows st ++ [fixed_row nfd (cells l)];
                  fixed_count := fixed_count st + fixes_in nfd (cells l) |}.
Proof.
  unfold FixUmlautsLines.iteration, mbind, prog_bind, modify.
  rewrite for_each_fix_field, fix_fields_from. cbn [row out_rows fixed_count].
  unfold writerow, fixed_row, fixes_in, fixed. destruct (refused l); reflexivity.
Qed.

Lemma umlauts_for_each (lines : list line) (st : state) :
  Forall (fun l => rest l = []) lines ->
  exists r, for_each (FixUmlautsLines.iteration nfd) lines st =
            Done () {| row := r;
                       out_rows := out_rows st ++ map (fun l => fixed_row nfd (cells l)) lines;
                       fixed_count :=
                         fixed_count st
                         + sum_list (map (fun l => fixes_in nfd (cells l)) lines) |}.
Proof.
  intros H. revert st. induction H as [|l lines Hl _ IH]; intros st.
  - exists (row st). cbn. rewrite app_nil_r, Nat.add_0_r. destruct st; reflexivity.
  - rewrite for_each_cons, umlauts_iteration. unfold refused. rewrite Hl.
    destruct (IH {| row := fixed_row nfd (cells l);
                    out_rows := out_rows st ++ [fixed_row nfd (cells l)];
                    fixed_count := fixed_count st + fixes_in nfd (cells l) |}) as [r ->].
    exists r. cbn [row out_rows fixed_count map].
    rewrite <- app_assoc. cbn [app].
    change (sum_list (fixes_in nfd (cells l) :: map (fun l0 => fixes_in nfd (cells l0)) lines))
      with (fixes_in nfd (cells l) + sum_list (map (fun l0 => fixes_in nfd (cells l0)) lines)).
    f_equal. f_equal. lia.
Qed.

(** On a file in which no line has more cells than the header, the umlaut
    repair returns after writing one row per line, in input order, with the
    same columns: a Name, Sub Name or Group Name that holds a text which is
    not empty holds its conversion, which is ASCII text, and every other
    cell is as read; the count it returns is at most three per line.  On
    any other file the run stops with [ValueError] at the first line with
    more cells than the header, for which the script has no handler, and
    the output keeps the rows of the lines before it. *)
Theorem fix_csv_umlauts_rows (lines : list line) :
  (Forall (fun l => rest l = []) lines ->
   exists written fixed_count,
     fix_csv_umlauts nfd lines = Returned written fixed_count /\
     length written = length lines /\ fixed_count <= 3 * length lines /\
     forall i l, lines !! i = Some l ->
       exists w, written !! i = Some w /\
         dom w = dom (cells l) /\
         (forall k, k ∉ text_fields -> w !! k = cells l !! k) /\
         (forall k, k ∈ text_fields ->
            match cells l !! k with
            | Some (Some (c :: cs)) =>
                w !! k = Some (Some (convert_umlauts_fix nfd (c :: cs))) /\
                is_ascii (convert_umlauts_fix nfd (c :: cs))
            | other => w !! k = other
            end)) /\
  (forall before l after, lines = before ++ l :: after ->
     Forall (fun l => rest l = []) before -> rest l <> [] ->
     exists written n,
       fix_csv_umlauts nfd lines = Aborted written ValueError /\
       fix_csv_umlauts nfd before = Returned written n /\
       length written = length before).
Proof.
  split.
  - intros H. unfold fix_csv_umlauts.
    destruct (umlauts_for_each lines {| row := ∅; out_rows := []; fixed_count := 0 |} H)
      as [r ->].
    cbn [out_rows fixed_count app Nat.add]. eexists _, _. split; [ reflexivity |].
    rewrite length_map. split; [ reflexivity |]. split.
    + clear H. induction lines as [|l lines IH]; [ cbn; lia |].
      cbn [map length].
      change (sum_list (fixes_in nfd (cells l) :: map (fun l0 => fixes_in nfd (cells l0)) lines))
        with (fixes_in nfd (cells l) + sum_list (map (fun l0 => fixes_in nfd (cells l0)) lines)).
      pose proof (fix_fields_spec text_fields
                    {| row := cells l; out_rows := []; fixed_count := 0 |}
                    text_fields_NoDup) as (_ & Hn & _).
      cbn zeta in Hn. cbn [fixed_count length text_fields] in Hn.
      unfold fixes_in, fixed in *. lia.
    + intros i l Hi. exists (fixed_row nfd (cells l)).
      split; [ rewrite list_lookup_fmap_Some; eauto |].
      pose proof (fix_fields_spec text_fields
                    {| row := cells l; out_rows := []; fixed_count := 0 |}
                    text_fields_NoDup) as (_ & _ & Hd & Hother & Hin).
      cbn zeta in Hd, Hother, Hin. cbn [row] in Hd, Hother, Hin.
      split; [ exact Hd |]. split; [ exact Hother |].
      intros k Hk. specialize (Hin k Hk).
      destruct (cells l !! k) as [[[|c cs]|]|]; try exact Hin.
      split; [ exact Hin | apply convert_umlauts_ascii_only_fix ].
  - intros before l after -> Hb Hl. unfold fix_csv_umlauts. rewrite for_each_app.
    destruct (umlauts_for_each before {| row := ∅; out_rows := []; fixed_count := 0 |} Hb)
      as [r ->].
    rewrite for_each_cons, umlauts_iteration. unfold refused.
    destruct (rest l) as [|x xs]; [ congruence |].
    cbn [out_rows fixed_count app Nat.add].
    eexists _, _. split; [ reflexivity |]. split; [ reflexivity | apply length_map ].
Qed.

End FixUmlautsLinesFacts.

(** ** GPS columns for any channel file *)

Section AddGpsLinesFacts.
Import PyStr Csv Py AddGpsLines.

(** A line the loop gets past: its call sign cell is there, its name
    cell is there if the call sign is blank, and it has no more cells than
    the header. *)
Local Abbreviation readable := (fun l : line =>
  rest l = [] /\
  exists s, Py.get l "RPT1 Call Sign" (VStr []) = VStr s /\
            (strip s = [] -> exists n, Py.get l "Name" (VStr []) = VStr n)).

(** The key of lines 81-83, by the cells. *)
Lemma lookup_key_Ok (l : line) (callsign : str) :
  lookup_key l = Ok callsign <->
  exists s, Py.get l "RPT1 Call Sign" (VStr []) = VStr s /\
    ((strip s <> [] /\ callsign = strip s) \/
     (strip s = [] /\ exists n, Py.get l "Name" (VStr []) = VStr n /\ callsign = strip n)).
Proof.
  unfold lookup_key.
  destruct (Py.get l "RPT1 Call Sign" (VStr [])) as [|s|x|z];
    cbn [call mbind result_bind];
    try (split; [ discriminate | intros (s' & H & _); discriminate H ]).
  destruct (strip s) as [|c cs] eqn:Es.
  - destruct (Py.get l "Name" (VStr [])) as [|n|x|z]; cbn [call].
    + split; [ discriminate |].
      intros (s' & [= <-] & [[H _] | (_ & n & Hn & _)]); [ congruence | discriminate Hn ].
    + split.
      * intros [= <-]. exists s. split; [ reflexivity |]. right.
        split; [ exact Es |]. exists n. split; reflexivity.
      * intros (s' & [= <-] & [[H _] | (_ & n' & [= <-] & ->)]); [ congruence | reflexivity ].
    + split; [ discriminate |].
      intros (s' & [= <-] & [[H _] | (_ & n & Hn & _)]); [ congruence | discriminate Hn ].
    + split; [ discriminate |].
      intros (s' & [= <-] & [[H _] | (_ & n & Hn & _)]); [ congruence | discriminate Hn ].
  - split.
    + intros [= <-]. exists s. split; [ reflexivity |]. left.
      split; [ rewrite Es; discriminate | symmetry; exact Es ].
    + intros (s' & [= <-] & [[_ ->] | (H & _)]);
        [ rewrite Es; reflexivity | rewrite Es in H; discriminate H ].
Qed.

Lemma lookup_key_Raise (l : line) (e : exn) : lookup_key l = Raise e -> e = AttributeError.
Proof.
  unfold lookup_key.
  destruct (Py.get l "RPT1 Call Sign" (VStr [])) as [|s|x|z];
    cbn [call mbind result_bind]; try (intros [= <-]; reflexivity).
  destruct (strip s); [| discriminate ].
  destruct (Py.get l "Name" (VStr [])) as [|n|x|z]; cbn [call];
    first [ discriminate | intros [= <-]; reflexivity ].
Qed.

Lemma readable_lookup_key (l : line) :
  readable l <-> rest l = [] /\ exists callsign, lookup_key l = Ok callsign.
Proof.
  split.
  - intros (Hrest & s & Hs & Hn). split; [ exact Hrest |].
    destruct (strip s) as [|c cs] eqn:Es.
    + destruct (Hn eq_refl) as [n Hname]. exists (strip n). apply lookup_key_Ok.
      exists s. split; [ exact Hs |]. right. split; [ exact Es |]. eauto.
    + exists (strip s). apply lookup_key_Ok. exists s. split; [ exact Hs |]. left.
      split; [ rewrite Es; discriminate | reflexivity ].
  - intros (Hrest & callsign & Hk). split; [ exact Hrest |].
    apply lookup_key_Ok in Hk as (s & Hs & [[Hne _] | (He & n & Hn & _)]).
    + exists s. split; [ exact Hs | intros H; congruence ].
    + exists s. split; [ exact Hs | intros _; eauto ].
Qed.

(** Where the entries of the GPS table come from. *)
Lemma add_gps_lines_entries (lines : list line) (table : gmap (option str) gps_cells) :
  match for_each add_gps_line lines table with
  | Done _ m =>
      forall c info, m !! c = Some info ->
        table !! c = Some info \/
        exists g, g ∈ lines /\ cells g !! "callsign" = Some c /\ info = gps_cells_of g
  | Raised e _ => e = KeyError
  end.
Proof.
  revert table. induction lines as [|l lines IH]; intros table.
  - cbn. intros c info H. left. exact H.
  - rewrite for_each_cons. unfold add_gps_line at 1.
    destruct (cells l !! "callsign") as [callsign|] eqn:El; [| reflexivity ].
    unfold modify. specialize (IH (<[callsign := gps_cells_of l]> table)).
    destruct (for_each add_gps_line lines _) as [[] m|e m]; [| exact IH ].
    intros c info H. destruct (IH c info H) as [Hin | (g & Hg & Hc & Hi)].
    + destruct (decide (callsign = c)) as [-> | Hne].
      * rewrite lookup_insert_eq in Hin. injection Hin as <-.
        right. exists l. split; [ apply elem_of_cons; left; reflexivity |]. split; [ exact El | reflexivity ].
      * rewrite lookup_insert_ne in Hin by exact Hne. left. exact Hin.
    + right. exists g. split; [ apply elem_of_cons; right; exact Hg |]. split; assumption.
Qed.

Lemma read_intermediate_csv_entries (lines : list line) (c : option str) (info : gps_cells) :
  read_intermediate_csv lines !! c = Some info ->
  exists g, g ∈ lines /\ cells g !! "callsign" = Some c /\
    lat info = default (Some []) (cells g !! "lat") /\
    long info = default (Some []) (cells g !! "long") /\
    landmark info = default (Some []) (cells g !! "landmark") /\
    locator info = default (Some []) (cells g !! "locator").
Proof.
  unfold read_intermediate_csv, try_except.
  pose proof (add_gps_lines_entries lines ∅) as H.
  destruct (for_each add_gps_line lines ∅) as [[] m|e m].
  - intros Hc. destruct (H c info Hc) as [Hin | (g & Hg & Hcall & ->)].
    + rewrite lookup_empty in Hin. discriminate Hin.
    + exists g. repeat split; assumption.
  - subst e. cbn. rewrite lookup_empty. discriminate.
Qed.

Variable gps_data : gmap (option str) gps_cells.

(** One iteration on a line that is readable. *)
Lemma enhance_iteration_readable (l : line) (st : state) (callsign : str) :
  rest l = [] -> lookup_key l = Ok callsign ->
  AddGpsLines.iteration gps_data l st =
  Done () {| row := enhance_row gps_data (cells l) callsign;
             out_rows := out_rows st ++ [enhance_row gps_data (cells l) callsign];
             rows_processed := S (rows_processed st);
             rows_with_gps := rows_with_gps st
                              + match gps_data !! Some callsign with
                                | Some _ => 1
                                | None => 0
                                end |}.
Proof.
  intros Hrest Hkey.
  unfold AddGpsLines.iteration, mbind, prog_bind, modify, lift, writerow, refused, enhance_row.
  rewrite Hkey, Hrest. cbn [row out_rows rows_processed rows_with_gps].
  destruct (gps_data !! Some callsign);
    cbn [row out_rows rows_processed rows_with_gps];
    rewrite ?Nat.add_0_r, ?Nat.add_1_r; reflexivity.
Qed.

(** One iteration on a line that is not: the handler of line 106 gets
    [AttributeError] from a cell that is [None], or [ValueError] from the
    writer; nothing is written for the line. *)
Lemma enhance_iteration_fails (l : line) (st : state) :
  ~ readable l ->
  exists st', AddGpsLines.iteration gps_data l st =
              Raised (match lookup_key l with
                      | Ok _ => ValueError
                      | Raise _ => AttributeError
                      end) st'
              /\ out_rows st' = out_rows st.
Proof.
  intros Hnot.
  unfold AddGpsLines.iteration, mbind, prog_bind, modify, lift, writerow, refused.
  destruct (lookup_key l) as [callsign|e] eqn:Ek.
  - assert (rest l <> []) as Hrest.
    { intros E. apply Hnot, readable_lookup_key. eauto. }
    destruct (rest l) as [|x xs]; [ congruence |].
    destruct (gps_data !! Some callsign); eexists; split; reflexivity.
  - rewrite (lookup_key_Raise l e Ek). eexists. split; reflexivity.
Qed.

(** The key of each readable line. *)
Lemma lookup_keys (lines : list line) :
  Forall readable lines ->
  exists keys, Forall2 (fun l callsign => lookup_key l = Ok callsign) lines keys.
Proof.
  intros H. induction H as [|l lines Hl _ [keys IH]].
  - exists []. constructor.
  - apply readable_lookup_key in Hl as (_ & callsign & Hk).
    exists (callsign :: keys). constructor; assumption.
Qed.

Lemma enhance_for_each (lines : list line) (keys : list str) (st : state) :
  Forall (fun l => rest l = []) lines ->
  Forall2 (fun l callsign => lookup_key l = Ok callsign) lines keys ->
  exists r, for_each (AddGpsLines.iteration gps_data) lines st =
            Done () {| row := r;
                       out_rows :=
                         out_rows st
                         ++ zip_with (fun l callsign => enhance_row gps_data (cells l) callsign)
                              lines keys;
                       rows_processed := rows_processed st + length lines;
                       rows_with_gps :=
                         rows_with_gps st
                         + length (filter (fun callsign => is_Some (gps_data !! Some callsign))
                                     keys) |}.
Proof.
  intros Hrest Hkeys. revert st Hrest.
  induction Hkeys as [|l callsign lines keys Hk _ IH]; intros st Hrest.
  - exists (row st). cbn. rewrite app_nil_r, !Nat.add_0_r. destruct st; reflexivity.
  - apply Forall_cons in Hrest as [Hl Hrest].
    rewrite for_each_cons, (enhance_iteration_readable l st callsign Hl Hk).
    match goal with
    | |- context [for_each _ lines ?s] => destruct (IH s Hrest) as [r ->]
    end.
    exists r.
    cbn [row out_rows rows_processed rows_with_gps zip_with length].
    rewrite <- app_assoc, filter_cons. cbn [app].
    destruct (gps_data !! Some callsign) as [info|].
    + rewrite decide_True by eauto. cbn [length]. f_equal. f_equal; lia.
    + rewrite decide_False by (intros [? ?]; discriminate). f_equal. f_equal; lia.
Qed.

Lemma enhance_row_other (r : gmap string (option str)) (callsign : str) (k : string) :
  k ∉ gps_columns -> enhance_row gps_data r callsign !! k = r !! k.
Proof.
  intros Hk. unfold gps_columns in Hk.
  rewrite !not_elem_of_cons in Hk. destruct Hk as (H1 & H2 & H3 & H4 & _).
  unfold enhance_row. destruct (gps_data !! Some callsign);
    rewrite !lookup_insert_ne by congruence; reflexivity.
Qed.

End AddGpsLinesFacts.

Section AddGpsLinesRows.
Import PyStr Csv Py AddGpsLines.

Local Abbreviation readable := (fun l : line =>
  rest l = [] /\
  exists s, Py.get l "RPT1 Call Sign" (VStr []) = VStr s /\
            (strip s = [] -> exists n, Py.get l "Name" (VStr []) = VStr n)).

(** With an empty GPS table the function returns [False] and writes
    nothing.  Otherwise, on a channel file in which every line has its
    RPT1 Call Sign cell - and its Name cell, when the call sign is blank -
    and no line has more cells than the header, it returns [True] after
    writing one row per line, in input order: each row keeps its other
    columns and gets the four GPS columns, the values stored under the row's
    call sign - RPT1 Call Sign without surrounding blanks, or Name without
    them when that is empty - or four empty texts when the table has no such
    call sign.  The values stored under a call sign are the lat, long,
    locator and landmark cells of a line of the intermediate file with that
    call sign, the empty text for a column that file does not have.  On any
    other channel file the handler of line 106 makes it
    return [False] at the first line that ends before one of these cells
    ([AttributeError]) or has more cells than the header ([ValueError]), and
    the output keeps the rows of the lines before it. *)
Theorem enhance_fm_csv_with_gps_rows (fm_lines intermediate_lines : list line) :
  let gps_data := read_intermediate_csv intermediate_lines in
  (enhance_fm_csv_with_gps fm_lines intermediate_lines = NoGpsData <-> gps_data = ∅) /\
  (gps_data <> ∅ ->
   (Forall readable fm_lines ->
    exists written rows_with_gps,
      enhance_fm_csv_with_gps fm_lines intermediate_lines
        = Enhanced written (length fm_lines) rows_with_gps /\
      length written = length fm_lines /\ rows_with_gps <= length fm_lines /\
      forall i l, fm_lines !! i = Some l ->
        exists w callsign, written !! i = Some w /\
          (exists s, Py.get l "RPT1 Call Sign" (VStr []) = VStr s /\
             ((strip s <> [] /\ callsign = strip s) \/
              (strip s = [] /\
               exists n, Py.get l "Name" (VStr []) = VStr n /\ callsign = strip n))) /\
          (forall k, k ∉ gps_columns -> w !! k = cells l !! k) /\
          match gps_data !! Some callsign with
          | Some gps_info =>
              w !! "Latitude" = Some (lat gps_info) /\
              w !! "Longitude" = Some (long gps_info) /\
              w !! "Locator" = Some (locator gps_info) /\
              w !! "Landmark" = Some (landmark gps_info) /\
              exists g, g ∈ intermediate_lines /\
                cells g !! "callsign" = Some (Some callsign) /\
                lat gps_info = default (Some []) (cells g !! "lat") /\
                long gps_info = default (Some []) (cells g !! "long") /\
                locator gps_info = default (Some []) (cells g !! "locator") /\
                landmark gps_info = default (Some []) (cells g !! "landmark")
          | None => forall k, k ∈ gps_columns -> w !! k = Some (Some [])
          end) /\
   (forall before l after, fm_lines = before ++ l :: after ->
      Forall readable before -> ~ readable l ->
      exists written e,
        enhance_fm_csv_with_gps fm_lines intermediate_lines = Failed written e /\
        length written = length before /\
        (e = AttributeError \/ (e = ValueError /\ rest l <> [])))).
Proof.
  cbn zeta. unfold enhance_fm_csv_with_gps.
  destruct (decide (read_intermediate_csv intermediate_lines = ∅)) as [Hempty | Hdata].
  - split; [ split; auto | intros H; contradiction ].
  - split.
    { split; [| contradiction ].
      destruct (for_each _ fm_lines _) as [[] st|e st]; discriminate. }
    intros _.
    pose proof (read_intermediate_csv_entries intermediate_lines) as Hsource.
    revert Hsource. generalize (read_intermediate_csv intermediate_lines). clear Hdata.
    intros gps_data Hsource. split.
    + intros Hall.
      destruct (lookup_keys fm_lines Hall) as [keys Hkeys].
      assert (Forall (fun l => rest l = []) fm_lines) as Hrest.
      { apply Forall_forall. intros l Hl. rewrite Forall_forall in Hall.
        apply (Hall l Hl). }
      destruct (enhance_for_each gps_data fm_lines keys
                  {| row := ∅; out_rows := []; rows_processed := 0; rows_with_gps := 0 |}
                  Hrest Hkeys) as [r ->].
      cbn [out_rows rows_processed rows_with_gps app Nat.add].
      pose proof (Forall2_length _ _ _ Hkeys) as Hlen.
      eexists _, _. split; [ reflexivity |].
      split; [ rewrite length_zip_with; lia |].
      split; [ rewrite Hlen; apply length_filter |].
      intros i l Hi.
      destruct (Forall2_lookup_l _ _ _ _ _ Hkeys Hi) as (callsign & Hci & Hk).
      exists (enhance_row gps_data (cells l) callsign), callsign.
      split; [ rewrite lookup_zip_with, Hi, Hci; reflexivity |].
      split; [ apply lookup_key_Ok; exact Hk |].
      split; [ intros k; apply enhance_row_other |].
      unfold enhance_row. destruct (gps_data !! Some callsign) as [info|] eqn:Einfo.
      * split; [| split; [| split; [| split ] ] ];
          [ repeat first [ apply lookup_insert_eq | rewrite lookup_insert_ne by discriminate ] .. |].
        destruct (Hsource _ _ Einfo) as (g & Hg & Hc & Hlat & Hlong & Hlandmark & Hlocator).
        exists g. repeat split; assumption.
      * intros k Hk'. unfold gps_columns in Hk'.
        repeat (apply elem_of_cons in Hk' as [-> | Hk']);
          [ | | | | apply elem_of_nil in Hk'; contradiction ];
          repeat first [ apply lookup_insert_eq | rewrite lookup_insert_ne by discriminate ].
    + intros before l after -> Hb Hl.
      destruct (lookup_keys before Hb) as [keys Hkeys].
      assert (Forall (fun l => rest l = []) before) as Hrest.
      { apply Forall_forall. intros l' Hl'. rewrite Forall_forall in Hb.
        apply (Hb l' Hl'). }
      rewrite for_each_app.
      destruct (enhance_for_each gps_data before keys
                  {| row := ∅; out_rows := []; rows_processed := 0; rows_with_gps := 0 |}
                  Hrest Hkeys) as [r ->].
      rewrite for_each_cons.
      match goal with
      | |- context [AddGpsLines.iteration gps_data l ?s] =>
          destruct (enhance_iteration_fails gps_data l s Hl) as (st' & -> & Hout)
      end.
      rewrite Hout. cbn [out_rows app].
      pose proof (Forall2_length _ _ _ Hkeys) as Hlen.
      eexists _, _. split; [ reflexivity |].
      split; [ rewrite length_zip_with; lia |].
      destruct (lookup_key l) as [callsign|e] eqn:Ek; [| left; reflexivity ].
      right. split; [ reflexivity |]. intros Hr. apply Hl, readable_lookup_key. eauto.
Qed.

End AddGpsLinesRows.
